(** * PR review agent: analyzer adapters, feedback synthesis, quality score

    A shallow embedding of the analysis pipeline of the PR review agent
    ([analyzer/flake8_analyzer.py], [analyzer/pylint_analyzer.py],
    [analyzer/radon_analyzer.py], [feedback/feedback_generator.py] and
    [main.py]) together with the properties its specification states.

    Conventions of the embedding:
    - Python [str] values are byte strings ([string]); [lower], [strip] and
      [split] act on the ASCII range.
    - A Python [dict] used as a record is a [Record] whose optional keys are
      [option] fields; a [dict] that is iterated is an insertion-ordered
      association list ([Dict.t]); a [dict] that is only looked up is a
      [gmap].
    - Values that flow through untyped (fields of a tool's JSON output) are
      [PyVal]s.
    - A Python function that can raise returns [Res]. *)

From Stdlib Require Import ZArith QArith Qround Lia.
From Stdlib Require Import Ascii String DecimalString.
From stdpp Require Import base option list strings gmap.

Local Open Scope Z_scope.
Local Open Scope string_scope.
Local Open Scope list_scope.
Set Warnings "-register-all".

(** ** Python strings *)

Module Str.

Definition lower_ascii (c : ascii) : ascii :=
  let n := N_of_ascii c in
  if ((65 <=? n) && (n <=? 90))%N then ascii_of_N (n + 32) else c.

(** [s.lower()] *)
Fixpoint lower (s : string) : string :=
  match s with
  | EmptyString => EmptyString
  | String c s' => String (lower_ascii c) (lower s')
  end.

(** [s.startswith(p)] *)
Fixpoint startswith (p s : string) : bool :=
  match p, s with
  | EmptyString, _ => true
  | String a p', String b s' => if decide (a = b) then startswith p' s' else false
  | String _ _, EmptyString => false
  end.

(** [sub in s] *)
Fixpoint contains (sub s : string) : bool :=
  startswith sub s ||
  match s with
  | EmptyString => false
  | String _ s' => contains sub s'
  end.

(** The ASCII characters for which [str.isspace] holds.  Strings are byte
    strings here: white space outside ASCII, which [str.strip] also
    removes, is not modelled. *)
Definition is_space (c : ascii) : bool :=
  let n := N_of_ascii c in
  (((9 <=? n) && (n <=? 13)) || ((28 <=? n) && (n <=? 32)))%N.

Fixpoint lstrip (s : string) : string :=
  match s with
  | EmptyString => EmptyString
  | String c s' => if is_space c then lstrip s' else s
  end.

Fixpoint rstrip (s : string) : string :=
  match s with
  | EmptyString => EmptyString
  | String c s' =>
      match rstrip s' with
      | EmptyString => if is_space c then EmptyString else String c EmptyString
      | r => String c r
      end
  end.

(** [s.strip()] *)
Definition strip (s : string) : string := rstrip (lstrip s).

(** [split_from sep n s] is the pair of the first piece of [s] and the
    remaining pieces, cutting at the first [n] occurrences of [sep]. *)
Fixpoint split_from (sep : ascii) (n : nat) (s : string) : string * list string :=
  match s with
  | EmptyString => (EmptyString, [])
  | String c s' =>
      match n with
      | S n' =>
          if decide (c = sep)
          then (EmptyString, let '(h, t) := split_from sep n' s' in h :: t)
          else let '(h, t) := split_from sep n s' in (String c h, t)
      | O => (s, [])
      end
  end.

(** [s.split(sep, maxsplit)] for a one-character separator *)
Definition split_max (sep : ascii) (maxsplit : nat) (s : string) : list string :=
  let '(h, t) := split_from sep maxsplit s in h :: t.

(** [s.split(sep)] for a one-character separator *)
Definition split (sep : ascii) (s : string) : list string :=
  split_max sep (String.length s) s.

(** The decimal numeral of a length, as an f-string prints it. *)
Definition of_nat (n : nat) : string := NilEmpty.string_of_uint (Nat.to_uint n).

(** Truthiness of a string. *)
Definition nonempty (s : string) : bool :=
  match s with EmptyString => false | _ => true end.

End Str.

(** ** Insertion-ordered dictionaries with string keys *)

Module Dict.

Definition t (V : Type) : Type := list (string * V).

Fixpoint get {V} (d : t V) (k : string) : option V :=
  match d with
  | [] => None
  | (k', v) :: d' => if decide (k' = k) then Some v else get d' k
  end.

(** [d[k] = v]: an existing key keeps its position. *)
Fixpoint set {V} (k : string) (v : V) (d : t V) : t V :=
  match d with
  | [] => [(k, v)]
  | (k', v') :: d' => if decide (k' = k) then (k, v) :: d' else (k', v') :: set k v d'
  end.

Definition keys {V} (d : t V) : list string := d.*1.
Definition values {V} (d : t V) : list V := d.*2.
Definition items {V} (d : t V) : list (string * V) := d.

(** [dict.fromkeys(l)] *)
Definition fromkeys (l : list string) : t unit :=
  foldl (fun d k => set k tt d) [] l.

End Dict.

(** ** Python values, exceptions, results *)

Inductive PyFloat :=
| FFinite (q : Q)
| FInf (negative : bool)
| FNaN.

(** The values [json.loads] can return, which are also the values an issue
    field can hold. *)
Inductive PyVal :=
| PyNone
| PyBool (b : bool)
| PyInt (z : Z)
| PyFloatV (f : PyFloat)
| PyStr (s : string)
| PyList (l : list PyVal)
| PyDict (d : Dict.t PyVal).

(** The exceptions of the pipeline.  [FileNotFoundError] and [OSError] come
    from the operating environment and carry its text ([OSError] stands for
    every failure of the environment other than a missing binary); the
    others are raised by an operation of the interpreter on the operand they
    record. *)
Inductive PyExn :=
| FileNotFoundError (msg : string)
| OSError (msg : string)
| KeyError (key : string)
| TypeError (operation : string) (operand : PyVal)
| AttributeError (attribute : string) (operand : PyVal)
| ValueError (function : string) (argument : string).

Inductive Res (A : Type) :=
| Ok (a : A)
| Raise (e : PyExn).
Arguments Ok {A} a.
Arguments Raise {A} e.

Definition bind {A B} (m : Res A) (f : A -> Res B) : Res B :=
  match m with
  | Ok a => f a
  | Raise e => Raise e
  end.

Notation "'let*' x ':=' m 'in' k" := (bind m (fun x => k))
  (at level 10, x name, m at level 100, k at level 200).

(** *** Operations of the interpreter on values *)

(** [v == s] for a string literal [s] *)
Definition py_eq_str (v : PyVal) (s : string) : bool :=
  match v with
  | PyStr s' => bool_decide (s' = s)
  | _ => false
  end.

(** [iter(v)]: the items a [for] loop over [v] visits. *)
Definition py_iter (v : PyVal) : Res (list PyVal) :=
  match v with
  | PyList l => Ok l
  | PyDict d => Ok (PyStr <$> Dict.keys d)
  | PyStr s => Ok ((fun c => PyStr (String c EmptyString)) <$> list_ascii_of_string s)
  | _ => Raise (TypeError "iter" v)
  end.

(** [v[k]] for a string literal [k] *)
Definition py_getitem (v : PyVal) (k : string) : Res PyVal :=
  match v with
  | PyDict d =>
      match Dict.get d k with
      | Some x => Ok x
      | None => Raise (KeyError k)
      end
  | _ => Raise (TypeError "getitem" v)
  end.

(** [v.get(k, dflt)] *)
Definition py_get (v : PyVal) (k : string) (dflt : PyVal) : Res PyVal :=
  match v with
  | PyDict d => Ok (default dflt (Dict.get d k))
  | _ => Raise (AttributeError "get" v)
  end.

(** [s in v] for a string literal [s] *)
Definition py_contains (s : string) (v : PyVal) : Res bool :=
  match v with
  | PyDict d => Ok (bool_decide (is_Some (Dict.get d s)))
  | PyList l => Ok (existsb (fun x => py_eq_str x s) l)
  | PyStr t => Ok (Str.contains s t)
  | _ => Raise (TypeError "in" v)
  end.

(** [v > n] for an integer literal [n]; numbers compare by value. *)
Definition py_gt (v : PyVal) (n : Z) : Res bool :=
  match v with
  | PyInt z => Ok (n <? z)%Z
  | PyBool b => Ok (n <? (if b then 1 else 0))%Z
  | PyFloatV (FFinite q) => Ok (negb (Qle_bool q (inject_Z n)))
  | PyFloatV (FInf negative) => Ok (negb negative)
  | PyFloatV FNaN => Ok false
  | _ => Raise (TypeError ">" v)
  end.

(** [foldM f b l]: a [for] loop over [l] whose body [f] can raise. *)
Fixpoint foldM {A B} (f : B -> A -> Res B) (b : B) (l : list A) : Res B :=
  match l with
  | [] => Ok b
  | x :: l' => let* b' := f b x in foldM f b' l'
  end.

(** [for_each body st l]: a [for] loop inside a [try] block.  The body
    updates the state in place, so when it raises the updates made so far
    stay: the result is the state reached and the exception, if any. *)
Fixpoint for_each {A S} (body : S -> A -> S * option PyExn) (st : S) (l : list A)
    : S * option PyExn :=
  match l with
  | [] => (st, None)
  | x :: l' =>
      match body st x with
      | (st', None) => for_each body st' l'
      | (st', Some e) => (st', Some e)
      end
  end.

(** *** The library functions and the operating environment

    What the code calls but does not define: the results of [json.loads]
    ([None] for [json.JSONDecodeError]; the other exceptions it can raise,
    such as [RecursionError] on deeply nested input, are not modelled) and
    of [int] on a string ([None] for [ValueError]), the text [str] gives a value in an f-string and an
    exception, and the two calls that reach outside the process.  The
    [nat] is the number of files the [analyze] call has materialized
    before. *)
Record Runtime := {
  json_loads : string -> option PyVal;
  int_of_str : string -> option Z;
  str_of : PyVal -> string;
  exn_str : PyExn -> string
}.

Record CompletedProcess := { stdout : string; stderr : string }.

Record Env := {
  (** [tempfile.NamedTemporaryFile(mode='w', suffix=splitext(filename)[1],
      delete=False)] and the write of the patch, from the file name and the
      patch; the name of the scratch file. *)
  named_temporary_file : nat -> string -> string -> Res string;
  (** [subprocess.run(argv, capture_output=True, text=True, cwd=os.getcwd())] *)
  subprocess_run : nat -> list string -> Res CompletedProcess
}.

(** ** Data model *)

Module ChangedFile.
Record t := mk {
  filename : string;
  status : string;
  additions : Z;
  deletions : Z;
  patch : string;
  raw_url : string
}.
End ChangedFile.

Module PRData.
Record t := mk { changed_files : list ChangedFile.t }.
End PRData.

(** An issue [dict] as an adapter builds it; a key an adapter may leave out
    is [None]. *)
Module Issue.
Record t := mk {
  file : option PyVal;
  line : option PyVal;
  column : option PyVal;
  code : option PyVal;
  message : option PyVal;
  severity : option PyVal;
  details : option PyVal
}.
End Issue.

(** The [dict] an adapter returns, and the [{"error": ...}] placeholder the
    orchestrator records for an adapter that raised. *)
Module AnalysisResult.
Record t := mk {
  total_issues : option Z;
  errors : option Z;
  warnings : option Z;
  infos : option Z;
  complexity_issues : option Z;
  issues : option (list Issue.t);
  error : option string
}.
End AnalysisResult.

Module FeedbackIssue.
Record t := mk {
  analyzer : string;
  file : PyVal;
  line : PyVal;
  message : PyVal;
  code : PyVal
}.
End FeedbackIssue.

Module BySeverity.
Record t := mk { critical : Z; high : Z; medium : Z; low : Z }.
End BySeverity.

Module Summary.
Record t := mk {
  total_issues : Z;
  by_severity : BySeverity.t;
  analyzers_used : list string
}.
End Summary.

Module Feedback.
Record t := mk {
  issues : Dict.t (list FeedbackIssue.t);
  recommendations : list string;
  summary : Summary.t
}.
End Feedback.

(** ** analyzer/: what the three adapters share

    The three [analyze] methods are the same loop around a different parser:
    filter on the status, materialize the patch, run the tool inside
    [try], parse its standard output, report its error stream, turn an
    exception into a synthetic issue.  [Adapter] is that loop; a [Tool]
    gives what differs.  The [finally] clause only unlinks the scratch file
    and swallows every error of doing so, so it leaves no trace here. *)

Module Adapter.

Record State (C : Type) := mkState { issues : list Issue.t; counters : C }.
Arguments mkState {C} issues counters.
Arguments issues {C} s.
Arguments counters {C} s.

(** [issues.append(i)] *)
Definition add_issue {C} (i : Issue.t) (st : State C) : State C :=
  mkState (issues st ++ [i]) (counters st).

Definition set_counters {C} (c : C) (st : State C) : State C :=
  mkState (issues st) c.

(** [{'file': filename, 'message': message, 'severity': 'error'}] *)
Definition synthetic (filename message : string) : Issue.t :=
  {| Issue.file := Some (PyStr filename);
     Issue.line := None;
     Issue.column := None;
     Issue.code := None;
     Issue.message := Some (PyStr message);
     Issue.severity := Some (PyStr "error");
     Issue.details := None |}.

Record Tool (C : Type) := mkTool {
  (** the tool's name as the messages spell it *)
  display_name : string;
  (** the command line for a scratch file *)
  argv : string -> list string;
  (** the parser of a non-empty standard output, for a file name *)
  parse_stdout : string -> State C -> string -> State C * option PyExn;
  (** the counters at the start *)
  zero : C;
  (** the returned [dict] *)
  result_of : State C -> AnalysisResult.t
}.
Arguments display_name {C} t.
Arguments argv {C} t.
Arguments parse_stdout {C} t.
Arguments zero {C} t.
Arguments result_of {C} t.

(** [file['status'] in ['added', 'modified']] *)
Definition eligible (file : ChangedFile.t) : bool :=
  bool_decide (ChangedFile.status file ∈ ["added"; "modified"]).

Section Loop.
Context {C : Type} (rt : Runtime) (env : Env) (tool : Tool C).

(** The [try] block for one file. *)
Definition try_body (filename : string) (st : State C) (k : nat)
    (tmp_filename : string) : State C * option PyExn :=
  match subprocess_run env k (argv tool tmp_filename) with
  | Raise e => (st, Some e)
  | Ok result =>
      let parsed :=
        if Str.nonempty (stdout result)
        then parse_stdout tool filename st (stdout result)
        else (st, None) in
      match parsed with
      | (st', Some e) => (st', Some e)
      | (st', None) =>
          (if Str.nonempty (stderr result)
           then add_issue
                  (synthetic filename
                     (display_name tool +:+ " error: " +:+ stderr result)) st'
           else st', None)
      end
  end.

(** The two [except] clauses. *)
Definition except (filename : string) (st : State C) (e : PyExn) : State C :=
  match e with
  | FileNotFoundError _ =>
      add_issue
        (synthetic filename (display_name tool +:+ " not installed or not in PATH")) st
  | _ =>
      add_issue
        (synthetic filename
           ("Error running " +:+ display_name tool +:+ ": " +:+ exn_str rt e)) st
  end.

(** The body of the loop over [changed_files]; the state carries the
    number of files materialized so far. *)
Definition analyze_file (acc : State C * nat) (file : ChangedFile.t)
    : Res (State C * nat) :=
  if eligible file then
    let filename := ChangedFile.filename file in
    let* tmp_filename :=
      named_temporary_file env acc.2 filename (ChangedFile.patch file) in
    let '(st, raised) := try_body filename acc.1 acc.2 tmp_filename in
    Ok (match raised with
        | Some e => except filename st e
        | None => st
        end, S acc.2)
  else Ok acc.

Definition analyze (changed_files : list ChangedFile.t) : Res AnalysisResult.t :=
  let* acc := foldM analyze_file (mkState [] (zero tool), 0%nat) changed_files in
  Ok (result_of tool acc.1).

End Loop.

End Adapter.

(** ** analyzer/flake8_analyzer.py *)

Module Flake8Analyzer.

Record Counters := mkCounters { total_errors : Z; total_warnings : Z }.

Definition _get_severity (code : string) : string :=
  if Str.startswith "E" code || Str.startswith "F" code then "error"
  else if Str.startswith "W" code || Str.startswith "C" code then "warning"
  else "info".

Definition _is_error (code : string) : bool :=
  Str.startswith "E" code || Str.startswith "F" code.

Section WithRuntime.
Context (rt : Runtime) (env : Env).

(** The body of the loop over the lines of the output. *)
Definition parse_line (filename : string) (st : Adapter.State Counters)
    (line : string) : Adapter.State Counters * option PyExn :=
  if Str.nonempty (Str.strip line) then
    match Str.split_max ":" 3 line with
    | row :: col :: code :: text :: _ =>
        match int_of_str rt row with
        | None => (st, Some (ValueError "int" row))
        | Some r =>
            match int_of_str rt col with
            | None => (st, Some (ValueError "int" col))
            | Some c =>
                let st := Adapter.add_issue
                  {| Issue.file := Some (PyStr filename);
                     Issue.line := Some (PyInt r);
                     Issue.column := Some (PyInt c);
                     Issue.code := Some (PyStr code);
                     Issue.message := Some (PyStr text);
                     Issue.severity := Some (PyStr (_get_severity code));
                     Issue.details := None |} st in
                let n := Adapter.counters st in
                (if _is_error code
                 then Adapter.set_counters
                        (mkCounters (total_errors n + 1) (total_warnings n)) st
                 else Adapter.set_counters
                        (mkCounters (total_errors n) (total_warnings n + 1)) st,
                 None)
            end
        end
    | _ => (st, None)
    end
  else (st, None).

Definition parse_stdout (filename : string) (st : Adapter.State Counters)
    (out : string) :=
  for_each (parse_line filename) st (Str.split "010" (Str.strip out)).

Definition tool : Adapter.Tool Counters :=
  {| Adapter.display_name := "Flake8";
     Adapter.argv := fun tmp_filename =>
       ["flake8"; "--format"; "%(row)s:%(col)s:%(code)s:%(text)s"; tmp_filename];
     Adapter.parse_stdout := parse_stdout;
     Adapter.zero := mkCounters 0 0;
     Adapter.result_of := fun st =>
       {| AnalysisResult.total_issues := Some (Z.of_nat (length (Adapter.issues st)));
          AnalysisResult.errors := Some (total_errors (Adapter.counters st));
          AnalysisResult.warnings := Some (total_warnings (Adapter.counters st));
          AnalysisResult.infos := None;
          AnalysisResult.complexity_issues := None;
          AnalysisResult.issues := Some (Adapter.issues st);
          AnalysisResult.error := None |} |}.

Definition analyze := Adapter.analyze rt env tool.

End WithRuntime.

End Flake8Analyzer.

(** ** analyzer/pylint_analyzer.py *)

Module PylintAnalyzer.

Record Counters := mkCounters {
  total_errors : Z; total_warnings : Z; total_infos : Z
}.

Definition _get_severity (category : PyVal) : string :=
  if py_eq_str category "error" then "error"
  else if py_eq_str category "warning" then "warning"
  else if py_eq_str category "convention" then "info"
  else if py_eq_str category "refactor" then "info"
  else if py_eq_str category "info" then "info"
  else "info".

Section WithRuntime.
Context (rt : Runtime) (env : Env).

(** The five subscripts at the head of the loop body. *)
Definition fields (item : PyVal) :=
  let* message := py_getitem item "message" in
  let* line := py_getitem item "line" in
  let* column := py_getitem item "column" in
  let* category := py_getitem item "category" in
  let* symbol := py_getitem item "symbol" in
  Ok (message, line, column, category, symbol).

(** The body of the loop over the items of the output. *)
Definition parse_item (filename : string) (st : Adapter.State Counters)
    (item : PyVal) : Adapter.State Counters * option PyExn :=
  match fields item with
  | Raise e => (st, Some e)
  | Ok (message, line, column, category, symbol) =>
      let st := Adapter.add_issue
        {| Issue.file := Some (PyStr filename);
           Issue.line := Some line;
           Issue.column := Some column;
           Issue.code := Some symbol;
           Issue.message := Some message;
           Issue.severity := Some (PyStr (_get_severity category));
           Issue.details := None |} st in
      let n := Adapter.counters st in
      (if py_eq_str category "error"
       then Adapter.set_counters
              (mkCounters (total_errors n + 1) (total_warnings n) (total_infos n)) st
       else if py_eq_str category "warning"
       then Adapter.set_counters
              (mkCounters (total_errors n) (total_warnings n + 1) (total_infos n)) st
       else if py_eq_str category "info"
       then Adapter.set_counters
              (mkCounters (total_errors n) (total_warnings n) (total_infos n + 1)) st
       else st, None)
  end.

Definition parse_stdout (filename : string) (st : Adapter.State Counters)
    (out : string) : Adapter.State Counters * option PyExn :=
  match json_loads rt out with
  | None =>
      (Adapter.add_issue
         (Adapter.synthetic filename ("Pylint output parsing error: " +:+ out)) st,
       None)
  | Some pylint_output =>
      match py_iter pylint_output with
      | Raise e => (st, Some e)
      | Ok items => for_each (parse_item filename) st items
      end
  end.

Definition tool : Adapter.Tool Counters :=
  {| Adapter.display_name := "Pylint";
     Adapter.argv := fun tmp_filename =>
       ["pylint"; "--output-format=json"; tmp_filename];
     Adapter.parse_stdout := parse_stdout;
     Adapter.zero := mkCounters 0 0 0;
     Adapter.result_of := fun st =>
       {| AnalysisResult.total_issues := Some (Z.of_nat (length (Adapter.issues st)));
          AnalysisResult.errors := Some (total_errors (Adapter.counters st));
          AnalysisResult.warnings := Some (total_warnings (Adapter.counters st));
          AnalysisResult.infos := Some (total_infos (Adapter.counters st));
          AnalysisResult.complexity_issues := None;
          AnalysisResult.issues := Some (Adapter.issues st);
          AnalysisResult.error := None |} |}.

Definition analyze := Adapter.analyze rt env tool.

End WithRuntime.

End PylintAnalyzer.

(** ** analyzer/radon_analyzer.py (the file is under analyzer/__pycache__/) *)

Module RadonAnalyzer.

(** The high complexity threshold. *)
Definition threshold : Z := 5.

Section WithRuntime.
Context (rt : Runtime) (env : Env).

(** The five subscripts under [if 'complexity' in item]. *)
Definition fields (item : PyVal) :=
  let* complexity := py_getitem item "complexity" in
  let* name := py_getitem item "name" in
  let* loc := py_getitem item "loc" in
  let* lloc := py_getitem item "lloc" in
  let* cc := py_getitem item "cc" in
  Ok (complexity, name, loc, lloc, cc).

(** The issue of a flagged unit. *)
Definition flagged (filename : string) (start_line : PyVal)
    (complexity name loc lloc cc : PyVal) : Issue.t :=
  {| Issue.file := Some (PyStr filename);
     Issue.line := Some start_line;
     Issue.column := None;
     Issue.code := None;
     Issue.message := Some (PyStr
       ("High complexity detected in " +:+ str_of rt name +:+ ": " +:+
        str_of rt complexity +:+ " (CC: " +:+ str_of rt cc +:+ ")"));
     Issue.severity := Some (PyStr "warning");
     Issue.details := Some (PyDict
       [("complexity", complexity); ("name", name); ("loc", loc);
        ("lloc", lloc); ("cc", cc)]) |}.

(** What the body of the loop decides for one item: nothing to do, or
    the issue to append. *)
Definition inspect_item (filename : string) (item : PyVal) : Res (option Issue.t) :=
  let* has_complexity := py_contains "complexity" item in
  if has_complexity then
    let* f := fields item in
    let '(complexity, name, loc, lloc, cc) := f in
    let* high := py_gt complexity threshold in
    if high then
      let* start_line := py_get item "start_line" (PyInt 0) in
      Ok (Some (flagged filename start_line complexity name loc lloc cc))
    else Ok None
  else Ok None.

(** The body of the loop over the items of the output. *)
Definition parse_item (filename : string) (st : Adapter.State Z) (item : PyVal)
    : Adapter.State Z * option PyExn :=
  match inspect_item filename item with
  | Raise e => (st, Some e)
  | Ok (Some issue) =>
      let st := Adapter.add_issue issue st in
      (Adapter.set_counters (Adapter.counters st + 1) st, None)
  | Ok None => (st, None)
  end.

Definition parse_stdout (filename : string) (st : Adapter.State Z) (out : string)
    : Adapter.State Z * option PyExn :=
  match json_loads rt out with
  | None =>
      (Adapter.add_issue
         (Adapter.synthetic filename ("Radon output parsing error: " +:+ out)) st,
       None)
  | Some radon_output =>
      match py_iter radon_output with
      | Raise e => (st, Some e)
      | Ok items => for_each (parse_item filename) st items
      end
  end.

Definition tool : Adapter.Tool Z :=
  {| Adapter.display_name := "Radon";
     Adapter.argv := fun tmp_filename =>
       ["radon"; "cc"; "--json"; "--no-assert"; tmp_filename];
     Adapter.parse_stdout := parse_stdout;
     Adapter.zero := 0;
     Adapter.result_of := fun st =>
       {| AnalysisResult.total_issues := Some (Z.of_nat (length (Adapter.issues st)));
          AnalysisResult.errors := None;
          AnalysisResult.warnings := None;
          AnalysisResult.infos := None;
          AnalysisResult.complexity_issues := Some (Adapter.counters st);
          AnalysisResult.issues := Some (Adapter.issues st);
          AnalysisResult.error := None |} |}.

Definition analyze := Adapter.analyze rt env tool.

End WithRuntime.

End RadonAnalyzer.

(** ** feedback/feedback_generator.py *)

Module FeedbackGenerator.

Definition severity_mapping : gmap string string :=
  {[ "error" := "critical"; "warning" := "high"; "info" := "medium" ]}.

(** [severity.lower()], which only a [str] has. *)
Definition py_lower (v : PyVal) : Res string :=
  match v with
  | PyStr s => Ok (Str.lower s)
  | _ => Raise (AttributeError "lower" v)
  end.

Definition _map_severity (severity : PyVal) : Res string :=
  let* s := py_lower severity in
  Ok (default "medium" (severity_mapping !! s)).

(** [feedback['issues'][severity].append(x)] *)
Definition bucket_append (severity : string) (x : FeedbackIssue.t)
    (buckets : Dict.t (list FeedbackIssue.t)) : Res (Dict.t (list FeedbackIssue.t)) :=
  match Dict.get buckets severity with
  | Some l => Ok (Dict.set severity (l ++ [x]) buckets)
  | None => Raise (KeyError severity)
  end.

Definition reduced (analyzer_name : string) (issue : Issue.t) : FeedbackIssue.t :=
  {| FeedbackIssue.analyzer := analyzer_name;
     FeedbackIssue.file := default (PyStr "unknown") (Issue.file issue);
     FeedbackIssue.line := default (PyInt 0) (Issue.line issue);
     FeedbackIssue.message := default (PyStr "Unknown issue") (Issue.message issue);
     FeedbackIssue.code := default (PyStr "unknown") (Issue.code issue) |}.

Definition categorize_issue (analyzer_name : string)
    (buckets : Dict.t (list FeedbackIssue.t)) (issue : Issue.t) :=
  let* severity := _map_severity (default (PyStr "info") (Issue.severity issue)) in
  bucket_append severity (reduced analyzer_name issue) buckets.

(** The body of the loop over [analysis_results.items()]. *)
Definition categorize_result (buckets : Dict.t (list FeedbackIssue.t))
    (entry : string * AnalysisResult.t) :=
  match AnalysisResult.issues entry.2 with
  | Some (i :: l) => foldM (categorize_issue entry.1) buckets (i :: l)
  | _ => Ok buckets
  end.

Definition empty_buckets : Dict.t (list FeedbackIssue.t) :=
  [("critical", []); ("high", []); ("medium", []); ("low", [])].

(** The common shape of [_has_security_issues], [_has_performance_issues]
    and [_has_documentation_issues]: the inner loop over one result's
    issues, leaving at the first match. *)
Fixpoint scan_issues (keywords : list string) (l : list Issue.t) : Res bool :=
  match l with
  | [] => Ok false
  | issue :: l' =>
      let* message := py_lower (default (PyStr "") (Issue.message issue)) in
      if existsb (fun keyword => Str.contains keyword message) keywords
      then Ok true
      else scan_issues keywords l'
  end.

(** [if 'issues' in result: for issue in result['issues']: ...] *)
Definition scan_result (keywords : list string) (result : AnalysisResult.t) : Res bool :=
  match AnalysisResult.issues result with
  | Some l => scan_issues keywords l
  | None => Ok false
  end.

Fixpoint scan_results (keywords : list string)
    (analysis_results : Dict.t AnalysisResult.t) : Res bool :=
  match analysis_results with
  | [] => Ok false
  | (_, result) :: rest =>
      let* found := scan_result keywords result in
      if found then Ok true else scan_results keywords rest
  end.

Definition security_keywords := ["security"; "vulnerability"; "injection"; "sql"].
Definition performance_keywords := ["performance"; "slow"; "inefficient"; "memory"].
Definition documentation_keywords := ["docstring"; "documentation"; "missing"].

Definition _has_security_issues := scan_results security_keywords.

Definition _has_performance_issues := scan_results performance_keywords.

Definition _has_documentation_issues := scan_results documentation_keywords.

(** [issues[k]] *)
Definition bucket (issues : Dict.t (list FeedbackIssue.t)) (k : string) :=
  match Dict.get issues k with
  | Some l => Ok l
  | None => Raise (KeyError k)
  end.

Definition style_advice := "Ensure all code follows the project's style guidelines".
Definition review_advice := "Review all identified issues before merging".
Definition fix_critical (n : nat) := "Fix " +:+ Str.of_nat n +:+ " critical issues before merging".
Definition address_high (n : nat) := "Address " +:+ Str.of_nat n +:+ " high severity issues".
Definition consider_medium (n : nat) :=
  "Consider addressing " +:+ Str.of_nat n +:+ " medium severity issues".
Definition security_advice := "Review security implications of code changes".
Definition performance_advice := "Consider performance optimizations".
Definition refactor_advice := "Refactor complex functions to improve readability".
Definition documentation_advice := "Update documentation to reflect code changes".

(** [if cond: recommendations.append(x)] *)
Definition append_if (cond : bool) (x : string) (recommendations : list string) :=
  if cond then recommendations ++ [x] else recommendations.

(** [list(dict.fromkeys(l))] *)
Definition dedupe (l : list string) : list string := Dict.keys (Dict.fromkeys l).

Definition _generate_recommendations (pr_data : PRData.t)
    (analysis_results : Dict.t AnalysisResult.t)
    (issues : Dict.t (list FeedbackIssue.t)) : Res (list string) :=
  let recommendations := [style_advice; review_advice] in
  let* critical := bucket issues "critical" in
  let* high := bucket issues "high" in
  let* medium := bucket issues "medium" in
  let total_critical := length critical in
  let total_high := length high in
  let total_medium := length medium in
  let recommendations :=
    append_if (0 <? total_critical)%nat (fix_critical total_critical) recommendations in
  let recommendations :=
    append_if (0 <? total_high)%nat (address_high total_high) recommendations in
  let recommendations :=
    append_if (0 <? total_medium)%nat (consider_medium total_medium) recommendations in
  let* security := _has_security_issues analysis_results in
  let recommendations := append_if security security_advice recommendations in
  let* performance := _has_performance_issues analysis_results in
  let recommendations := append_if performance performance_advice recommendations in
  let complexity_issues := (length high + length medium)%nat in
  let recommendations :=
    append_if (0 <? complexity_issues)%nat refactor_advice recommendations in
  let* documentation := _has_documentation_issues analysis_results in
  let recommendations := append_if documentation documentation_advice recommendations in
  Ok (dedupe recommendations).

(** The body of the loop of [_generate_summary]. *)
Definition summary_step (summary : Summary.t) (entry : string * AnalysisResult.t) :=
  match AnalysisResult.total_issues entry.2 with
  | Some n =>
      let by_sev := Summary.by_severity summary in
      {| Summary.total_issues := Summary.total_issues summary + n;
         Summary.by_severity :=
           {| BySeverity.critical :=
                BySeverity.critical by_sev + default 0 (AnalysisResult.errors entry.2);
              BySeverity.high :=
                BySeverity.high by_sev + default 0 (AnalysisResult.warnings entry.2);
              BySeverity.medium :=
                BySeverity.medium by_sev + default 0 (AnalysisResult.infos entry.2);
              BySeverity.low := BySeverity.low by_sev |};
         Summary.analyzers_used := Summary.analyzers_used summary |}
  | None => summary
  end.

Definition _generate_summary (analysis_results : Dict.t AnalysisResult.t) : Summary.t :=
  foldl summary_step
    {| Summary.total_issues := 0;
       Summary.by_severity := BySeverity.mk 0 0 0 0;
       Summary.analyzers_used := Dict.keys analysis_results |}
    (Dict.items analysis_results).

Definition generate_feedback (pr_data : PRData.t)
    (analysis_results : Dict.t AnalysisResult.t) : Res Feedback.t :=
  let* issues := foldM categorize_result empty_buckets (Dict.items analysis_results) in
  let* recommendations := _generate_recommendations pr_data analysis_results issues in
  Ok {| Feedback.issues := issues;
        Feedback.recommendations := recommendations;
        Feedback.summary := _generate_summary analysis_results |}.

End FeedbackGenerator.

(** ** main.py *)

Module Review.
Record t := mk {
  pr_info : PRData.t;
  analysis : Dict.t AnalysisResult.t;
  feedback : Feedback.t;
  quality_score : Z
}.
End Review.

Module PRReviewAgent.

Definition severity_weights : gmap string Z :=
  {[ "critical" := 10; "high" := 7; "medium" := 4; "low" := 1 ]}.

(** [round(x, ndigits)] on an [int]: the [int] itself for [ndigits >= 0],
    else the nearest multiple of [10 ** -ndigits], ties to the even one. *)
Definition round_int (x ndigits : Z) : Z :=
  if (0 <=? ndigits)%Z then x
  else
    let p := 10 ^ (- ndigits) in
    let q := x / p in
    let r := x mod p in
    if (2 * r <? p)%Z then q * p
    else if (p <? 2 * r)%Z then (q + 1) * p
    else if Z.even q then q * p else (q + 1) * p.

(** The loop of [_calculate_quality_score]. *)
Definition weighted_step (total_weighted_score : Z)
    (entry : string * list FeedbackIssue.t) : Z :=
  let weight := default 1 (severity_weights !! entry.1) in
  total_weighted_score + Z.of_nat (length entry.2) * weight.

(** The [total_issues] the source computes first is not used and left out. *)
Definition _calculate_quality_score (feedback : Feedback.t) : Z :=
  let total_weighted_score :=
    foldl weighted_step 0 (Dict.items (Feedback.issues feedback)) in
  let max_possible_score := 100 in
  let score := Z.max 0 (Z.min 100 (max_possible_score - total_weighted_score)) in
  round_int score 2.

(** The placeholder [{"error": str(e)}]. *)
Definition error_result (msg : string) : AnalysisResult.t :=
  {| AnalysisResult.total_issues := None;
     AnalysisResult.errors := None;
     AnalysisResult.warnings := None;
     AnalysisResult.infos := None;
     AnalysisResult.complexity_issues := None;
     AnalysisResult.issues := None;
     AnalysisResult.error := Some msg |}.

Section WithRuntime.
(** Each adapter has its own view of the environment: the calls of one
    are answered independently of the calls of another. *)
Context (rt : Runtime) (env_flake8 env_pylint env_radon : Env).

Definition analyzers : Dict.t (list ChangedFile.t -> Res AnalysisResult.t) :=
  [("flake8", Flake8Analyzer.analyze rt env_flake8);
   ("pylint", PylintAnalyzer.analyze rt env_pylint);
   ("radon", RadonAnalyzer.analyze rt env_radon)].

(** The body of the loop over [self.analyzers.items()]. *)
Definition run_analyzer (changed_files : list ChangedFile.t)
    (analysis_results : Dict.t AnalysisResult.t)
    (entry : string * (list ChangedFile.t -> Res AnalysisResult.t))
    : Dict.t AnalysisResult.t :=
  match entry.2 changed_files with
  | Ok result => Dict.set entry.1 result analysis_results
  | Raise e => Dict.set entry.1 (error_result (exn_str rt e)) analysis_results
  end.

Definition run_analyzers (changed_files : list ChangedFile.t)
    : Dict.t AnalysisResult.t :=
  foldl (run_analyzer changed_files) [] (Dict.items analyzers).

(** [review_pr] from the fetched [pr_data] on; the check of the server
    type and the fetch come before and belong to the fetchers. *)
Definition review_pr (pr_data : PRData.t) : Res Review.t :=
  let analysis_results := run_analyzers (PRData.changed_files pr_data) in
  let* feedback := FeedbackGenerator.generate_feedback pr_data analysis_results in
  let quality_score := _calculate_quality_score feedback in
  Ok {| Review.pr_info := pr_data;
        Review.analysis := analysis_results;
        Review.feedback := feedback;
        Review.quality_score := quality_score |}.

End WithRuntime.

End PRReviewAgent.

(** ** The specification's wording of the operations *)

Module Spec.

Definition clamp (x lo hi : Z) : Z := Z.max lo (Z.min hi x).

(** The nearest integer, ties to the even one. *)
Definition round_half_even (q : Q) : Z :=
  let f := Qfloor q in
  match Qcompare (q - inject_Z f)%Q (1 # 2)%Q with
  | Lt => f
  | Gt => f + 1
  | Eq => if Z.even f then f else f + 1
  end.

Definition round_2dp (q : Q) : Q :=
  (inject_Z (round_half_even (q * 100)) / 100)%Q.

(** [normalize]: [error] to [critical], [warning] to [high], [info] and
    everything else to [medium], whatever the case of the letters. *)
Definition normalize (native_severity : string) : string :=
  let s := Str.lower native_severity in
  if decide (s = "error") then "critical"
  else if decide (s = "warning") then "high"
  else if decide (s = "info") then "medium"
  else "medium".

(** [score = clamp(100 - raw, 0, 100)], rounded to two decimal places,
    from the four bucket counts. *)
Definition score (critical high medium low : nat) : Q :=
  let raw := Z.of_nat critical * 10 + Z.of_nat high * 7
             + Z.of_nat medium * 4 + Z.of_nat low * 1 in
  round_2dp (inject_Z (clamp (100 - raw) 0 100)).

End Spec.

(** ** Vocabulary of the statements *)

(** The four fixed buckets. *)
Definition buckets (critical high medium low : list FeedbackIssue.t)
    : Dict.t (list FeedbackIssue.t) :=
  [("critical", critical); ("high", high); ("medium", medium); ("low", low)].

(** A report with the four fixed buckets. *)
Definition report (critical high medium low : list FeedbackIssue.t)
    (recommendations : list string) (summary : Summary.t) : Feedback.t :=
  {| Feedback.issues := buckets critical high medium low;
     Feedback.recommendations := recommendations;
     Feedback.summary := summary |}.

(** The number of issues in the bucket [k] of a report. *)
Definition bucket_count (fb : Feedback.t) (k : string) : nat :=
  length (default [] (Dict.get (Feedback.issues fb) k)).

(** The sum of a counter over the entries of a results map; an entry
    without the counter adds nothing. *)
Definition sum_counter (counter : AnalysisResult.t -> option Z)
    (analysis_results : Dict.t AnalysisResult.t) : Z :=
  foldr (fun entry acc => default 0 (counter entry.2) + acc) 0 analysis_results.

(** An entry that has no [total_issues] has no severity counter either:
    so it is for what an adapter returns, which has [total_issues], and for
    the orchestrator's placeholder, which has only [error]. *)
Definition counters_come_with_total (result : AnalysisResult.t) : Prop :=
  AnalysisResult.total_issues result = None ->
  AnalysisResult.errors result = None
  /\ AnalysisResult.warnings result = None
  /\ AnalysisResult.infos result = None.

(** A field that holds a string when it is there. *)
Definition str_or_absent (o : option PyVal) : Prop :=
  match o with
  | None | Some (PyStr _) => True
  | Some _ => False
  end.

(** The issue has the types of the data model where the synthesizer
    looks: [severity] and [message] are strings. *)
Definition issue_typed (issue : Issue.t) : Prop :=
  str_or_absent (Issue.severity issue) /\ str_or_absent (Issue.message issue).

(** Every issue of every entry, with the name of its entry, in the order
    the synthesizer visits them. *)
Definition all_issues (analysis_results : Dict.t AnalysisResult.t)
    : list (string * Issue.t) :=
  flat_map (fun entry => pair entry.1 <$> default [] (AnalysisResult.issues entry.2))
    analysis_results.

Definition results_typed (analysis_results : Dict.t AnalysisResult.t) : Prop :=
  Forall (fun entry => issue_typed entry.2) (all_issues analysis_results).

(** The native severity of a typed issue, [info] when it has none. *)
Definition severity_str (issue : Issue.t) : string :=
  match Issue.severity issue with
  | Some (PyStr s) => s
  | _ => "info"
  end.

(** The message of a typed issue, empty when it has none. *)
Definition message_str (issue : Issue.t) : string :=
  match Issue.message issue with
  | Some (PyStr s) => s
  | _ => ""
  end.

(** The issues of the bucket [k], reduced, among [l]. *)
Definition bucket_of (k : string) (l : list (string * Issue.t)) : list FeedbackIssue.t :=
  (fun entry => FeedbackGenerator.reduced entry.1 entry.2)
    <$> filter (fun entry => Spec.normalize (severity_str entry.2) = k) l.

(** Some keyword occurs in the lowered message of the issue. *)
Definition matches (keywords : list string) (issue : Issue.t) : bool :=
  existsb (fun keyword => Str.contains keyword (Str.lower (message_str issue))) keywords.

(** Some issue of the map matches. *)
Definition mentions (keywords : list string)
    (analysis_results : Dict.t AnalysisResult.t) : bool :=
  existsb (fun entry => matches keywords entry.2) (all_issues analysis_results).

(** The recommendation of a trigger: present when the trigger fires. *)
Definition when (trigger : bool) (recommendation : string) : list string :=
  if trigger then [recommendation] else [].

(** The priority sequence of the recommendations for given bucket lengths
    and keyword triggers. *)
Definition priority_sequence (critical high medium : nat)
    (security performance documentation : bool) : list string :=
  [FeedbackGenerator.style_advice; FeedbackGenerator.review_advice]
  ++ when (0 <? critical)%nat (FeedbackGenerator.fix_critical critical)
  ++ when (0 <? high)%nat (FeedbackGenerator.address_high high)
  ++ when (0 <? medium)%nat (FeedbackGenerator.consider_medium medium)
  ++ when security FeedbackGenerator.security_advice
  ++ when performance FeedbackGenerator.performance_advice
  ++ when (0 <? high + medium)%nat FeedbackGenerator.refactor_advice
  ++ when documentation FeedbackGenerator.documentation_advice.

(** What every adapter guarantees of an issue it builds for a file: the
    issue names the file, and its severity is one of the three native
    levels. *)
Definition adapter_issue (filename : string) (issue : Issue.t) : Prop :=
  Issue.file issue = Some (PyStr filename)
  /\ exists s, Issue.severity issue = Some (PyStr s) /\ s ∈ ["error"; "warning"; "info"].

(** The state [st'] is [st] with issues added at the end, each of which
    satisfies [P]. *)
Definition appends {C} (P : Issue.t -> Prop) (st st' : Adapter.State C) : Prop :=
  exists new, Adapter.issues st' = Adapter.issues st ++ new /\ Forall P new.

(** The returned [dict] has the issues of the state under [issues] and
    their number under [total_issues]. *)
Definition reports_issues {C} (tool : Adapter.Tool C) : Prop :=
  forall st,
    AnalysisResult.total_issues (Adapter.result_of tool st)
    = Some (Z.of_nat (length (Adapter.issues st)))
    /\ AnalysisResult.issues (Adapter.result_of tool st) = Some (Adapter.issues st).

(** The file is neither removed nor renamed. *)
Definition kept (file : ChangedFile.t) : Prop :=
  ChangedFile.status file ∉ ["removed"; "renamed"].

#[global] Instance kept_dec file : Decision (kept file).
Proof. unfold kept. apply _. Defined.

(** On [files], [analyze] does what it does without the removed and
    renamed files, and every issue it returns names an added or modified
    file of [files]. *)
Definition skips_removed_and_renamed
    (analyze : list ChangedFile.t -> Res AnalysisResult.t)
    (files : list ChangedFile.t) : Prop :=
  analyze files = analyze (filter kept files)
  /\ forall result, analyze files = Ok result ->
     exists issues,
       AnalysisResult.issues result = Some issues
       /\ Forall (fun issue => exists file,
                    file ∈ files
                    /\ ChangedFile.status file ∈ ["added"; "modified"]
                    /\ Issue.file issue = Some (PyStr (ChangedFile.filename file)))
            issues.


(** The status of the file is [added] or [modified]. *)
Definition added_or_modified (file : ChangedFile.t) : Prop :=
  ChangedFile.status file = "added" \/ ChangedFile.status file = "modified".

#[global] Instance added_or_modified_dec file : Decision (added_or_modified file).
Proof. unfold added_or_modified. apply _. Defined.






(** The dictionary of a code unit in the complexity tool's output. *)
Definition unit_dict (complexity name loc lloc cc : PyVal) (d : Dict.t PyVal) : Prop :=
  Dict.get d "complexity" = Some complexity
  /\ Dict.get d "name" = Some name
  /\ Dict.get d "loc" = Some loc
  /\ Dict.get d "lloc" = Some lloc
  /\ Dict.get d "cc" = Some cc.

(** A code unit of the complexity tool's output with an integer score. *)
Module CodeUnit.
Record t := mk {
  name : PyVal;
  complexity : Z;
  loc : PyVal;
  lloc : PyVal;
  cc : PyVal;
  start_line : option PyVal
}.
End CodeUnit.

(** The item of the decoded output is the object of the unit. *)
Definition describes (item : PyVal) (u : CodeUnit.t) : Prop :=
  exists d,
    item = PyDict d
    /\ Dict.get d "complexity" = Some (PyInt (CodeUnit.complexity u))
    /\ Dict.get d "name" = Some (CodeUnit.name u)
    /\ Dict.get d "loc" = Some (CodeUnit.loc u)
    /\ Dict.get d "lloc" = Some (CodeUnit.lloc u)
    /\ Dict.get d "cc" = Some (CodeUnit.cc u)
    /\ Dict.get d "start_line" = CodeUnit.start_line u.

(** The score of the unit is above 5. *)
Definition above_threshold (u : CodeUnit.t) : Prop := 5 < CodeUnit.complexity u.

#[global] Instance above_threshold_dec u : Decision (above_threshold u).
Proof. unfold above_threshold. apply _. Defined.

(** The issue of a unit in a file, key by key: a warning at the line of
    the unit, 0 when it has none, whose message and details carry the
    name and the score. *)
Definition complexity_issue (rt : Runtime) (filename : string) (u : CodeUnit.t)
    : Issue.t :=
  {| Issue.file := Some (PyStr filename);
     Issue.line := Some (default (PyInt 0) (CodeUnit.start_line u));
     Issue.column := None;
     Issue.code := None;
     Issue.message := Some (PyStr
       ("High complexity detected in " +:+ str_of rt (CodeUnit.name u) +:+ ": "
        +:+ str_of rt (PyInt (CodeUnit.complexity u))
        +:+ " (CC: " +:+ str_of rt (CodeUnit.cc u) +:+ ")"));
     Issue.severity := Some (PyStr "warning");
     Issue.details := Some (PyDict
       [("complexity", PyInt (CodeUnit.complexity u)); ("name", CodeUnit.name u);
        ("loc", CodeUnit.loc u); ("lloc", CodeUnit.lloc u); ("cc", CodeUnit.cc u)]) |}.

(** The issues of the units above 5 in a file, in the order of the output. *)
Definition complexity_issues (rt : Runtime) (units : list CodeUnit.t)
    (filename : string) : list Issue.t :=
  complexity_issue rt filename <$> filter above_threshold units.

(** The environment in which the scratch file can always be written and
    every run of the tool prints [out] and nothing on its error stream. *)
Definition tool_prints (env : Env) (out : string) : Prop :=
  (forall k filename patch, exists tmp, named_temporary_file env k filename patch = Ok tmp)
  /\ (forall k argv, subprocess_run env k argv = Ok {| stdout := out; stderr := "" |}).

(** The issue stands for a flagged unit: only those carry [details]. *)
Definition is_flagged (issue : Issue.t) : Prop := is_Some (Issue.details issue).

(** The issue is a warning whose details carry a name and a score above
    the threshold. *)
Definition flagged_sound (issue : Issue.t) : Prop :=
  Issue.severity issue = Some (PyStr "warning")
  /\ exists d complexity name,
       Issue.details issue = Some (PyDict d)
       /\ Dict.get d "complexity" = Some complexity
       /\ Dict.get d "name" = Some name
       /\ py_gt complexity RadonAnalyzer.threshold = Ok true.

(** The counter of the complexity adapter counts the flagged issues, and
    they are sound. *)
Definition flagged_counted (st : Adapter.State Z) : Prop :=
  Adapter.counters st = Z.of_nat (length (filter is_flagged (Adapter.issues st)))
  /\ Forall (fun issue => is_flagged issue -> flagged_sound issue) (Adapter.issues st).

(** What the orchestrator records for an adapter: its result, or the
    placeholder when it raised. *)
Definition recorded (rt : Runtime) (outcome : Res AnalysisResult.t) : AnalysisResult.t :=
  match outcome with
  | Ok result => result
  | Raise e => PRReviewAgent.error_result (exn_str rt e)
  end.

(** The summary with another list of analyzers. *)
Definition set_used (names : list string) (s : Summary.t) : Summary.t :=
  {| Summary.total_issues := Summary.total_issues s;
     Summary.by_severity := Summary.by_severity s;
     Summary.analyzers_used := names |}.

(** The outcome of the synthesizer with another list of analyzers in the
    summary of the report; an exception stays. *)
Definition relisted (names : list string) (outcome : Res Feedback.t) : Res Feedback.t :=
  match outcome with
  | Ok fb =>
      Ok {| Feedback.issues := Feedback.issues fb;
            Feedback.recommendations := Feedback.recommendations fb;
            Feedback.summary := set_used names (Feedback.summary fb) |}
  | Raise e => Raise e
  end.

(** ** Sample inputs *)

Module Sample.

(** A tool output with a unit at the threshold and a unit above it. *)
Definition units : PyVal :=
  PyList
    [PyDict [("name", PyStr "parse"); ("complexity", PyInt 5); ("loc", PyInt 12);
             ("lloc", PyInt 10); ("cc", PyInt 5); ("start_line", PyInt 3)];
     PyDict [("name", PyStr "render"); ("complexity", PyInt 6); ("loc", PyInt 40);
             ("lloc", PyInt 31); ("cc", PyInt 6)]].

Definition runtime : Runtime :=
  {| json_loads := fun s => if decide (s = "units") then Some units else None;
     int_of_str := fun s => if decide (s = "1") then Some 1 else None;
     str_of := fun v => match v with PyStr s => s | _ => "?" end;
     exn_str := fun e => match e with
                         | FileNotFoundError msg | OSError msg => msg
                         | KeyError key => key
                         | _ => "error"
                         end |}.

(** The tool runs and reports nothing. *)
Definition quiet : Env :=
  {| named_temporary_file := fun _ _ _ => Ok "/tmp/scratch.py";
     subprocess_run := fun _ _ => Ok {| stdout := ""; stderr := "" |} |}.

(** The tool binary is not there. *)
Definition missing : Env :=
  {| named_temporary_file := fun _ _ _ => Ok "/tmp/scratch.py";
     subprocess_run := fun _ _ => Raise (FileNotFoundError "No such file or directory") |}.

(** The tool prints the two units. *)
Definition scoring : Env :=
  {| named_temporary_file := fun _ _ _ => Ok "/tmp/scratch.py";
     subprocess_run := fun _ _ => Ok {| stdout := "units"; stderr := "" |} |}.

(** The scratch file cannot be written. *)
Definition read_only : Env :=
  {| named_temporary_file := fun _ _ _ => Raise (OSError "Read-only file system");
     subprocess_run := fun _ _ => Ok {| stdout := ""; stderr := "" |} |}.

Definition files : list ChangedFile.t :=
  [ChangedFile.mk "old.py" "removed" 0 9 "" "";
   ChangedFile.mk "app.py" "modified" 4 1 "import os" "";
   ChangedFile.mk "moved.py" "renamed" 0 0 "" "";
   ChangedFile.mk "new.py" "added" 7 0 "x = 1" ""].

Definition sql_issue : Issue.t :=
  {| Issue.file := Some (PyStr "app.py");
     Issue.line := Some (PyInt 3);
     Issue.column := Some (PyInt 1);
     Issue.code := Some (PyStr "W100");
     Issue.message := Some (PyStr "SQL injection risk");
     Issue.severity := Some (PyStr "warning");
     Issue.details := None |}.

(** A lint result with ten issues whose message is a security message, and
    the placeholder of an adapter that raised. *)
Definition results : Dict.t AnalysisResult.t :=
  [("flake8",
    {| AnalysisResult.total_issues := Some 10;
       AnalysisResult.errors := Some 0;
       AnalysisResult.warnings := Some 10;
       AnalysisResult.infos := None;
       AnalysisResult.complexity_issues := None;
       AnalysisResult.issues := Some (replicate 10 sql_issue);
       AnalysisResult.error := None |});
   ("pylint", PRReviewAgent.error_result "Read-only file system")].

Definition finding : FeedbackIssue.t :=
  FeedbackIssue.mk "flake8" (PyStr "app.py") (PyInt 3) (PyStr "unused import") (PyStr "F401").

Definition no_summary : Summary.t := Summary.mk 0 (BySeverity.mk 0 0 0 0) [].

End Sample.

(** The two units of [Sample.units], and a runtime that prints integers in
    decimal. *)
Module Units.

Definition parse : CodeUnit.t :=
  CodeUnit.mk (PyStr "parse") 5 (PyInt 12) (PyInt 10) (PyInt 5) (Some (PyInt 3)).

Definition render : CodeUnit.t :=
  CodeUnit.mk (PyStr "render") 6 (PyInt 40) (PyInt 31) (PyInt 6) None.

Definition runtime : Runtime :=
  {| json_loads := json_loads Sample.runtime;
     int_of_str := int_of_str Sample.runtime;
     str_of := fun v =>
       match v with
       | PyStr s => s
       | PyInt z => NilZero.string_of_int (Z.to_int z)
       | _ => "?"
       end;
     exn_str := exn_str Sample.runtime |}.

End Units.

(** ** Vocabulary of the further properties *)

(** What an adapter returns when it has found nothing. *)
Definition nothing_found {C} (tool : Adapter.Tool C) : AnalysisResult.t :=
  Adapter.result_of tool (Adapter.mkState [] (Adapter.zero tool)).

(** The exception [e] is the one the creation of the scratch file raised for
    some eligible file of [files]. *)
Definition scratch_failure (env : Env) (files : list ChangedFile.t) (e : PyExn) : Prop :=
  exists k file,
    file ∈ files
    /\ Adapter.eligible file = true
    /\ named_temporary_file env k (ChangedFile.filename file) (ChangedFile.patch file)
       = Raise e.

(** The issue carries a rule id: the lint adapters set [code] on a finding
    of the tool and leave it out of a synthetic issue. *)
Definition has_code (issue : Issue.t) : bool :=
  match Issue.code issue with Some _ => true | None => false end.

(** The severity of the issue is the string [s]. *)
Definition has_severity (s : string) (issue : Issue.t) : bool :=
  match Issue.severity issue with
  | Some v => py_eq_str v s
  | None => false
  end.

(** A finding of the tool of native severity [s]. *)
Definition finding_of (s : string) (issue : Issue.t) : bool :=
  has_code issue && has_severity s issue.

(** The number of issues of [l] that pass the test [p]. *)
Definition count_issues (p : Issue.t -> bool) (l : list Issue.t) : Z :=
  Z.of_nat (length (filter (fun issue => p issue = true) l)).

(** The counters of the lint adapter count the findings: the error tally
    those of severity [error], the warning tally all the others. *)
Definition flake8_counted (st : Adapter.State Flake8Analyzer.Counters) : Prop :=
  Flake8Analyzer.total_errors (Adapter.counters st)
  = count_issues (finding_of "error") (Adapter.issues st)
  /\ Flake8Analyzer.total_warnings (Adapter.counters st)
     = count_issues (finding_of "warning") (Adapter.issues st)
       + count_issues (finding_of "info") (Adapter.issues st).

(** The counters of the quality-lint adapter count the findings by their
    native category, which leaves the conventions and refactors out of the
    info tally. *)
Definition pylint_counted (st : Adapter.State PylintAnalyzer.Counters) : Prop :=
  PylintAnalyzer.total_errors (Adapter.counters st)
  = count_issues (finding_of "error") (Adapter.issues st)
  /\ PylintAnalyzer.total_warnings (Adapter.counters st)
     = count_issues (finding_of "warning") (Adapter.issues st)
  /\ 0 <= PylintAnalyzer.total_infos (Adapter.counters st)
     <= count_issues (finding_of "info") (Adapter.issues st).

(** A synthetic issue of an adapter: severity [error] and no code. *)
Definition synthetic_error (issue : Issue.t) : bool :=
  negb (has_code issue) && has_severity "error" issue.

(** The severity of the issue is one of the three native levels. *)
Definition native_severity (issue : Issue.t) : Prop :=
  exists s, Issue.severity issue = Some (PyStr s) /\ s ∈ ["error"; "warning"; "info"].

(** How the counters of an entry of the results map account for its
    issues: the issues of severity [error] are the counted errors and the
    synthetic issues, and no more infos are counted than there are issues
    of severity [info]. *)
Definition entry_accounted (result : AnalysisResult.t) : Prop :=
  let issues := default [] (AnalysisResult.issues result) in
  Forall native_severity issues
  /\ count_issues (has_severity "error") issues
     = default 0 (AnalysisResult.errors result) + count_issues synthetic_error issues
  /\ 0 <= default 0 (AnalysisResult.infos result)
     <= count_issues (has_severity "info") issues
  /\ default 0 (AnalysisResult.total_issues result) = Z.of_nat (length issues)
  /\ counters_come_with_total result.

(** The issues of a results map, without the names of the entries. *)
Definition issues_of (analysis_results : Dict.t AnalysisResult.t) : list Issue.t :=
  (all_issues analysis_results).*2.

(** The value is not a string. *)
Definition not_str (v : PyVal) : Prop := forall s, v <> PyStr s.

(** The exception [e] is the [AttributeError] of [lower] on the value of
    the severity or of the message of an issue of the map, which is not a
    string. *)
Definition lower_failure (analysis_results : Dict.t AnalysisResult.t) (e : PyExn) : Prop :=
  exists name issue v,
    (name, issue) ∈ all_issues analysis_results
    /\ (Issue.severity issue = Some v \/ Issue.message issue = Some v)
    /\ not_str v
    /\ e = AttributeError "lower" v.

(** The message of the issue is a string. *)
Definition message_is_str (issue : Issue.t) : Prop :=
  exists s, Issue.message issue = Some (PyStr s).

(** ** Further sample inputs *)

Module Case.

Definition nl : string := String "010" EmptyString.

(** Three lines of the lint tool: a hard error, a style warning, and a
    naming finding, whose family is neither. *)
Definition lint_output : string :=
  "1:1:E501:line too long" +:+ nl +:+ "2:5:W291:trailing whitespace" +:+ nl
  +:+ "3:7:N801:class name: bad".

(** The output of the quality-lint tool: one message of each kind. *)
Definition messages : PyVal :=
  PyList
    [PyDict [("message", PyStr "undefined variable"); ("line", PyInt 1);
             ("column", PyInt 0); ("category", PyStr "error");
             ("symbol", PyStr "undefined-variable")];
     PyDict [("message", PyStr "unused import"); ("line", PyInt 2);
             ("column", PyInt 0); ("category", PyStr "warning");
             ("symbol", PyStr "unused-import")];
     PyDict [("message", PyStr "missing docstring"); ("line", PyInt 3);
             ("column", PyInt 0); ("category", PyStr "convention");
             ("symbol", PyStr "missing-docstring")];
     PyDict [("message", PyStr "locally disabled"); ("line", PyInt 4);
             ("column", PyInt 0); ("category", PyStr "info");
             ("symbol", PyStr "locally-disabled")]].

(** An output whose message is not a string. *)
Definition broken : PyVal :=
  PyList
    [PyDict [("message", PyInt 404); ("line", PyInt 1); ("column", PyInt 0);
             ("category", PyStr "error"); ("symbol", PyStr "fatal")]].

(** An output of the complexity tool that is an object, from the path of
    the scratch file to its units. *)
Definition by_file : Dict.t PyVal :=
  [("/tmp/scratch.py",
    PyList
      [PyDict [("type", PyStr "function"); ("name", PyStr "render");
               ("complexity", PyInt 12); ("lineno", PyInt 3)]])].

Definition runtime : Runtime :=
  {| json_loads := fun s =>
       if decide (s = "units") then Some Sample.units
       else if decide (s = "messages") then Some messages
       else if decide (s = "broken") then Some broken
       else if decide (s = "by_file") then Some (PyDict by_file)
       else None;
     int_of_str := fun s =>
       if decide (s = "1") then Some 1
       else if decide (s = "2") then Some 2
       else if decide (s = "3") then Some 3
       else if decide (s = "5") then Some 5
       else if decide (s = "7") then Some 7
       else None;
     str_of := str_of Sample.runtime;
     exn_str := exn_str Sample.runtime |}.

Definition printing (out err : string) : Env :=
  {| named_temporary_file := fun _ _ _ => Ok "/tmp/scratch.py";
     subprocess_run := fun _ _ => Ok {| stdout := out; stderr := err |} |}.

Definition one_file : list ChangedFile.t :=
  [ChangedFile.mk "app.py" "modified" 4 1 "import os" ""].

(** A map with an issue whose severity is a number. *)
Definition ill_typed : Dict.t AnalysisResult.t :=
  [("custom",
    {| AnalysisResult.total_issues := Some 1;
       AnalysisResult.errors := None;
       AnalysisResult.warnings := None;
       AnalysisResult.infos := None;
       AnalysisResult.complexity_issues := None;
       AnalysisResult.issues :=
         Some [{| Issue.file := Some (PyStr "app.py");
                  Issue.line := None;
                  Issue.column := None;
                  Issue.code := None;
                  Issue.message := Some (PyStr "odd");
                  Issue.severity := Some (PyInt 2);
                  Issue.details := None |}];
       AnalysisResult.error := None |})].

End Case.

(** ** Vocabulary of the properties of the parsers and of the score *)

(** The points the issues cost: 10 for a native [error], 7 for a
    [warning], 4 for an [info]. *)
Definition severity_cost (issues : list Issue.t) : Z :=
  10 * count_issues (has_severity "error") issues
  + 7 * count_issues (has_severity "warning") issues
  + 4 * count_issues (has_severity "info") issues.

(** The number of occurrences of the character in the string. *)
Fixpoint occurrences (c : ascii) (s : string) : nat :=
  match s with
  | EmptyString => 0%nat
  | String a s' => ((if decide (a = c) then 1 else 0) + occurrences c s')%nat
  end.

(** A line of the lint tool in the format the adapter asks for,
    [%(row)s:%(col)s:%(code)s:%(text)s]. *)
Definition formatted (row col code text : string) : string :=
  row +:+ ":" +:+ col +:+ ":" +:+ code +:+ ":" +:+ text.

(** The finding the lint adapter builds from the fields of a line. *)
Definition lint_finding (filename : string) (row col : Z) (code text : string) : Issue.t :=
  {| Issue.file := Some (PyStr filename);
     Issue.line := Some (PyInt row);
     Issue.column := Some (PyInt col);
     Issue.code := Some (PyStr code);
     Issue.message := Some (PyStr text);
     Issue.severity := Some (PyStr (Flake8Analyzer._get_severity code));
     Issue.details := None |}.

(** The first key of the object in which [complexity] occurs. *)
Definition first_complexity_key (d : Dict.t PyVal) : option string :=
  List.find (Str.contains "complexity") (Dict.keys d).

(** The exception is raised by an operation of the interpreter, not by the
    operating environment. *)
Definition interpreter_error (e : PyExn) : Prop :=
  match e with
  | FileNotFoundError _ | OSError _ => False
  | _ => True
  end.

(** The step of the loop for an eligible file when the parser of [tool]
    raises on the standard output: the exception is one of the
    interpreter, the issues found before it stay, one synthetic issue
    [Error running ...] is added, and the error stream is not looked at. *)
Definition parse_failure_step {C} (rt : Runtime) (env : Env) (tool : Adapter.Tool C)
    : Prop :=
  forall st k file tmp result st' e,
    Adapter.eligible file = true ->
    named_temporary_file env k (ChangedFile.filename file) (ChangedFile.patch file)
    = Ok tmp ->
    subprocess_run env k (Adapter.argv tool tmp) = Ok result ->
    Str.nonempty (stdout result) = true ->
    Adapter.parse_stdout tool (ChangedFile.filename file) st (stdout result)
    = (st', Some e) ->
    interpreter_error e
    /\ (exists found, Adapter.issues st' = Adapter.issues st ++ found)
    /\ Adapter.analyze_file rt env tool (st, k) file
       = Ok (Adapter.add_issue
               (Adapter.synthetic (ChangedFile.filename file)
                  ("Error running " +:+ Adapter.display_name tool +:+ ": "
                   +:+ exn_str rt e)) st',
             S k).

(** ** Vocabulary of the properties of the file loop *)

(** The issues come in groups, one group for each added or modified file
    of [files], in the order of the files, and every issue of a group
    names the file of the group. *)
Definition grouped_by_file (files : list ChangedFile.t) (issues : list Issue.t) : Prop :=
  exists groups,
    issues = concat groups
    /\ Forall2
         (fun file group =>
            Forall (fun issue =>
                      Issue.file issue = Some (PyStr (ChangedFile.filename file))) group)
         (filter (fun file => Adapter.eligible file = true) files) groups.

(** What the adapters read of the changed files: the name and the patch of
    the added and modified ones, in order. *)
Definition analyzed (files : list ChangedFile.t) : list (string * string) :=
  (fun file => (ChangedFile.filename file, ChangedFile.patch file))
    <$> filter (fun file => Adapter.eligible file = true) files.

(** The outcome of a review without the pull request it echoes. *)
Definition verdict (outcome : Res Review.t)
    : Res (Dict.t AnalysisResult.t * Feedback.t * Z) :=
  match outcome with
  | Ok review =>
      Ok (Review.analysis review, Review.feedback review, Review.quality_score review)
  | Raise e => Raise e
  end.

(** * Properties *)

(** ** The quality score *)

Lemma weight_critical : PRReviewAgent.severity_weights !! "critical" = Some 10.
Proof. reflexivity. Qed.

Lemma weight_high : PRReviewAgent.severity_weights !! "high" = Some 7.
Proof. reflexivity. Qed.

Lemma weight_medium : PRReviewAgent.severity_weights !! "medium" = Some 4.
Proof. reflexivity. Qed.

Lemma weight_low : PRReviewAgent.severity_weights !! "low" = Some 1.
Proof. reflexivity. Qed.

(** The score of a four-bucket report, as integer arithmetic on the bucket
    lengths. *)
Lemma score_of_report critical high medium low recommendations summary :
  PRReviewAgent._calculate_quality_score
    (report critical high medium low recommendations summary)
  = Spec.clamp
      (100 - (Z.of_nat (length critical) * 10 + Z.of_nat (length high) * 7
              + Z.of_nat (length medium) * 4 + Z.of_nat (length low) * 1))
      0 100.
Proof.
  unfold PRReviewAgent._calculate_quality_score, report, buckets, Spec.clamp; simpl.
  unfold PRReviewAgent.weighted_step; simpl.
  rewrite weight_critical, weight_high, weight_medium, weight_low; simpl.
  unfold PRReviewAgent.round_int; simpl.
  f_equal; f_equal; lia.
Qed.

Lemma round_half_even_integer (q : Q) (n : Z) :
  (q == inject_Z n)%Q -> Spec.round_half_even q = n.
Proof.
  intros Hq. unfold Spec.round_half_even.
  assert (Hf : Qfloor q = n) by (rewrite Hq; apply Qfloor_Z).
  rewrite Hf.
  assert (Hz : (q - inject_Z n == 0)%Q) by (rewrite Hq; ring).
  rewrite Hz. reflexivity.
Qed.

(** Rounding an integer to two decimal places leaves it unchanged. *)
Lemma round_2dp_integer (n : Z) : (Spec.round_2dp (inject_Z n) == inject_Z n)%Q.
Proof.
  unfold Spec.round_2dp.
  rewrite (round_half_even_integer _ (n * 100)).
  - rewrite inject_Z_mult. field.
  - rewrite inject_Z_mult. reflexivity.
Qed.

Lemma weighted_fold (d : Dict.t (list FeedbackIssue.t)) : forall a,
  foldl PRReviewAgent.weighted_step a d
  = a + foldr (fun entry acc => PRReviewAgent.weighted_step 0 entry + acc) 0 d.
Proof.
  induction d as [|entry d IH]; intros a; simpl; [lia|].
  rewrite IH. unfold PRReviewAgent.weighted_step. lia.
Qed.

(** The order of the buckets in the [dict] does not matter to the score. *)
Lemma score_permutation (fb fb' : Feedback.t) :
  Feedback.issues fb ≡ₚ Feedback.issues fb' ->
  PRReviewAgent._calculate_quality_score fb = PRReviewAgent._calculate_quality_score fb'.
Proof.
  intros Hperm. unfold PRReviewAgent._calculate_quality_score, Dict.items.
  rewrite !weighted_fold.
  assert (Hsum : foldr (fun entry acc => PRReviewAgent.weighted_step 0 entry + acc) 0
                   (Feedback.issues fb)
                 = foldr (fun entry acc => PRReviewAgent.weighted_step 0 entry + acc) 0
                     (Feedback.issues fb')).
  { induction Hperm; simpl; lia. }
  rewrite Hsum. reflexivity.
Qed.

(** C1: the quality score of a report with the four buckets is
    [clamp(100 - (10*critical + 7*high + 4*medium + 1*low), 0, 100)] on the
    bucket lengths, rounded to two decimal places; a report with empty
    buckets scores 100 and one with two high and one medium issue scores
    82. *)
Theorem C1_quality_score_formula (fb : Feedback.t)
    (critical high medium low : list FeedbackIssue.t) :
  Feedback.issues fb ≡ₚ buckets critical high medium low ->
  (inject_Z (PRReviewAgent._calculate_quality_score fb)
   == Spec.score (length critical) (length high) (length medium) (length low))%Q
  /\ (critical = [] -> high = [] -> medium = [] -> low = [] ->
      PRReviewAgent._calculate_quality_score fb = 100)
  /\ (length critical = 0%nat -> length high = 2%nat -> length medium = 1%nat ->
      length low = 0%nat ->
      PRReviewAgent._calculate_quality_score fb = 82).
Proof.
  intros Hperm.
  rewrite (score_permutation fb
             (report critical high medium low (Feedback.recommendations fb)
                (Feedback.summary fb)) Hperm).
  rewrite score_of_report.
  split; [|split].
  - unfold Spec.score. symmetry. apply round_2dp_integer.
  - intros -> -> -> ->. reflexivity.
  - intros -> -> -> ->. reflexivity.
Qed.

Lemma C1_quality_score_formula_witness :
  PRReviewAgent._calculate_quality_score
    (report [] [] [] [] [] Sample.no_summary) = 100
  /\ PRReviewAgent._calculate_quality_score
       (report [] [Sample.finding; Sample.finding] [Sample.finding] [] []
          Sample.no_summary) = 82.
Proof.
  split.
  - apply (C1_quality_score_formula _ [] [] [] []); reflexivity.
  - apply (C1_quality_score_formula _ [] [Sample.finding; Sample.finding]
             [Sample.finding] []); reflexivity.
Defined.

(** The score does not increase when every bucket is at least as long. *)
Lemma score_antitone c h m l c' h' m' l' recs summ recs' summ' :
  (length c <= length c')%nat -> (length h <= length h')%nat ->
  (length m <= length m')%nat -> (length l <= length l')%nat ->
  PRReviewAgent._calculate_quality_score (report c' h' m' l' recs' summ')
  <= PRReviewAgent._calculate_quality_score (report c h m l recs summ).
Proof.
  intros. rewrite !score_of_report. unfold Spec.clamp. lia.
Qed.

(** C8: the quality score is monotonically non-increasing in each bucket:
    between two reports that differ only in that one bucket has more issues,
    the one with more issues does not score higher. *)
Theorem C8_score_monotone (b : string) c h m l c' h' m' l' recs summ recs' summ' :
  let fb := report c h m l recs summ in
  let fb' := report c' h' m' l' recs' summ' in
  b ∈ ["critical"; "high"; "medium"; "low"] ->
  (bucket_count fb b <= bucket_count fb' b)%nat ->
  (forall k, k <> b -> bucket_count fb' k = bucket_count fb k) ->
  PRReviewAgent._calculate_quality_score fb'
  <= PRReviewAgent._calculate_quality_score fb.
Proof.
  intros fb fb' Hb Hle Hsame.
  assert (Hk : forall k, (bucket_count fb k <= bucket_count fb' k)%nat).
  { intros k. destruct (decide (k = b)) as [->|Hne]; [exact Hle|].
    rewrite (Hsame k Hne). lia. }
  apply score_antitone.
  - exact (Hk "critical").
  - exact (Hk "high").
  - exact (Hk "medium").
  - exact (Hk "low").
Qed.

Lemma C8_score_monotone_witness :
  PRReviewAgent._calculate_quality_score
    (report [] [Sample.finding; Sample.finding] [] [] [] Sample.no_summary)
  <= PRReviewAgent._calculate_quality_score
       (report [] [Sample.finding] [] [] [] Sample.no_summary).
Proof.
  apply (C8_score_monotone "high").
  - set_solver.
  - vm_compute. lia.
  - intros k Hk. unfold bucket_count, report, buckets; simpl.
    repeat case_decide; subst; try congruence; reflexivity.
Defined.

(** ** The summary *)

Lemma summary_fold (rs : Dict.t AnalysisResult.t) (s0 : Summary.t) :
  Forall (fun entry => counters_come_with_total entry.2) rs ->
  let s := foldl FeedbackGenerator.summary_step s0 rs in
  Summary.total_issues s
  = Summary.total_issues s0 + sum_counter AnalysisResult.total_issues rs
  /\ BySeverity.critical (Summary.by_severity s)
    = BySeverity.critical (Summary.by_severity s0) + sum_counter AnalysisResult.errors rs
  /\ BySeverity.high (Summary.by_severity s)
    = BySeverity.high (Summary.by_severity s0) + sum_counter AnalysisResult.warnings rs
  /\ BySeverity.medium (Summary.by_severity s)
    = BySeverity.medium (Summary.by_severity s0) + sum_counter AnalysisResult.infos rs
  /\ BySeverity.low (Summary.by_severity s) = BySeverity.low (Summary.by_severity s0)
  /\ Summary.analyzers_used s = Summary.analyzers_used s0.
Proof.
  intros Hwf. revert s0.
  induction Hwf as [|[name r] rs Hr _ IH]; intros s0; simpl.
  - repeat split; lia.
  - specialize (IH (FeedbackGenerator.summary_step s0 (name, r))).
    simpl in IH. destruct IH as (Ht & Hc & Hh & Hm & Hl & Hu).
    rewrite Ht, Hc, Hh, Hm, Hl, Hu. clear Ht Hc Hh Hm Hl Hu.
    unfold FeedbackGenerator.summary_step; simpl in *.
    destruct (AnalysisResult.total_issues r) as [n|] eqn:Hn; simpl.
    + repeat split; lia.
    + destruct (Hr Hn) as (-> & -> & ->); simpl.
      repeat split; lia.
Qed.

(** The total of the summary, for a map whose entries are results or
    placeholders. *)
Lemma generate_summary_total (analysis_results : Dict.t AnalysisResult.t) :
  Forall (fun entry => counters_come_with_total entry.2) analysis_results ->
  Summary.total_issues (FeedbackGenerator._generate_summary analysis_results)
  = sum_counter AnalysisResult.total_issues analysis_results.
Proof.
  intros Hwf. unfold FeedbackGenerator._generate_summary, Dict.items.
  destruct (summary_fold analysis_results
              {| Summary.total_issues := 0;
                 Summary.by_severity := BySeverity.mk 0 0 0 0;
                 Summary.analyzers_used := Dict.keys analysis_results |} Hwf)
    as (Ht & _).
  rewrite Ht. reflexivity.
Qed.

(** C2: the summary's [total_issues] is the sum of the [total_issues] the
    results report, its critical, high and medium counts are the sums of
    the results' own [errors], [warnings] and [infos] counters, its low
    count is 0, and [analyzers_used] lists the name of every entry of the
    map, whatever the entry holds. *)
Theorem C2_summary_sums (analysis_results : Dict.t AnalysisResult.t) :
  Forall (fun entry => counters_come_with_total entry.2) analysis_results ->
  let s := FeedbackGenerator._generate_summary analysis_results in
  Summary.total_issues s = sum_counter AnalysisResult.total_issues analysis_results
  /\ BySeverity.critical (Summary.by_severity s)
    = sum_counter AnalysisResult.errors analysis_results
  /\ BySeverity.high (Summary.by_severity s)
    = sum_counter AnalysisResult.warnings analysis_results
  /\ BySeverity.medium (Summary.by_severity s)
    = sum_counter AnalysisResult.infos analysis_results
  /\ BySeverity.low (Summary.by_severity s) = 0
  /\ Summary.analyzers_used s = Dict.keys analysis_results
  /\ (forall name result, (name, result) ∈ analysis_results ->
       name ∈ Summary.analyzers_used s).
Proof.
  intros Hwf s.
  destruct (summary_fold analysis_results
              {| Summary.total_issues := 0;
                 Summary.by_severity := BySeverity.mk 0 0 0 0;
                 Summary.analyzers_used := Dict.keys analysis_results |} Hwf)
    as (Ht & Hc & Hh & Hm & Hl & Hu).
  simpl in *. subst s. unfold FeedbackGenerator._generate_summary, Dict.items.
  rewrite Ht, Hc, Hh, Hm, Hl, Hu.
  repeat split; try reflexivity.
  intros name result Hin. unfold Dict.keys.
  apply list_elem_of_fmap. exists (name, result). split; [reflexivity | exact Hin].
Qed.

(** ** Severity normalization and the buckets *)

Lemma map_severity_normalize (s : string) :
  FeedbackGenerator._map_severity (PyStr s) = Ok (Spec.normalize s).
Proof.
  unfold FeedbackGenerator._map_severity, Spec.normalize; simpl.
  unfold FeedbackGenerator.severity_mapping.
  repeat case_decide.
  - rewrite H. reflexivity.
  - rewrite H0. reflexivity.
  - rewrite H1. reflexivity.
  - rewrite !lookup_insert_ne by congruence.
    rewrite lookup_singleton_ne by congruence. reflexivity.
Qed.

Lemma normalize_cases (s : string) :
  Spec.normalize s = "critical" \/ Spec.normalize s = "high"
  \/ Spec.normalize s = "medium".
Proof. unfold Spec.normalize. repeat case_decide; auto. Qed.

Lemma normalize_not_low (s : string) : Spec.normalize s <> "low".
Proof. destruct (normalize_cases s) as [-> | [-> | ->]]; discriminate. Qed.

Lemma bucket_of_app k l1 l2 : bucket_of k (l1 ++ l2) = bucket_of k l1 ++ bucket_of k l2.
Proof. unfold bucket_of. rewrite filter_app, fmap_app. reflexivity. Qed.

Lemma bucket_of_cons k x l : bucket_of k (x :: l) = bucket_of k [x] ++ bucket_of k l.
Proof. apply (bucket_of_app k [x] l). Qed.

Lemma bucket_of_single k (x : string * Issue.t) :
  bucket_of k [x]
  = if decide (Spec.normalize (severity_str x.2) = k)
    then [FeedbackGenerator.reduced x.1 x.2] else [].
Proof.
  unfold bucket_of. rewrite filter_cons, filter_nil.
  case_decide; reflexivity.
Qed.

Lemma bucket_of_low l : bucket_of "low" l = [].
Proof.
  induction l as [|x l IH]; [reflexivity|].
  rewrite bucket_of_cons, IH, app_nil_r, bucket_of_single.
  case_decide as Hn; [|reflexivity].
  destruct (normalize_not_low _ Hn).
Qed.

(** Every entry goes to exactly one of the three buckets a severity
    normalizes to. *)
Lemma bucket_of_partition l :
  (fun entry => FeedbackGenerator.reduced entry.1 entry.2) <$> l
  ≡ₚ bucket_of "critical" l ++ bucket_of "high" l ++ bucket_of "medium" l.
Proof.
  induction l as [|x l IH]; [reflexivity|].
  rewrite (bucket_of_cons "critical"), (bucket_of_cons "high"), (bucket_of_cons "medium").
  rewrite fmap_cons, IH, !bucket_of_single.
  destruct (normalize_cases (severity_str x.2)) as [Hn | [Hn | Hn]];
    rewrite Hn; repeat case_decide; try congruence; simpl.
  - reflexivity.
  - rewrite Permutation_middle. reflexivity.
  - rewrite (app_assoc (bucket_of "critical" l)), Permutation_middle, <- app_assoc.
    reflexivity.
Qed.

Lemma categorize_issue_buckets name c h m lo issue :
  str_or_absent (Issue.severity issue) ->
  FeedbackGenerator.categorize_issue name (buckets c h m lo) issue
  = Ok (buckets (c ++ bucket_of "critical" [(name, issue)])
                (h ++ bucket_of "high" [(name, issue)])
                (m ++ bucket_of "medium" [(name, issue)]) lo).
Proof.
  intros Hty. unfold FeedbackGenerator.categorize_issue.
  assert (Hsev : default (PyStr "info") (Issue.severity issue)
                 = PyStr (severity_str issue)).
  { unfold severity_str. destruct (Issue.severity issue) as [[]|]; simpl in *;
      try contradiction; reflexivity. }
  rewrite Hsev, map_severity_normalize. simpl bind.
  rewrite !bucket_of_single. simpl fst; simpl snd.
  destruct (normalize_cases (severity_str issue)) as [Hn | [Hn | Hn]];
    rewrite Hn; repeat case_decide; try congruence; simpl;
    rewrite ?app_nil_r; reflexivity.
Qed.

Lemma categorize_issues_buckets name l : forall c h m lo,
  Forall (fun issue => str_or_absent (Issue.severity issue)) l ->
  foldM (FeedbackGenerator.categorize_issue name) (buckets c h m lo) l
  = Ok (buckets (c ++ bucket_of "critical" (pair name <$> l))
                (h ++ bucket_of "high" (pair name <$> l))
                (m ++ bucket_of "medium" (pair name <$> l)) lo).
Proof.
  induction l as [|issue l IH]; intros c h m lo Hty.
  - simpl. unfold bucket_of; simpl. rewrite !app_nil_r. reflexivity.
  - inversion Hty as [|? ? Hi Hl]; subst.
    simpl foldM. rewrite categorize_issue_buckets by exact Hi. simpl bind.
    rewrite IH by exact Hl.
    rewrite fmap_cons.
    rewrite (bucket_of_cons "critical" (name, issue) (pair name <$> l)),
      (bucket_of_cons "high" (name, issue) (pair name <$> l)),
      (bucket_of_cons "medium" (name, issue) (pair name <$> l)), <- !app_assoc.
    reflexivity.
Qed.

Lemma categorize_results_buckets rs : forall c h m lo,
  Forall (fun entry => str_or_absent (Issue.severity entry.2)) (all_issues rs) ->
  foldM FeedbackGenerator.categorize_result (buckets c h m lo) rs
  = Ok (buckets (c ++ bucket_of "critical" (all_issues rs))
                (h ++ bucket_of "high" (all_issues rs))
                (m ++ bucket_of "medium" (all_issues rs)) lo).
Proof.
  induction rs as [|[name r] rs IH]; intros c h m lo Hty.
  - simpl. unfold bucket_of; simpl. rewrite !app_nil_r. reflexivity.
  - unfold all_issues in Hty; simpl in Hty. apply Forall_app in Hty as [Hr Hrs].
    rewrite Forall_fmap in Hr.
    assert (Hstep : FeedbackGenerator.categorize_result (buckets c h m lo) (name, r)
              = Ok (buckets
                      (c ++ bucket_of "critical"
                              (pair name <$> default [] (AnalysisResult.issues r)))
                      (h ++ bucket_of "high"
                              (pair name <$> default [] (AnalysisResult.issues r)))
                      (m ++ bucket_of "medium"
                              (pair name <$> default [] (AnalysisResult.issues r)))
                      lo)).
    { unfold FeedbackGenerator.categorize_result; simpl fst; simpl snd.
      destruct (AnalysisResult.issues r) as [[|i l]|]; simpl default.
      - unfold bucket_of; simpl. rewrite !app_nil_r. reflexivity.
      - apply categorize_issues_buckets. exact Hr.
      - unfold bucket_of; simpl. rewrite !app_nil_r. reflexivity. }
    simpl foldM. rewrite Hstep. simpl bind. rewrite IH by exact Hrs.
    unfold all_issues; simpl flat_map.
    rewrite !bucket_of_app, <- !app_assoc. reflexivity.
Qed.

(** ** The recommendations *)

Lemma scan_issues_typed keywords l :
  Forall (fun issue => str_or_absent (Issue.message issue)) l ->
  FeedbackGenerator.scan_issues keywords l = Ok (existsb (matches keywords) l).
Proof.
  induction 1 as [|issue l Hi _ IH]; [reflexivity|].
  simpl. unfold matches at 1, message_str.
  destruct (Issue.message issue) as [[]|]; simpl in *; try contradiction.
  - destruct (existsb _ keywords); [reflexivity | exact IH].
  - destruct (existsb _ keywords); [reflexivity | exact IH].
Qed.

Lemma scan_results_typed keywords rs :
  results_typed rs ->
  FeedbackGenerator.scan_results keywords rs = Ok (mentions keywords rs).
Proof.
  unfold results_typed, mentions.
  induction rs as [|[name r] rs IH]; intros Hty; [reflexivity|].
  unfold all_issues in *; simpl flat_map in *.
  apply Forall_app in Hty as [Hr Hrs]. rewrite Forall_fmap in Hr.
  rewrite existsb_app. simpl FeedbackGenerator.scan_results.
  unfold FeedbackGenerator.scan_result.
  assert (Hscan : match AnalysisResult.issues r with
                  | Some l => FeedbackGenerator.scan_issues keywords l
                  | None => Ok false
                  end
                  = Ok (existsb (fun entry : string * Issue.t => matches keywords entry.2)
                          (pair name <$> default [] (AnalysisResult.issues r)))).
  { destruct (AnalysisResult.issues r) as [l|]; simpl default; [|reflexivity].
    rewrite scan_issues_typed.
    - f_equal. clear. induction l as [|i l IH]; [reflexivity|].
      rewrite fmap_cons. simpl. rewrite IH. reflexivity.
    - eapply Forall_impl; [exact Hr|]. intros i [_ Hm]. exact Hm. }
  rewrite Hscan. simpl bind.
  destruct (existsb _ (pair name <$> _)); [reflexivity|].
  simpl. apply IH. exact Hrs.
Qed.

Lemma dict_set_fresh {V} (k : string) (v : V) (d : Dict.t V) :
  k ∉ Dict.keys d -> Dict.set k v d = d ++ [(k, v)].
Proof.
  unfold Dict.keys. induction d as [|[k' v'] d IH]; intros Hk; [reflexivity|].
  rewrite fmap_cons in Hk. simpl in Hk. apply not_elem_of_cons in Hk as [Hne Hk].
  simpl. case_decide; [congruence|]. rewrite IH by exact Hk. reflexivity.
Qed.

Lemma fromkeys_fresh (l : list string) : forall d : Dict.t unit,
  NoDup (Dict.keys d ++ l) ->
  Dict.keys (foldl (fun d k => Dict.set k tt d) d l) = Dict.keys d ++ l.
Proof.
  induction l as [|k l IH]; intros d Hnd; simpl.
  - rewrite app_nil_r. reflexivity.
  - assert (Hk : k ∉ Dict.keys d).
    { apply NoDup_app in Hnd as (_ & Hdisj & _). intros Hin.
      apply (Hdisj k Hin). left. }
    rewrite dict_set_fresh by exact Hk.
    rewrite IH.
    + unfold Dict.keys. rewrite fmap_app, <- app_assoc. reflexivity.
    + unfold Dict.keys in *. rewrite fmap_app, <- app_assoc. exact Hnd.
Qed.

(** Removing the duplicates of a list that has none changes nothing. *)
Lemma dedupe_NoDup (l : list string) : NoDup l -> FeedbackGenerator.dedupe l = l.
Proof.
  intros Hnd. unfold FeedbackGenerator.dedupe, Dict.fromkeys.
  rewrite fromkeys_fresh; [reflexivity | exact Hnd].
Qed.

(** The nine recommendations are pairwise different, whatever the counts. *)
Lemma all_advice_NoDup (c h m : nat) :
  NoDup [FeedbackGenerator.style_advice; FeedbackGenerator.review_advice;
         FeedbackGenerator.fix_critical c; FeedbackGenerator.address_high h;
         FeedbackGenerator.consider_medium m; FeedbackGenerator.security_advice;
         FeedbackGenerator.performance_advice; FeedbackGenerator.refactor_advice;
         FeedbackGenerator.documentation_advice].
Proof.
  unfold FeedbackGenerator.style_advice, FeedbackGenerator.review_advice,
    FeedbackGenerator.fix_critical, FeedbackGenerator.address_high,
    FeedbackGenerator.consider_medium, FeedbackGenerator.security_advice,
    FeedbackGenerator.performance_advice, FeedbackGenerator.refactor_advice,
    FeedbackGenerator.documentation_advice.
  simpl.
  repeat (apply NoDup_cons; split);
    [rewrite ?elem_of_cons, elem_of_nil; intuition discriminate .. | apply NoDup_nil_2].
Qed.

Lemma when_sublist (b : bool) (x : string) (l1 l2 : list string) :
  l1 `sublist_of` l2 -> (when b x ++ l1) `sublist_of` (x :: l2).
Proof.
  intros Hsub. destruct b; simpl.
  - apply sublist_skip. exact Hsub.
  - apply sublist_cons. exact Hsub.
Qed.

Lemma priority_sequence_NoDup c h m sec perf doc :
  NoDup (priority_sequence c h m sec perf doc).
Proof.
  eapply sublist_NoDup; [apply (all_advice_NoDup c h m)|].
  unfold priority_sequence. simpl app.
  do 2 apply sublist_skip.
  repeat apply when_sublist.
  rewrite <- (app_nil_r (when doc _)). apply when_sublist. constructor.
Qed.

Lemma generate_recommendations_typed pr_data rs c h m lo :
  results_typed rs ->
  FeedbackGenerator._generate_recommendations pr_data rs (buckets c h m lo)
  = Ok (priority_sequence (length c) (length h) (length m)
          (mentions FeedbackGenerator.security_keywords rs)
          (mentions FeedbackGenerator.performance_keywords rs)
          (mentions FeedbackGenerator.documentation_keywords rs)).
Proof.
  intros Hty. unfold FeedbackGenerator._generate_recommendations.
  change (FeedbackGenerator.bucket (buckets c h m lo) "critical") with (Ok c).
  change (FeedbackGenerator.bucket (buckets c h m lo) "high") with (Ok h).
  change (FeedbackGenerator.bucket (buckets c h m lo) "medium") with (Ok m).
  unfold FeedbackGenerator._has_security_issues,
    FeedbackGenerator._has_performance_issues,
    FeedbackGenerator._has_documentation_issues.
  rewrite !scan_results_typed by exact Hty. simpl bind.
  f_equal.
  rewrite <- (dedupe_NoDup (priority_sequence _ _ _ _ _ _))
    by apply priority_sequence_NoDup.
  f_equal. unfold priority_sequence, FeedbackGenerator.append_if, when.
  destruct (0 <? length c)%nat, (0 <? length h)%nat, (0 <? length m)%nat,
    (mentions FeedbackGenerator.security_keywords rs),
    (mentions FeedbackGenerator.performance_keywords rs),
    (0 <? length h + length m)%nat,
    (mentions FeedbackGenerator.documentation_keywords rs); reflexivity.
Qed.

Lemma results_typed_severity rs :
  results_typed rs ->
  Forall (fun entry : string * Issue.t => str_or_absent (Issue.severity entry.2))
    (all_issues rs).
Proof.
  intros Hty. eapply Forall_impl; [exact Hty|]. intros entry [Hs _]. exact Hs.
Qed.

(** The report of a typed results map, in closed form. *)
Lemma generate_feedback_typed pr_data rs :
  results_typed rs ->
  FeedbackGenerator.generate_feedback pr_data rs
  = Ok (report (bucket_of "critical" (all_issues rs))
               (bucket_of "high" (all_issues rs))
               (bucket_of "medium" (all_issues rs)) []
               (priority_sequence
                  (length (bucket_of "critical" (all_issues rs)))
                  (length (bucket_of "high" (all_issues rs)))
                  (length (bucket_of "medium" (all_issues rs)))
                  (mentions FeedbackGenerator.security_keywords rs)
                  (mentions FeedbackGenerator.performance_keywords rs)
                  (mentions FeedbackGenerator.documentation_keywords rs))
               (FeedbackGenerator._generate_summary rs)).
Proof.
  intros Hty. unfold FeedbackGenerator.generate_feedback, Dict.items.
  change FeedbackGenerator.empty_buckets with (buckets [] [] [] []).
  rewrite categorize_results_buckets by (apply results_typed_severity; exact Hty).
  simpl bind. rewrite generate_recommendations_typed by exact Hty.
  reflexivity.
Qed.

(** *** What the synthesizer returned, when it returned *)

Lemma scan_issues_ok keywords l b :
  FeedbackGenerator.scan_issues keywords l = Ok b -> b = existsb (matches keywords) l.
Proof.
  induction l as [|issue l IH]; simpl; [congruence|].
  unfold matches at 1, message_str.
  destruct (Issue.message issue) as [[]|]; simpl; try discriminate;
    (destruct (existsb _ keywords); simpl; [intros [= <-]; reflexivity | exact IH]).
Qed.

Lemma scan_results_ok keywords rs b :
  FeedbackGenerator.scan_results keywords rs = Ok b -> b = mentions keywords rs.
Proof.
  unfold mentions. revert b.
  induction rs as [|[name r] rs IH]; intros b; simpl; [congruence|].
  unfold all_issues; simpl flat_map. rewrite existsb_app. fold (all_issues rs).
  unfold FeedbackGenerator.scan_result.
  assert (Hfmap : forall l : list Issue.t,
             existsb (fun entry : string * Issue.t => matches keywords entry.2)
               (pair name <$> l) = existsb (matches keywords) l).
  { induction l as [|i l IHl]; [reflexivity|].
    rewrite fmap_cons. simpl. rewrite IHl. reflexivity. }
  rewrite Hfmap.
  destruct (AnalysisResult.issues r) as [l|]; simpl default.
  - destruct (FeedbackGenerator.scan_issues keywords l) as [found|e] eqn:Hscan;
      simpl; [|discriminate].
    apply scan_issues_ok in Hscan. rewrite <- Hscan.
    destruct found; simpl; [intros [= <-]; reflexivity | apply IH].
  - simpl. apply IH.
Qed.

Lemma categorize_issue_ok name b issue b' :
  FeedbackGenerator.categorize_issue name b issue = Ok b' ->
  str_or_absent (Issue.severity issue).
Proof.
  unfold FeedbackGenerator.categorize_issue, FeedbackGenerator._map_severity.
  destruct (Issue.severity issue) as [[]|]; simpl; try discriminate; intros _; exact I.
Qed.

Lemma categorize_issues_ok name l : forall b b',
  foldM (FeedbackGenerator.categorize_issue name) b l = Ok b' ->
  Forall (fun issue => str_or_absent (Issue.severity issue)) l.
Proof.
  induction l as [|issue l IH]; intros b b'; simpl; [constructor|].
  destruct (FeedbackGenerator.categorize_issue name b issue) as [b1|e] eqn:Hstep;
    simpl; [|discriminate].
  intros Hrest. constructor; [eapply categorize_issue_ok, Hstep | eapply IH, Hrest].
Qed.

Lemma categorize_results_ok rs : forall b b',
  foldM FeedbackGenerator.categorize_result b rs = Ok b' ->
  Forall (fun entry : string * Issue.t => str_or_absent (Issue.severity entry.2))
    (all_issues rs).
Proof.
  induction rs as [|[name r] rs IH]; intros b b'; [constructor|].
  simpl foldM.
  destruct (FeedbackGenerator.categorize_result b (name, r)) as [b1|e] eqn:Hstep;
    simpl; [|discriminate].
  intros Hrest. unfold all_issues; simpl flat_map. apply Forall_app.
  split; [|eapply IH, Hrest].
  apply Forall_fmap. unfold FeedbackGenerator.categorize_result in Hstep.
  simpl in Hstep. destruct (AnalysisResult.issues r) as [[|i l]|]; simpl;
    [constructor | | constructor].
  eapply categorize_issues_ok, Hstep.
Qed.

Lemma recommendations_chain c h m sec perf doc :
  FeedbackGenerator.dedupe
    (FeedbackGenerator.append_if doc FeedbackGenerator.documentation_advice
       (FeedbackGenerator.append_if (0 <? h + m)%nat FeedbackGenerator.refactor_advice
          (FeedbackGenerator.append_if perf FeedbackGenerator.performance_advice
             (FeedbackGenerator.append_if sec FeedbackGenerator.security_advice
                (FeedbackGenerator.append_if (0 <? m)%nat
                   (FeedbackGenerator.consider_medium m)
                   (FeedbackGenerator.append_if (0 <? h)%nat
                      (FeedbackGenerator.address_high h)
                      (FeedbackGenerator.append_if (0 <? c)%nat
                         (FeedbackGenerator.fix_critical c)
                         [FeedbackGenerator.style_advice;
                          FeedbackGenerator.review_advice])))))))
  = priority_sequence c h m sec perf doc.
Proof.
  rewrite <- (dedupe_NoDup (priority_sequence c h m sec perf doc))
    by apply priority_sequence_NoDup.
  f_equal. unfold priority_sequence, FeedbackGenerator.append_if, when.
  destruct (0 <? c)%nat, (0 <? h)%nat, (0 <? m)%nat, sec, perf, (0 <? h + m)%nat, doc;
    reflexivity.
Qed.

Lemma generate_recommendations_ok pr_data rs c h m lo recs :
  FeedbackGenerator._generate_recommendations pr_data rs (buckets c h m lo) = Ok recs ->
  recs = priority_sequence (length c) (length h) (length m)
           (mentions FeedbackGenerator.security_keywords rs)
           (mentions FeedbackGenerator.performance_keywords rs)
           (mentions FeedbackGenerator.documentation_keywords rs).
Proof.
  unfold FeedbackGenerator._generate_recommendations.
  change (FeedbackGenerator.bucket (buckets c h m lo) "critical") with (Ok c).
  change (FeedbackGenerator.bucket (buckets c h m lo) "high") with (Ok h).
  change (FeedbackGenerator.bucket (buckets c h m lo) "medium") with (Ok m).
  unfold FeedbackGenerator._has_security_issues,
    FeedbackGenerator._has_performance_issues,
    FeedbackGenerator._has_documentation_issues.
  simpl bind.
  destruct (FeedbackGenerator.scan_results FeedbackGenerator.security_keywords rs)
    as [sec|] eqn:Hsec; simpl bind; [|discriminate].
  destruct (FeedbackGenerator.scan_results FeedbackGenerator.performance_keywords rs)
    as [perf|] eqn:Hperf; simpl bind; [|discriminate].
  destruct (FeedbackGenerator.scan_results FeedbackGenerator.documentation_keywords rs)
    as [doc|] eqn:Hdoc; simpl bind; [|discriminate].
  apply scan_results_ok in Hsec, Hperf, Hdoc. subst sec perf doc.
  rewrite recommendations_chain. congruence.
Qed.

(** The report, whenever the synthesizer returns one. *)
Lemma generate_feedback_ok pr_data rs fb :
  FeedbackGenerator.generate_feedback pr_data rs = Ok fb ->
  fb = report (bucket_of "critical" (all_issues rs))
              (bucket_of "high" (all_issues rs))
              (bucket_of "medium" (all_issues rs)) []
              (priority_sequence
                 (length (bucket_of "critical" (all_issues rs)))
                 (length (bucket_of "high" (all_issues rs)))
                 (length (bucket_of "medium" (all_issues rs)))
                 (mentions FeedbackGenerator.security_keywords rs)
                 (mentions FeedbackGenerator.performance_keywords rs)
                 (mentions FeedbackGenerator.documentation_keywords rs))
              (FeedbackGenerator._generate_summary rs).
Proof.
  unfold FeedbackGenerator.generate_feedback, Dict.items.
  change FeedbackGenerator.empty_buckets with (buckets [] [] [] []).
  destruct (foldM FeedbackGenerator.categorize_result (buckets [] [] [] []) rs)
    as [issues|e] eqn:Hcat; simpl bind; [|discriminate].
  assert (Hty := categorize_results_ok _ _ _ Hcat).
  rewrite categorize_results_buckets in Hcat by exact Hty.
  injection Hcat as <-. simpl app.
  destruct (FeedbackGenerator._generate_recommendations pr_data rs _) as [recs|e] eqn:Hrec;
    simpl bind; [|discriminate].
  apply generate_recommendations_ok in Hrec. subst recs.
  intros [= <-]. reflexivity.
Qed.


(** ** The adapters' loop *)

Section AdapterLoop.
Context {C : Type} (rt : Runtime) (env : Env) (tool : Adapter.Tool C).

(** A file that is not eligible leaves the state as it is. *)
Lemma analyze_file_skip acc file :
  Adapter.eligible file = false ->
  Adapter.analyze_file rt env tool acc file = Ok acc.
Proof. intros He. unfold Adapter.analyze_file. rewrite He. reflexivity. Qed.

(** The loop only sees the eligible files. *)
Lemma analyze_loop_filter files : forall acc,
  foldM (Adapter.analyze_file rt env tool) acc files
  = foldM (Adapter.analyze_file rt env tool) acc (filter (fun f => Adapter.eligible f = true) files).
Proof.
  induction files as [|file files IH]; intros acc; [reflexivity|].
  rewrite filter_cons. destruct (Adapter.eligible file) eqn:He.
  - rewrite decide_True by reflexivity. simpl.
    destruct (Adapter.analyze_file rt env tool acc file); simpl; [apply IH | reflexivity].
  - rewrite decide_False by discriminate. simpl.
    rewrite analyze_file_skip by exact He. simpl. apply IH.
Qed.

(** A property of the state that the parser and the synthetic issues keep
    is kept by the step for a file. *)
Lemma analyze_file_invariant (Inv : Adapter.State C -> Prop) file acc acc' :
  (Adapter.eligible file = true ->
   (forall st out, Inv st ->
      Inv (Adapter.parse_stdout tool (ChangedFile.filename file) st out).1)
   /\ (forall st msg, Inv st ->
         Inv (Adapter.add_issue (Adapter.synthetic (ChangedFile.filename file) msg) st))) ->
  Inv acc.1 ->
  Adapter.analyze_file rt env tool acc file = Ok acc' ->
  Inv acc'.1.
Proof.
  intros Hkeep Hacc. unfold Adapter.analyze_file.
  destruct (Adapter.eligible file); [|intros [= <-]; exact Hacc].
  destruct (Hkeep eq_refl) as [Hparse Hsyn]. clear Hkeep.
  destruct (named_temporary_file env _ _ _) as [tmp|e]; simpl; [|discriminate].
  unfold Adapter.try_body.
  destruct (subprocess_run env _ _) as [result|e].
  - destruct (Str.nonempty (stdout result)).
    + specialize (Hparse acc.1 (stdout result) Hacc).
      destruct (Adapter.parse_stdout tool _ acc.1 (stdout result)) as [st' [e|]];
        simpl in Hparse; intros [= <-]; simpl.
      * destruct e; apply Hsyn; exact Hparse.
      * destruct (Str.nonempty (stderr result)); [apply Hsyn|]; exact Hparse.
    + intros [= <-]; simpl.
      destruct (Str.nonempty (stderr result)); [apply Hsyn|]; exact Hacc.
  - intros [= <-]; simpl. destruct e; apply Hsyn; exact Hacc.
Qed.

Lemma analyze_loop_invariant (Inv : Adapter.State C -> Prop) files : forall acc acc',
  Forall (fun file =>
    Adapter.eligible file = true ->
    (forall st out, Inv st ->
       Inv (Adapter.parse_stdout tool (ChangedFile.filename file) st out).1)
    /\ (forall st msg, Inv st ->
          Inv (Adapter.add_issue (Adapter.synthetic (ChangedFile.filename file) msg) st)))
    files ->
  Inv acc.1 ->
  foldM (Adapter.analyze_file rt env tool) acc files = Ok acc' ->
  Inv acc'.1.
Proof.
  induction files as [|file files IH]; intros acc acc' Hkeep Hacc; simpl.
  - intros [= <-]. exact Hacc.
  - inversion Hkeep as [|? ? Hfile Hfiles]; subst.
    destruct (Adapter.analyze_file rt env tool acc file) as [acc1|e] eqn:Hstep;
      simpl; [|discriminate].
    apply IH; [exact Hfiles|].
    eapply analyze_file_invariant; eauto.
Qed.



End AdapterLoop.

(** ** What the three parsers add to the state *)

Lemma appends_refl {C} (P : Issue.t -> Prop) (st : Adapter.State C) : appends P st st.
Proof. exists []. rewrite app_nil_r. split; [reflexivity | constructor]. Qed.

Lemma appends_trans {C} (P : Issue.t -> Prop) (st1 st2 st3 : Adapter.State C) :
  appends P st1 st2 -> appends P st2 st3 -> appends P st1 st3.
Proof.
  intros (n1 & H1 & F1) (n2 & H2 & F2). exists (n1 ++ n2).
  rewrite H2, H1, app_assoc. split; [reflexivity | apply Forall_app; auto].
Qed.

Lemma appends_add_issue {C} (P : Issue.t -> Prop) (st : Adapter.State C) i :
  P i -> appends P st (Adapter.add_issue i st).
Proof. intros Hi. exists [i]. split; [reflexivity | repeat constructor; exact Hi]. Qed.

Lemma appends_set_counters {C} (P : Issue.t -> Prop) (st : Adapter.State C) c :
  appends P st (Adapter.set_counters c st).
Proof. exists []. simpl. rewrite app_nil_r. split; [reflexivity | constructor]. Qed.

Lemma for_each_appends {A C} (P : Issue.t -> Prop)
    (body : Adapter.State C -> A -> Adapter.State C * option PyExn) l :
  (forall st x, appends P st (body st x).1) ->
  forall st, appends P st (for_each body st l).1.
Proof.
  intros Hbody. induction l as [|x l IH]; intros st; simpl.
  - apply appends_refl.
  - specialize (Hbody st x). destruct (body st x) as [st' [e|]]; simpl in *.
    + exact Hbody.
    + eapply appends_trans; [exact Hbody | apply IH].
Qed.

Lemma synthetic_adapter_issue filename msg :
  adapter_issue filename (Adapter.synthetic filename msg).
Proof.
  split; [reflexivity|]. exists "error". split; [reflexivity | set_solver].
Qed.

Lemma flake8_severity_native code :
  Flake8Analyzer._get_severity code ∈ ["error"; "warning"; "info"].
Proof.
  unfold Flake8Analyzer._get_severity.
  destruct (_ || _); [set_solver|]. destruct (_ || _); set_solver.
Qed.

Lemma pylint_severity_native category :
  PylintAnalyzer._get_severity category ∈ ["error"; "warning"; "info"].
Proof.
  unfold PylintAnalyzer._get_severity.
  repeat (destruct (py_eq_str category _); [set_solver|]). set_solver.
Qed.

Lemma flake8_parse_appends rt filename st out :
  appends (adapter_issue filename) st (Flake8Analyzer.parse_stdout rt filename st out).1.
Proof.
  unfold Flake8Analyzer.parse_stdout. apply for_each_appends. clear st out.
  intros st line. unfold Flake8Analyzer.parse_line.
  destruct (Str.nonempty _); [|apply appends_refl].
  destruct (Str.split_max _ _ _) as [|row [|col [|code [|text rest]]]];
    try apply appends_refl.
  destruct (int_of_str rt row) as [r|]; [|apply appends_refl].
  destruct (int_of_str rt col) as [c|]; [|apply appends_refl].
  simpl.
  assert (Hadd : appends (adapter_issue filename) st
            (Adapter.add_issue
               {| Issue.file := Some (PyStr filename);
                  Issue.line := Some (PyInt r);
                  Issue.column := Some (PyInt c);
                  Issue.code := Some (PyStr code);
                  Issue.message := Some (PyStr text);
                  Issue.severity := Some (PyStr (Flake8Analyzer._get_severity code));
                  Issue.details := None |} st)).
  { apply appends_add_issue. split; [reflexivity|].
    eexists. split; [reflexivity | apply flake8_severity_native]. }
  destruct (Flake8Analyzer._is_error code);
    (eapply appends_trans; [exact Hadd | apply appends_set_counters]).
Qed.

Lemma pylint_parse_appends rt filename st out :
  appends (adapter_issue filename) st (PylintAnalyzer.parse_stdout rt filename st out).1.
Proof.
  unfold PylintAnalyzer.parse_stdout.
  destruct (json_loads rt out) as [v|]; simpl.
  - destruct (py_iter v) as [items|e]; simpl; [|apply appends_refl].
    apply for_each_appends. clear.
    intros st item. unfold PylintAnalyzer.parse_item.
    destruct (PylintAnalyzer.fields item) as [[[[[message line] column] category] symbol]|e];
      simpl; [|apply appends_refl].
    apply (appends_trans _ _
             (Adapter.add_issue
                {| Issue.file := Some (PyStr filename);
                   Issue.line := Some line;
                   Issue.column := Some column;
                   Issue.code := Some symbol;
                   Issue.message := Some message;
                   Issue.severity := Some (PyStr (PylintAnalyzer._get_severity category));
                   Issue.details := None |} st)).
    + apply appends_add_issue. split; [reflexivity|].
      eexists. split; [reflexivity | apply pylint_severity_native].
    + repeat (destruct (py_eq_str category _);
               [apply appends_set_counters|]).
      apply appends_refl.
  - apply appends_add_issue, synthetic_adapter_issue.
Qed.

Lemma radon_parse_appends rt filename st out :
  appends (adapter_issue filename) st (RadonAnalyzer.parse_stdout rt filename st out).1.
Proof.
  unfold RadonAnalyzer.parse_stdout.
  destruct (json_loads rt out) as [v|]; simpl.
  - destruct (py_iter v) as [items|e]; simpl; [|apply appends_refl].
    apply for_each_appends. clear.
    intros st item. unfold RadonAnalyzer.parse_item.
    destruct (RadonAnalyzer.inspect_item rt filename item) as [[issue|]|e] eqn:Hi;
      simpl; try apply appends_refl.
    apply (appends_trans _ _ (Adapter.add_issue issue st));
      [|apply appends_set_counters].
    apply appends_add_issue.
    unfold RadonAnalyzer.inspect_item in Hi.
    destruct (py_contains "complexity" item) as [[]|]; simpl in Hi; try discriminate.
    destruct (RadonAnalyzer.fields item) as [[[[[complexity name] loc] lloc] cc]|];
      simpl in Hi; try discriminate.
    destruct (py_gt complexity RadonAnalyzer.threshold) as [[]|]; simpl in Hi;
      try discriminate.
    destruct (py_get item "start_line" (PyInt 0)); simpl in Hi; try discriminate.
    injection Hi as <-. split; [reflexivity|].
    exists "warning". split; [reflexivity | set_solver].
  - apply appends_add_issue, synthetic_adapter_issue.
Qed.

(** ** Removed and renamed files *)

Lemma not_kept_not_eligible file :
  ~ kept file -> Adapter.eligible file = false.
Proof.
  unfold kept, Adapter.eligible. intros Hk.
  apply bool_decide_eq_false. intros He. apply Hk.
  rewrite !elem_of_cons, elem_of_nil in *.
  intros [Hr | [Hr | []]]; rewrite Hr in He;
    destruct He as [He | [He | []]]; discriminate.
Qed.

Section AdapterResults.
Context {C : Type} (rt : Runtime) (env : Env) (tool : Adapter.Tool C).

Lemma analyze_loop_kept files : forall acc,
  foldM (Adapter.analyze_file rt env tool) acc files
  = foldM (Adapter.analyze_file rt env tool) acc (filter kept files).
Proof.
  induction files as [|file files IH]; intros acc; [reflexivity|].
  rewrite filter_cons. case_decide as Hk.
  - simpl. destruct (Adapter.analyze_file rt env tool acc file); simpl;
      [apply IH | reflexivity].
  - simpl. rewrite analyze_file_skip by (apply not_kept_not_eligible; exact Hk).
    simpl. apply IH.
Qed.

Lemma analyze_kept files :
  Adapter.analyze rt env tool files = Adapter.analyze rt env tool (filter kept files).
Proof. unfold Adapter.analyze. rewrite analyze_loop_kept. reflexivity. Qed.

(** When the scratch files can be written, [analyze] returns. *)
Lemma analyze_total files :
  (forall k filename patch, exists tmp, named_temporary_file env k filename patch = Ok tmp) ->
  exists result, Adapter.analyze rt env tool files = Ok result.
Proof.
  intros Htmp. unfold Adapter.analyze.
  assert (Hloop : forall acc, exists acc',
             foldM (Adapter.analyze_file rt env tool) acc files = Ok acc').
  { induction files as [|file files IH]; intros acc; simpl; [eauto|].
    assert (Hstep : exists acc1, Adapter.analyze_file rt env tool acc file = Ok acc1).
    { unfold Adapter.analyze_file. destruct (Adapter.eligible file); [|eauto].
      destruct (Htmp acc.2 (ChangedFile.filename file) (ChangedFile.patch file))
        as [tmp ->]. simpl.
      destruct (Adapter.try_body _ _ _ _ _ _); eauto. }
    destruct Hstep as [acc1 ->]. simpl. apply IH. }
  destruct (Hloop (Adapter.mkState [] (Adapter.zero tool), 0%nat)) as [acc' ->].
  simpl. eauto.
Qed.

(** Every issue of the result was built for an eligible file of the input. *)
Lemma analyze_issues files result :
  (forall filename st out,
     appends (adapter_issue filename) st (Adapter.parse_stdout tool filename st out).1) ->
  reports_issues tool ->
  Adapter.analyze rt env tool files = Ok result ->
  exists issues,
    AnalysisResult.issues result = Some issues
    /\ AnalysisResult.total_issues result = Some (Z.of_nat (length issues))
    /\ Forall (fun issue => exists file,
                 file ∈ files /\ Adapter.eligible file = true
                 /\ adapter_issue (ChangedFile.filename file) issue) issues.
Proof.
  intros Hparse Hres. unfold Adapter.analyze.
  destruct (foldM _ _ files) as [acc|e] eqn:Hloop; simpl; [|discriminate].
  intros [= <-]. destruct (Hres acc.1) as [Htotal Hissues].
  exists (Adapter.issues acc.1). split; [exact Hissues | split; [exact Htotal|]].
  pose (Inv := fun st : Adapter.State C =>
    Forall (fun issue => exists file,
              file ∈ files /\ Adapter.eligible file = true
              /\ adapter_issue (ChangedFile.filename file) issue) (Adapter.issues st)).
  apply (analyze_loop_invariant rt env tool Inv files _ acc) in Hloop;
    [exact Hloop | | constructor].
  apply Forall_forall. intros file Hin He. split.
  - intros st out Hst. unfold Inv in *.
    destruct (Hparse (ChangedFile.filename file) st out) as (new & -> & Hnew).
    apply Forall_app. split; [exact Hst|].
    eapply Forall_impl; [exact Hnew|]. intros issue Hi. exists file. auto.
  - intros st msg Hst. unfold Inv in *. simpl.
    apply Forall_app. split; [exact Hst|].
    repeat constructor. exists file. auto using synthetic_adapter_issue.
Qed.

Lemma analyze_skips files :
  (forall filename st out,
     appends (adapter_issue filename) st (Adapter.parse_stdout tool filename st out).1) ->
  reports_issues tool ->
  skips_removed_and_renamed (Adapter.analyze rt env tool) files.
Proof.
  intros Hparse Hres. split; [apply analyze_kept|].
  intros result Hok.
  destruct (analyze_issues files result Hparse Hres Hok) as (issues & Hi & _ & Hall).
  exists issues. split; [exact Hi|].
  eapply Forall_impl; [exact Hall|].
  intros issue (file & Hin & He & Hfile & _). exists file.
  split; [exact Hin | split; [|exact Hfile]].
  unfold Adapter.eligible in He. apply bool_decide_eq_true in He. exact He.
Qed.

End AdapterResults.

Lemma flake8_reports rt : reports_issues (Flake8Analyzer.tool rt).
Proof. intros st. split; reflexivity. Qed.

Lemma pylint_reports rt : reports_issues (PylintAnalyzer.tool rt).
Proof. intros st. split; reflexivity. Qed.

Lemma radon_reports rt : reports_issues (RadonAnalyzer.tool rt).
Proof. intros st. split; reflexivity. Qed.

(** C3: for each of the three adapters and every sequence of changed
    files, the files whose status is [removed] or [renamed] are not
    analyzed: the result, with its issues and all its counters, is the one
    for the sequence without them, and every issue of the result names a
    file of the sequence whose status is [added] or [modified]. *)
Theorem C3_removed_renamed_skipped (rt : Runtime) (env : Env)
    (files : list ChangedFile.t) :
  skips_removed_and_renamed (Flake8Analyzer.analyze rt env) files
  /\ skips_removed_and_renamed (PylintAnalyzer.analyze rt env) files
  /\ skips_removed_and_renamed (RadonAnalyzer.analyze rt env) files.
Proof.
  split; [|split].
  - apply analyze_skips; [apply flake8_parse_appends | apply flake8_reports].
  - apply analyze_skips; [apply pylint_parse_appends | apply pylint_reports].
  - apply analyze_skips; [apply radon_parse_appends | apply radon_reports].
Qed.

(** ** A missing tool binary *)




(** The status test of the adapters, written out. *)
Lemma eligible_added_or_modified file :
  Adapter.eligible file = true <-> added_or_modified file.
Proof.
  unfold Adapter.eligible, added_or_modified.
  rewrite bool_decide_eq_true, !elem_of_cons, elem_of_nil. tauto.
Qed.


Section MissingTool.
Context {C : Type} (rt : Runtime) (env : Env) (tool : Adapter.Tool C).




End MissingTool.



(** ** The complexity adapter *)

Lemma py_gt_int (z n : Z) : py_gt (PyInt z) n = Ok (bool_decide (n < z)).
Proof.
  simpl. f_equal. destruct (Z.ltb_spec n z).
  - rewrite bool_decide_eq_true_2; [reflexivity | assumption].
  - rewrite bool_decide_eq_false_2; [reflexivity | lia].
Qed.

(** What [inspect_item] returns when it returns an issue. *)
Lemma inspect_item_flagged rt filename item issue :
  RadonAnalyzer.inspect_item rt filename item = Ok (Some issue) ->
  exists complexity name loc lloc cc start_line,
    RadonAnalyzer.fields item = Ok (complexity, name, loc, lloc, cc)
    /\ py_gt complexity RadonAnalyzer.threshold = Ok true
    /\ issue = RadonAnalyzer.flagged rt filename start_line complexity name loc lloc cc.
Proof.
  unfold RadonAnalyzer.inspect_item. intros Hi.
  destruct (py_contains "complexity" item) as [[]|]; simpl in Hi; try discriminate.
  destruct (RadonAnalyzer.fields item) as [[[[[complexity name] loc] lloc] cc]|];
    simpl in Hi; try discriminate.
  destruct (py_gt complexity RadonAnalyzer.threshold) as [[]|] eqn:Hgt; simpl in Hi;
    try discriminate.
  destruct (py_get item "start_line" (PyInt 0)) as [start_line|]; simpl in Hi;
    try discriminate.
  injection Hi as <-. exists complexity, name, loc, lloc, cc, start_line.
  split; [reflexivity | split; [exact Hgt | reflexivity]].
Qed.

Lemma flagged_is_sound rt filename start_line complexity name loc lloc cc :
  py_gt complexity RadonAnalyzer.threshold = Ok true ->
  flagged_sound (RadonAnalyzer.flagged rt filename start_line complexity name loc lloc cc).
Proof.
  intros Hgt. split; [reflexivity|].
  eexists _, complexity, name. repeat split; try reflexivity. exact Hgt.
Qed.

(** The loop body on a unit with an integer score. *)
Lemma radon_parse_item_unit rt filename st d z name loc lloc cc :
  unit_dict (PyInt z) name loc lloc cc d ->
  RadonAnalyzer.parse_item rt filename st (PyDict d)
  = if bool_decide (RadonAnalyzer.threshold < z)
    then (Adapter.mkState
            (Adapter.issues st
             ++ [RadonAnalyzer.flagged rt filename
                   (default (PyInt 0) (Dict.get d "start_line")) (PyInt z) name loc lloc cc])
            (Adapter.counters st + 1), None)
    else (st, None).
Proof.
  intros (Hc & Hn & Hl & Hll & Hcc).
  unfold RadonAnalyzer.parse_item, RadonAnalyzer.inspect_item, RadonAnalyzer.fields.
  simpl py_contains. rewrite Hc. simpl bind.
  simpl py_getitem. rewrite Hc, Hn, Hl, Hll, Hcc. simpl bind.
  destruct (Z.ltb_spec RadonAnalyzer.threshold z).
  - rewrite bool_decide_eq_true_2 by assumption. reflexivity.
  - rewrite bool_decide_eq_false_2 by lia. reflexivity.
Qed.

Lemma radon_parse_item_counts rt filename st item :
  flagged_counted st ->
  flagged_counted (RadonAnalyzer.parse_item rt filename st item).1.
Proof.
  intros [Hcount Hsound]. unfold RadonAnalyzer.parse_item.
  destruct (RadonAnalyzer.inspect_item rt filename item) as [[issue|]|e] eqn:Hi;
    simpl; try (split; assumption).
  apply inspect_item_flagged in Hi
    as (complexity & name & loc & lloc & cc & start_line & _ & Hgt & ->).
  split; simpl.
  - rewrite filter_app, length_app, Nat2Z.inj_add, Hcount.
    rewrite filter_cons_True by (unfold is_flagged; simpl; eexists; reflexivity).
    simpl. lia.
  - apply Forall_app. split; [exact Hsound|].
    constructor; [|constructor]. intros _. apply flagged_is_sound. exact Hgt.
Qed.

Lemma for_each_invariant {A S} (Inv : S -> Prop)
    (body : S -> A -> S * option PyExn) l :
  (forall st x, Inv st -> Inv (body st x).1) ->
  forall st, Inv st -> Inv (for_each body st l).1.
Proof.
  intros Hbody. induction l as [|x l IH]; intros st Hst; simpl; [exact Hst|].
  specialize (Hbody st x Hst). destruct (body st x) as [st' [e|]]; simpl in *.
  - exact Hbody.
  - apply IH. exact Hbody.
Qed.

Lemma synthetic_counts filename msg (st : Adapter.State Z) :
  flagged_counted st ->
  flagged_counted (Adapter.add_issue (Adapter.synthetic filename msg) st).
Proof.
  intros [Hcount Hsound]. split; simpl.
  - rewrite filter_app, filter_cons_False, filter_nil, app_nil_r; [exact Hcount|].
    simpl. intros [? [=]].
  - apply Forall_app. split; [exact Hsound|].
    constructor; [|constructor]. simpl. intros [? [=]].
Qed.

Lemma radon_parse_counts rt filename st out :
  flagged_counted st ->
  flagged_counted (RadonAnalyzer.parse_stdout rt filename st out).1.
Proof.
  intros Hst. unfold RadonAnalyzer.parse_stdout.
  destruct (json_loads rt out) as [v|]; simpl.
  - destruct (py_iter v) as [items|e]; simpl; [|exact Hst].
    apply for_each_invariant; [|exact Hst].
    intros st' item. apply radon_parse_item_counts.
  - apply synthetic_counts. exact Hst.
Qed.

(** The loop body on the object of a unit. *)
Lemma radon_parse_item_describes rt filename st item u :
  describes item u ->
  RadonAnalyzer.parse_item rt filename st item
  = (Adapter.mkState
       (Adapter.issues st ++ complexity_issues rt [u] filename)
       (Adapter.counters st + Z.of_nat (length (complexity_issues rt [u] filename))),
     None).
Proof.
  intros (d & -> & Hc & Hn & Hl & Hll & Hcc & Hstart).
  rewrite (radon_parse_item_unit rt filename st d (CodeUnit.complexity u)
             (CodeUnit.name u) (CodeUnit.loc u) (CodeUnit.lloc u) (CodeUnit.cc u))
    by (repeat split; assumption).
  rewrite Hstart. unfold complexity_issues. rewrite filter_cons, filter_nil.
  change RadonAnalyzer.threshold with 5.
  destruct (decide (above_threshold u)) as [Hu|Hu]; unfold above_threshold in Hu.
  - rewrite bool_decide_eq_true_2 by exact Hu. reflexivity.
  - rewrite bool_decide_eq_false_2 by exact Hu. simpl.
    rewrite app_nil_r, Z.add_0_r. destruct st; reflexivity.
Qed.

(** The loop over the objects of the units of an output. *)
Lemma radon_parse_units rt filename items units :
  Forall2 describes items units ->
  forall st,
    for_each (RadonAnalyzer.parse_item rt filename) st items
    = (Adapter.mkState
         (Adapter.issues st ++ complexity_issues rt units filename)
         (Adapter.counters st + Z.of_nat (length (complexity_issues rt units filename))),
       None).
Proof.
  induction 1 as [|item u items units Hu _ IH]; intros st.
  - simpl. rewrite app_nil_r, Z.add_0_r. destruct st; reflexivity.
  - simpl for_each. rewrite (radon_parse_item_describes rt filename st item u Hu).
    rewrite IH. simpl Adapter.issues. simpl Adapter.counters.
    assert (Hcons : complexity_issues rt (u :: units) filename
                    = complexity_issues rt [u] filename
                      ++ complexity_issues rt units filename).
    { unfold complexity_issues.
      change (u :: units) with ([u] ++ units). rewrite filter_app, fmap_app.
      reflexivity. }
    rewrite Hcons, length_app, Nat2Z.inj_add, app_assoc, Z.add_assoc. reflexivity.
Qed.

Lemma radon_parse_stdout_units rt filename st out items units :
  json_loads rt out = Some (PyList items) ->
  Forall2 describes items units ->
  RadonAnalyzer.parse_stdout rt filename st out
  = (Adapter.mkState
       (Adapter.issues st ++ complexity_issues rt units filename)
       (Adapter.counters st + Z.of_nat (length (complexity_issues rt units filename))),
     None).
Proof.
  intros Hjson Hunits. unfold RadonAnalyzer.parse_stdout. rewrite Hjson.
  simpl py_iter. cbv beta iota. apply radon_parse_units. exact Hunits.
Qed.

(** The file loop when every run prints the same units. *)
Lemma radon_loop_units rt env out items units files :
  tool_prints env out ->
  Str.nonempty out = true ->
  json_loads rt out = Some (PyList items) ->
  Forall2 describes items units ->
  forall acc,
    exists k,
      foldM (Adapter.analyze_file rt env (RadonAnalyzer.tool rt)) acc files
      = Ok (Adapter.mkState
              (Adapter.issues acc.1
               ++ flat_map (fun file => complexity_issues rt units (ChangedFile.filename file))
                    (filter added_or_modified files))
              (Adapter.counters acc.1
               + Z.of_nat (length
                   (flat_map
                      (fun file => complexity_issues rt units (ChangedFile.filename file))
                      (filter added_or_modified files)))),
            k).
Proof.
  intros [Htmp Hrun] Hout Hjson Hunits.
  induction files as [|file files IH]; intros [st n].
  - exists n. simpl. rewrite app_nil_r, Z.add_0_r. destruct st; reflexivity.
  - simpl foldM. rewrite filter_cons.
    destruct (decide (added_or_modified file)) as [He|He].
    + pose proof (proj2 (eligible_added_or_modified file) He) as Hel.
      destruct (Htmp n (ChangedFile.filename file) (ChangedFile.patch file)) as [tmp Ht].
      assert (Hstep : Adapter.analyze_file rt env (RadonAnalyzer.tool rt) (st, n) file
                      = Ok (Adapter.mkState
                              (Adapter.issues st
                               ++ complexity_issues rt units (ChangedFile.filename file))
                              (Adapter.counters st
                               + Z.of_nat (length
                                   (complexity_issues rt units
                                      (ChangedFile.filename file)))),
                            S n)).
      { unfold Adapter.analyze_file, Adapter.try_body. rewrite Hel. simpl fst; simpl snd.
        rewrite Ht. simpl bind. rewrite Hrun. simpl stdout. simpl stderr. rewrite Hout.
        change (Adapter.parse_stdout (RadonAnalyzer.tool rt))
          with (RadonAnalyzer.parse_stdout rt).
        rewrite (radon_parse_stdout_units rt _ st out items units Hjson Hunits).
        reflexivity. }
      rewrite Hstep. simpl bind.
      destruct (IH (Adapter.mkState
                      (Adapter.issues st
                       ++ complexity_issues rt units (ChangedFile.filename file))
                      (Adapter.counters st
                       + Z.of_nat (length
                           (complexity_issues rt units (ChangedFile.filename file)))),
                    S n)) as [k Hk].
      exists k. rewrite Hk. simpl fst. simpl Adapter.issues. simpl Adapter.counters.
      simpl flat_map. rewrite length_app, Nat2Z.inj_add, app_assoc, Z.add_assoc.
      reflexivity.
    + assert (Hel : Adapter.eligible file = false).
      { destruct (Adapter.eligible file) eqn:Hel; [|reflexivity].
        destruct He. apply eligible_added_or_modified. exact Hel. }
      rewrite (analyze_file_skip rt env (RadonAnalyzer.tool rt) (st, n) file Hel).
      simpl bind. apply IH.
Qed.

Lemma radon_analyze_units rt env out items units files :
  tool_prints env out ->
  Str.nonempty out = true ->
  json_loads rt out = Some (PyList items) ->
  Forall2 describes items units ->
  let issues :=
    flat_map (fun file => complexity_issues rt units (ChangedFile.filename file))
      (filter added_or_modified files) in
  RadonAnalyzer.analyze rt env files
  = Ok {| AnalysisResult.total_issues := Some (Z.of_nat (length issues));
          AnalysisResult.errors := None;
          AnalysisResult.warnings := None;
          AnalysisResult.infos := None;
          AnalysisResult.complexity_issues := Some (Z.of_nat (length issues));
          AnalysisResult.issues := Some issues;
          AnalysisResult.error := None |}.
Proof.
  intros Hprints Hout Hjson Hunits issues. subst issues.
  unfold RadonAnalyzer.analyze, Adapter.analyze.
  destruct (radon_loop_units rt env out items units files Hprints Hout Hjson Hunits
              (Adapter.mkState [] 0, 0%nat)) as [k Hk].
  change (Adapter.zero (RadonAnalyzer.tool rt)) with 0.
  rewrite Hk. reflexivity.
Qed.

(** C7: the complexity adapter flags a unit only when its score is above
    the threshold of 5, a score of 5 is not flagged; a flagged unit adds
    exactly one issue of severity [warning] whose details carry the unit's
    name and score, and one to the counter; the [complexity_issues] of a
    result is the number of its flagged issues.  On an output that is a
    list of units, the parser adds the issue of each unit above 5, in
    order, and no other; when every run prints that output, [analyze]
    returns these issues for each added or modified file, and their
    number as [complexity_issues]. *)
Theorem C7_complexity_threshold (rt : Runtime) (env : Env) :
  RadonAnalyzer.threshold = 5
  /\ (forall filename st d z name loc lloc cc,
        unit_dict (PyInt z) name loc lloc cc d ->
        RadonAnalyzer.parse_item rt filename st (PyDict d)
        = if bool_decide (5 < z)
          then (Adapter.mkState
                  (Adapter.issues st
                   ++ [RadonAnalyzer.flagged rt filename
                         (default (PyInt 0) (Dict.get d "start_line"))
                         (PyInt z) name loc lloc cc])
                  (Adapter.counters st + 1), None)
          else (st, None))
  /\ (forall filename start_line complexity name loc lloc cc,
        let issue :=
          RadonAnalyzer.flagged rt filename start_line complexity name loc lloc cc in
        Issue.severity issue = Some (PyStr "warning")
        /\ Issue.details issue
           = Some (PyDict [("complexity", complexity); ("name", name); ("loc", loc);
                           ("lloc", lloc); ("cc", cc)]))
  /\ (forall files result,
        RadonAnalyzer.analyze rt env files = Ok result ->
        exists issues,
          AnalysisResult.issues result = Some issues
          /\ AnalysisResult.complexity_issues result
             = Some (Z.of_nat (length (filter is_flagged issues)))
          /\ Forall (fun issue => is_flagged issue -> flagged_sound issue) issues)
  /\ (forall filename st out items units,
        json_loads rt out = Some (PyList items) ->
        Forall2 describes items units ->
        RadonAnalyzer.parse_stdout rt filename st out
        = (Adapter.mkState
             (Adapter.issues st
              ++ (complexity_issue rt filename <$> filter above_threshold units))
             (Adapter.counters st
              + Z.of_nat (length (filter above_threshold units))),
           None))
  /\ (forall files out items units,
        tool_prints env out ->
        Str.nonempty out = true ->
        json_loads rt out = Some (PyList items) ->
        Forall2 describes items units ->
        let issues :=
          flat_map
            (fun file =>
               complexity_issue rt (ChangedFile.filename file)
                 <$> filter above_threshold units)
            (filter added_or_modified files) in
        RadonAnalyzer.analyze rt env files
        = Ok {| AnalysisResult.total_issues := Some (Z.of_nat (length issues));
                AnalysisResult.errors := None;
                AnalysisResult.warnings := None;
                AnalysisResult.infos := None;
                AnalysisResult.complexity_issues := Some (Z.of_nat (length issues));
                AnalysisResult.issues := Some issues;
                AnalysisResult.error := None |}).
Proof.
  split; [reflexivity | split; [|split; [|split; [|split]]]].
  - intros. apply radon_parse_item_unit. assumption.
  - intros. split; reflexivity.
  - intros files result. unfold RadonAnalyzer.analyze, Adapter.analyze.
    destruct (foldM _ _ files) as [acc|e] eqn:Hloop; simpl; [|discriminate].
    intros [= <-]. exists (Adapter.issues acc.1). simpl.
    apply (analyze_loop_invariant rt env (RadonAnalyzer.tool rt) flagged_counted
             files _ acc) in Hloop.
    + destruct Hloop as [Hcount Hsound]. rewrite Hcount. auto.
    + apply Forall_forall. intros file _ _. split.
      * intros st out. apply radon_parse_counts.
      * intros st msg. apply synthetic_counts.
    + split; [reflexivity | constructor].
  - intros filename st out items units Hjson Hunits.
    rewrite (radon_parse_stdout_units rt filename st out items units Hjson Hunits).
    unfold complexity_issues. rewrite length_fmap. reflexivity.
  - intros files out items units Hprints Hout Hjson Hunits.
    exact (radon_analyze_units rt env out items units files Hprints Hout Hjson Hunits).
Qed.

(** ** The orchestrator's results map *)

Lemma run_analyzers_entries rt env_flake8 env_pylint env_radon files :
  PRReviewAgent.run_analyzers rt env_flake8 env_pylint env_radon files
  = [("flake8", recorded rt (Flake8Analyzer.analyze rt env_flake8 files));
     ("pylint", recorded rt (PylintAnalyzer.analyze rt env_pylint files));
     ("radon", recorded rt (RadonAnalyzer.analyze rt env_radon files))].
Proof.
  unfold PRReviewAgent.run_analyzers, PRReviewAgent.analyzers, Dict.items.
  simpl foldl. unfold PRReviewAgent.run_analyzer. simpl fst; simpl snd.
  destruct (Flake8Analyzer.analyze rt env_flake8 files),
    (PylintAnalyzer.analyze rt env_pylint files),
    (RadonAnalyzer.analyze rt env_radon files); reflexivity.
Qed.

(** What the map holds for an adapter: its result, whose [total_issues] is
    the number of its issues and whose issues have a native severity, or
    the placeholder. *)
Lemma recorded_cases {C} rt env (tool : Adapter.Tool C) files :
  (forall filename st out,
     appends (adapter_issue filename) st (Adapter.parse_stdout tool filename st out).1) ->
  reports_issues tool ->
  let result := recorded rt (Adapter.analyze rt env tool files) in
  (exists issues,
     AnalysisResult.issues result = Some issues
     /\ AnalysisResult.total_issues result = Some (Z.of_nat (length issues))
     /\ Forall (fun issue => str_or_absent (Issue.severity issue)) issues)
  \/ (exists msg, result = PRReviewAgent.error_result msg).
Proof.
  intros Hparse Hres result. subst result.
  destruct (Adapter.analyze rt env tool files) as [r|e] eqn:Hok; simpl.
  - left. destruct (analyze_issues rt env tool files r Hparse Hres Hok)
      as (issues & Hi & Ht & Hall).
    exists issues. split; [exact Hi | split; [exact Ht|]].
    eapply Forall_impl; [exact Hall|].
    intros issue (_ & _ & _ & _ & s & -> & _). exact I.
  - right. eauto.
Qed.

Lemma run_analyzers_cases rt env_flake8 env_pylint env_radon files :
  Forall (fun entry : string * AnalysisResult.t =>
            (exists issues,
               AnalysisResult.issues entry.2 = Some issues
               /\ AnalysisResult.total_issues entry.2 = Some (Z.of_nat (length issues))
               /\ Forall (fun issue => str_or_absent (Issue.severity issue)) issues)
            \/ (exists msg, entry.2 = PRReviewAgent.error_result msg))
    (PRReviewAgent.run_analyzers rt env_flake8 env_pylint env_radon files).
Proof.
  rewrite run_analyzers_entries.
  constructor; [|constructor; [|constructor; [|constructor]]]; simpl.
  - apply recorded_cases; [apply flake8_parse_appends | apply flake8_reports].
  - apply recorded_cases; [apply pylint_parse_appends | apply pylint_reports].
  - apply recorded_cases; [apply radon_parse_appends | apply radon_reports].
Qed.

Lemma all_issues_severity rs :
  Forall (fun entry : string * AnalysisResult.t =>
            (exists issues,
               AnalysisResult.issues entry.2 = Some issues
               /\ AnalysisResult.total_issues entry.2 = Some (Z.of_nat (length issues))
               /\ Forall (fun issue => str_or_absent (Issue.severity issue)) issues)
            \/ (exists msg, entry.2 = PRReviewAgent.error_result msg)) rs ->
  Forall (fun entry : string * Issue.t => str_or_absent (Issue.severity entry.2))
    (all_issues rs).
Proof.
  induction 1 as [|[name r] rs Hr _ IH]; [constructor|].
  unfold all_issues; simpl flat_map. apply Forall_app. split; [|exact IH].
  apply Forall_fmap. simpl in Hr.
  destruct Hr as [(issues & -> & _ & Hall) | (msg & ->)]; simpl.
  - exact Hall.
  - constructor.
Qed.

(** C5: [error] normalizes to [critical], [warning] to [high], [info] and
    any other severity to [medium], whatever the case of the letters, and a
    missing severity to [medium]; in the report the synthesizer returns, as
    it does for every typed results map, every issue sits in exactly one of
    the four buckets, and the results of the three adapters never populate
    the [low] bucket. *)
Theorem C5_severity_buckets :
  (forall s, FeedbackGenerator._map_severity (PyStr s) = Ok (Spec.normalize s))
  /\ (forall s, Str.lower s = "error" ->
        FeedbackGenerator._map_severity (PyStr s) = Ok "critical")
  /\ (forall s, Str.lower s = "warning" ->
        FeedbackGenerator._map_severity (PyStr s) = Ok "high")
  /\ (forall s, Str.lower s <> "error" -> Str.lower s <> "warning" ->
        FeedbackGenerator._map_severity (PyStr s) = Ok "medium")
  /\ (forall name issue c h m lo,
        Issue.severity issue = None ->
        FeedbackGenerator.categorize_issue name (buckets c h m lo) issue
        = Ok (buckets c h (m ++ [FeedbackGenerator.reduced name issue]) lo))
  /\ (forall pr_data rs fb,
        FeedbackGenerator.generate_feedback pr_data rs = Ok fb ->
        Feedback.issues fb
        = buckets (bucket_of "critical" (all_issues rs))
                  (bucket_of "high" (all_issues rs))
                  (bucket_of "medium" (all_issues rs)) []
        /\ (fun entry => FeedbackGenerator.reduced entry.1 entry.2) <$> all_issues rs
           ≡ₚ bucket_of "critical" (all_issues rs) ++ bucket_of "high" (all_issues rs)
              ++ bucket_of "medium" (all_issues rs) ++ [])
  /\ (forall pr_data rs,
        results_typed rs ->
        exists fb, FeedbackGenerator.generate_feedback pr_data rs = Ok fb)
  /\ (forall rt env_flake8 env_pylint env_radon files,
        let rs := PRReviewAgent.run_analyzers rt env_flake8 env_pylint env_radon files in
        exists c h m,
          foldM FeedbackGenerator.categorize_result FeedbackGenerator.empty_buckets
            (Dict.items rs) = Ok (buckets c h m [])
          /\ (fun entry => FeedbackGenerator.reduced entry.1 entry.2) <$> all_issues rs
             ≡ₚ c ++ h ++ m ++ []).
Proof.
  split; [apply map_severity_normalize|].
  split; [|split; [|split; [|split; [|split; [|split]]]]].
  - intros s Hs. rewrite map_severity_normalize. unfold Spec.normalize.
    rewrite Hs. reflexivity.
  - intros s Hs. rewrite map_severity_normalize. unfold Spec.normalize.
    rewrite Hs. reflexivity.
  - intros s He Hw. rewrite map_severity_normalize. unfold Spec.normalize.
    repeat case_decide; congruence.
  - intros name issue c h m lo Hnone.
    rewrite categorize_issue_buckets by (rewrite Hnone; exact I).
    rewrite !bucket_of_single. unfold severity_str. simpl snd. rewrite Hnone.
    simpl. rewrite !app_nil_r. reflexivity.
  - intros pr_data rs fb Hok. apply generate_feedback_ok in Hok. subst fb.
    split; [reflexivity|]. rewrite app_nil_r. apply bucket_of_partition.
  - intros pr_data rs Hty. eexists. apply generate_feedback_typed. exact Hty.
  - intros rt env_flake8 env_pylint env_radon files rs.
    exists (bucket_of "critical" (all_issues rs)), (bucket_of "high" (all_issues rs)),
      (bucket_of "medium" (all_issues rs)).
    split.
    + change FeedbackGenerator.empty_buckets with (buckets [] [] [] []).
      unfold Dict.items. rewrite categorize_results_buckets; [reflexivity|].
      apply all_issues_severity, run_analyzers_cases.
    + rewrite app_nil_r. apply bucket_of_partition.
Qed.

(** C6: whenever the synthesizer returns a report, as it does for every
    typed results map, the recommendation list has no duplicate and is the
    priority sequence: the two fixed advisories, the critical, high and
    medium count strings, then the security, performance, refactor and
    documentation recommendations, each when its trigger fires; when some
    message contains a security keyword the security recommendation occurs
    exactly once, however many issues match. *)
Theorem C6_recommendations (pr_data : PRData.t) (rs : Dict.t AnalysisResult.t) :
  (forall fb,
     FeedbackGenerator.generate_feedback pr_data rs = Ok fb ->
     NoDup (Feedback.recommendations fb)
     /\ Feedback.recommendations fb
        = priority_sequence (bucket_count fb "critical") (bucket_count fb "high")
            (bucket_count fb "medium")
            (mentions FeedbackGenerator.security_keywords rs)
            (mentions FeedbackGenerator.performance_keywords rs)
            (mentions FeedbackGenerator.documentation_keywords rs)
     /\ (mentions FeedbackGenerator.security_keywords rs = true ->
         count_occ string_dec (Feedback.recommendations fb)
           FeedbackGenerator.security_advice = 1%nat))
  /\ (results_typed rs ->
      exists fb, FeedbackGenerator.generate_feedback pr_data rs = Ok fb).
Proof.
  split.
  - intros fb Hok. apply generate_feedback_ok in Hok. subst fb.
    split; [apply priority_sequence_NoDup | split; [reflexivity|]].
    intros Hsec. simpl Feedback.recommendations.
    apply NoDup_count_occ'; [apply NoDup_ListNoDup, priority_sequence_NoDup|].
    rewrite Hsec. unfold priority_sequence, when.
    rewrite !in_app_iff. do 4 right. left. left. reflexivity.
  - intros Hty. eexists. apply generate_feedback_typed. exact Hty.
Qed.

(** C9: when the three adapters return results without issues, the report
    has a [total_issues] of 0, four empty buckets, and the two fixed
    advisories as its only recommendations. *)
Theorem C9_no_issues (rt : Runtime) (env_flake8 env_pylint env_radon : Env)
    (pr_data : PRData.t) :
  let rs := PRReviewAgent.run_analyzers rt env_flake8 env_pylint env_radon
              (PRData.changed_files pr_data) in
  Forall (fun entry : string * AnalysisResult.t =>
            AnalysisResult.issues entry.2 = Some []) rs ->
  exists fb,
    FeedbackGenerator.generate_feedback pr_data rs = Ok fb
    /\ Summary.total_issues (Feedback.summary fb) = 0
    /\ Feedback.issues fb = buckets [] [] [] []
    /\ Feedback.recommendations fb
       = [FeedbackGenerator.style_advice; FeedbackGenerator.review_advice].
Proof.
  intros rs Hempty.
  assert (Hcases := run_analyzers_cases rt env_flake8 env_pylint env_radon
                      (PRData.changed_files pr_data)).
  fold rs in Hcases.
  assert (Hnone : all_issues rs = []).
  { clear Hcases. induction Hempty as [|[name r] l Hr _ IH]; [reflexivity|].
    unfold all_issues in *. simpl flat_map. simpl in Hr. rewrite Hr, IH. reflexivity. }
  assert (Hty : results_typed rs) by (unfold results_typed; rewrite Hnone; constructor).
  assert (Hzero : sum_counter AnalysisResult.total_issues rs = 0
                  /\ Forall (fun entry => counters_come_with_total entry.2) rs).
  { clear Hnone Hty. revert Hcases.
    induction Hempty as [|[name r] l Hr _ IH]; intros Hcases.
    - split; [reflexivity | constructor].
    - inversion Hcases as [|? ? Hc Hl]; subst. destruct (IH Hl) as [IHs IHc].
      simpl in Hr, Hc.
      destruct Hc as [(issues & Hi & Ht & _) | (msg & ->)]; [|discriminate].
      rewrite Hr in Hi. injection Hi as <-.
      split.
      + simpl. rewrite Ht, IHs. reflexivity.
      + constructor; [|exact IHc]. intros Hn. simpl in Hn. congruence. }
  destruct Hzero as [Hsum Hwf].
  eexists. split; [apply generate_feedback_typed; exact Hty|].
  simpl. rewrite Hnone.
  rewrite (generate_summary_total rs Hwf), Hsum.
  repeat split. unfold mentions. rewrite Hnone. reflexivity.
Qed.

(** ** The placeholder of an adapter that raised *)

Lemma foldM_skip {A B} (f : B -> A -> Res B) (x : A) (l1 l2 : list A) :
  (forall b, f b x = Ok b) ->
  forall b, foldM f b (l1 ++ x :: l2) = foldM f b (l1 ++ l2).
Proof.
  intros Hx. induction l1 as [|y l1 IH]; intros b; simpl.
  - rewrite Hx. reflexivity.
  - destruct (f b y); simpl; [apply IH | reflexivity].
Qed.

Lemma scan_results_skip keywords name msg rs1 rs2 :
  FeedbackGenerator.scan_results keywords
    (rs1 ++ (name, PRReviewAgent.error_result msg) :: rs2)
  = FeedbackGenerator.scan_results keywords (rs1 ++ rs2).
Proof.
  induction rs1 as [|[n r] rs1 IH]; simpl; [reflexivity|].
  destruct (FeedbackGenerator.scan_result keywords r) as [[]|]; simpl;
    [reflexivity | exact IH | reflexivity].
Qed.

Lemma generate_recommendations_skip pr_data name msg rs1 rs2 issues :
  FeedbackGenerator._generate_recommendations pr_data
    (rs1 ++ (name, PRReviewAgent.error_result msg) :: rs2) issues
  = FeedbackGenerator._generate_recommendations pr_data (rs1 ++ rs2) issues.
Proof.
  unfold FeedbackGenerator._generate_recommendations,
    FeedbackGenerator._has_security_issues, FeedbackGenerator._has_performance_issues,
    FeedbackGenerator._has_documentation_issues.
  rewrite !scan_results_skip. reflexivity.
Qed.

Lemma summary_step_set_used names s entry :
  FeedbackGenerator.summary_step (set_used names s) entry
  = set_used names (FeedbackGenerator.summary_step s entry).
Proof.
  unfold FeedbackGenerator.summary_step, set_used.
  destruct (AnalysisResult.total_issues entry.2); reflexivity.
Qed.

Lemma summary_fold_set_used names rs : forall s,
  foldl FeedbackGenerator.summary_step (set_used names s) rs
  = set_used names (foldl FeedbackGenerator.summary_step s rs).
Proof.
  induction rs as [|entry rs IH]; intros s; simpl; [reflexivity|].
  rewrite summary_step_set_used. apply IH.
Qed.

Lemma generate_summary_skip name msg rs1 rs2 :
  FeedbackGenerator._generate_summary
    (rs1 ++ (name, PRReviewAgent.error_result msg) :: rs2)
  = set_used (Dict.keys (rs1 ++ (name, PRReviewAgent.error_result msg) :: rs2))
      (FeedbackGenerator._generate_summary (rs1 ++ rs2)).
Proof.
  unfold FeedbackGenerator._generate_summary, Dict.items.
  rewrite <- summary_fold_set_used. unfold set_used at 1. simpl.
  rewrite !foldl_app. simpl. reflexivity.
Qed.

(** C10: the orchestrator records an entry for each of the three adapters,
    the placeholder [{"error": str(e)}] for one whose [analyze] raised; the
    placeholder has no [issues] and no [total_issues], and the synthesizer
    passes over it: the report of a map with a placeholder is the report of
    the map without it, buckets, recommendations and counts, except that
    [analyzers_used] also lists the name of the placeholder's adapter. *)
Theorem C10_error_placeholder :
  (forall rt env_flake8 env_pylint env_radon files,
     PRReviewAgent.run_analyzers rt env_flake8 env_pylint env_radon files
     = [("flake8", recorded rt (Flake8Analyzer.analyze rt env_flake8 files));
        ("pylint", recorded rt (PylintAnalyzer.analyze rt env_pylint files));
        ("radon", recorded rt (RadonAnalyzer.analyze rt env_radon files))])
  /\ (forall rt e, recorded rt (Raise e) = PRReviewAgent.error_result (exn_str rt e))
  /\ (forall msg,
        AnalysisResult.issues (PRReviewAgent.error_result msg) = None
        /\ AnalysisResult.total_issues (PRReviewAgent.error_result msg) = None)
  /\ (forall pr_data name msg rs1 rs2,
        let rs := rs1 ++ (name, PRReviewAgent.error_result msg) :: rs2 in
        FeedbackGenerator.generate_feedback pr_data rs
        = relisted (Dict.keys rs) (FeedbackGenerator.generate_feedback pr_data (rs1 ++ rs2))
        /\ name ∈ Dict.keys rs)
  /\ (forall pr_data name msg,
        FeedbackGenerator.generate_feedback pr_data
          [(name, PRReviewAgent.error_result msg)]
        = Ok (report [] [] [] []
                [FeedbackGenerator.style_advice; FeedbackGenerator.review_advice]
                (Summary.mk 0 (BySeverity.mk 0 0 0 0) [name]))).
Proof.
  split; [apply run_analyzers_entries|].
  split; [reflexivity|].
  split; [intros; split; reflexivity|].
  split; [|reflexivity].
  intros pr_data name msg rs1 rs2 rs. split.
  - subst rs. unfold FeedbackGenerator.generate_feedback, Dict.items.
    rewrite foldM_skip by reflexivity.
    destruct (foldM FeedbackGenerator.categorize_result _ (rs1 ++ rs2)) as [issues|e];
      simpl; [|reflexivity].
    rewrite generate_recommendations_skip.
    destruct (FeedbackGenerator._generate_recommendations _ _ _) as [recs|e];
      simpl; [|reflexivity].
    rewrite generate_summary_skip. reflexivity.
  - subst rs. unfold Dict.keys. rewrite fmap_app, fmap_cons. simpl. set_solver.
Qed.

(** ** The theorems at the sample inputs *)

Lemma C2_summary_sums_witness :
  Forall (fun entry : string * AnalysisResult.t => counters_come_with_total entry.2)
    Sample.results
  /\ Summary.total_issues (FeedbackGenerator._generate_summary Sample.results) = 10
  /\ BySeverity.high (Summary.by_severity (FeedbackGenerator._generate_summary Sample.results))
     = 10
  /\ Summary.analyzers_used (FeedbackGenerator._generate_summary Sample.results)
     = ["flake8"; "pylint"].
Proof.
  assert (Hwf : Forall (fun entry : string * AnalysisResult.t =>
                          counters_come_with_total entry.2) Sample.results).
  { repeat constructor; simpl; discriminate. }
  split; [exact Hwf|].
  destruct (C2_summary_sums Sample.results Hwf) as (Ht & _ & Hh & _ & _ & Hu & _).
  rewrite Ht, Hh, Hu. repeat split.
Defined.

Lemma C3_removed_renamed_skipped_witness :
  skips_removed_and_renamed (Flake8Analyzer.analyze Sample.runtime Sample.missing)
    Sample.files
  /\ skips_removed_and_renamed (PylintAnalyzer.analyze Sample.runtime Sample.missing)
       Sample.files
  /\ skips_removed_and_renamed (RadonAnalyzer.analyze Sample.runtime Sample.scoring)
       Sample.files.
Proof.
  split; [|split].
  - apply (C3_removed_renamed_skipped Sample.runtime Sample.missing Sample.files).
  - apply (C3_removed_renamed_skipped Sample.runtime Sample.missing Sample.files).
  - apply (C3_removed_renamed_skipped Sample.runtime Sample.scoring Sample.files).
Defined.


Lemma C5_severity_buckets_witness :
  Str.lower "ERROR" = "error"
  /\ FeedbackGenerator._map_severity (PyStr "ERROR") = Ok "critical"
  /\ results_typed Sample.results
  /\ exists fb,
       FeedbackGenerator.generate_feedback (PRData.mk Sample.files) Sample.results = Ok fb
       /\ bucket_count fb "high" = 10%nat
       /\ bucket_count fb "low" = 0%nat.
Proof.
  destruct C5_severity_buckets as (_ & Herror & _ & _ & _ & Hbuckets & Htyped & _).
  assert (Hty : results_typed Sample.results).
  { unfold results_typed. vm_compute all_issues. repeat constructor. }
  split; [reflexivity|].
  split; [apply Herror; reflexivity|].
  split; [exact Hty|].
  destruct (Htyped (PRData.mk Sample.files) Sample.results Hty) as (fb & Hok).
  destruct (Hbuckets _ _ _ Hok) as (Hb & _).
  exists fb. split; [exact Hok|].
  unfold bucket_count. rewrite Hb. split; reflexivity.
Defined.

Lemma C6_recommendations_witness :
  results_typed Sample.results
  /\ mentions FeedbackGenerator.security_keywords Sample.results = true
  /\ exists fb,
       FeedbackGenerator.generate_feedback (PRData.mk Sample.files) Sample.results = Ok fb
       /\ NoDup (Feedback.recommendations fb)
       /\ count_occ string_dec (Feedback.recommendations fb)
            FeedbackGenerator.security_advice = 1%nat.
Proof.
  assert (Hty : results_typed Sample.results).
  { unfold results_typed. vm_compute all_issues. repeat constructor. }
  assert (Hsec : mentions FeedbackGenerator.security_keywords Sample.results = true)
    by reflexivity.
  split; [exact Hty | split; [exact Hsec|]].
  destruct (C6_recommendations (PRData.mk Sample.files) Sample.results)
    as [Hprops Htotal].
  destruct (Htotal Hty) as [fb Hok].
  destruct (Hprops fb Hok) as (Hnd & _ & Honce).
  exists fb. split; [exact Hok | split; [exact Hnd | exact (Honce Hsec)]].
Defined.

Lemma C7_complexity_threshold_witness :
  tool_prints Sample.scoring "units"
  /\ json_loads Units.runtime "units"
     = Some (PyList
               [PyDict [("name", PyStr "parse"); ("complexity", PyInt 5);
                        ("loc", PyInt 12); ("lloc", PyInt 10); ("cc", PyInt 5);
                        ("start_line", PyInt 3)];
                PyDict [("name", PyStr "render"); ("complexity", PyInt 6);
                        ("loc", PyInt 40); ("lloc", PyInt 31); ("cc", PyInt 6)]])
  /\ RadonAnalyzer.parse_item Units.runtime "app.py" (Adapter.mkState [] 0)
       (PyDict [("name", PyStr "parse"); ("complexity", PyInt 5); ("loc", PyInt 12);
                ("lloc", PyInt 10); ("cc", PyInt 5); ("start_line", PyInt 3)])
     = (Adapter.mkState [] 0, None)
  /\ RadonAnalyzer.analyze Units.runtime Sample.scoring Sample.files
     = Ok {| AnalysisResult.total_issues := Some 2;
             AnalysisResult.errors := None;
             AnalysisResult.warnings := None;
             AnalysisResult.infos := None;
             AnalysisResult.complexity_issues := Some 2;
             AnalysisResult.issues :=
               Some [{| Issue.file := Some (PyStr "app.py");
                        Issue.line := Some (PyInt 0);
                        Issue.column := None;
                        Issue.code := None;
                        Issue.message :=
                          Some (PyStr "High complexity detected in render: 6 (CC: 6)");
                        Issue.severity := Some (PyStr "warning");
                        Issue.details :=
                          Some (PyDict [("complexity", PyInt 6); ("name", PyStr "render");
                                        ("loc", PyInt 40); ("lloc", PyInt 31);
                                        ("cc", PyInt 6)]) |};
                     {| Issue.file := Some (PyStr "new.py");
                        Issue.line := Some (PyInt 0);
                        Issue.column := None;
                        Issue.code := None;
                        Issue.message :=
                          Some (PyStr "High complexity detected in render: 6 (CC: 6)");
                        Issue.severity := Some (PyStr "warning");
                        Issue.details :=
                          Some (PyDict [("complexity", PyInt 6); ("name", PyStr "render");
                                        ("loc", PyInt 40); ("lloc", PyInt 31);
                                        ("cc", PyInt 6)]) |}];
             AnalysisResult.error := None |}.
Proof.
  assert (Hprints : tool_prints Sample.scoring "units").
  { split; intros; [eexists|]; reflexivity. }
  assert (Hjson : json_loads Units.runtime "units"
                  = Some (PyList
                            [PyDict [("name", PyStr "parse"); ("complexity", PyInt 5);
                                     ("loc", PyInt 12); ("lloc", PyInt 10);
                                     ("cc", PyInt 5); ("start_line", PyInt 3)];
                             PyDict [("name", PyStr "render"); ("complexity", PyInt 6);
                                     ("loc", PyInt 40); ("lloc", PyInt 31);
                                     ("cc", PyInt 6)]])) by reflexivity.
  assert (Hunits : Forall2 describes
                     [PyDict [("name", PyStr "parse"); ("complexity", PyInt 5);
                              ("loc", PyInt 12); ("lloc", PyInt 10);
                              ("cc", PyInt 5); ("start_line", PyInt 3)];
                      PyDict [("name", PyStr "render"); ("complexity", PyInt 6);
                              ("loc", PyInt 40); ("lloc", PyInt 31);
                              ("cc", PyInt 6)]]
                     [Units.parse; Units.render]).
  { constructor; [|constructor; [|constructor]];
      (eexists; split; [reflexivity|]; repeat split; reflexivity). }
  destruct (C7_complexity_threshold Units.runtime Sample.scoring)
    as (_ & Hitem & _ & _ & _ & Hanalyze).
  split; [exact Hprints|]. split; [exact Hjson|]. split.
  - rewrite (Hitem "app.py" (Adapter.mkState [] 0) _ 5 (PyStr "parse") (PyInt 12)
               (PyInt 10) (PyInt 5)); [reflexivity|].
    repeat split; reflexivity.
  - rewrite (Hanalyze Sample.files "units" _ [Units.parse; Units.render]
               Hprints eq_refl Hjson Hunits).
    reflexivity.
Defined.

Lemma C9_no_issues_witness :
  Forall (fun entry : string * AnalysisResult.t => AnalysisResult.issues entry.2 = Some [])
    (PRReviewAgent.run_analyzers Sample.runtime Sample.quiet Sample.quiet Sample.quiet
       Sample.files)
  /\ exists fb,
       FeedbackGenerator.generate_feedback (PRData.mk Sample.files)
         (PRReviewAgent.run_analyzers Sample.runtime Sample.quiet Sample.quiet Sample.quiet
            Sample.files) = Ok fb
       /\ Summary.total_issues (Feedback.summary fb) = 0
       /\ Feedback.issues fb = buckets [] [] [] []
       /\ Feedback.recommendations fb
          = [FeedbackGenerator.style_advice; FeedbackGenerator.review_advice].
Proof.
  assert (Hempty : Forall (fun entry : string * AnalysisResult.t =>
                             AnalysisResult.issues entry.2 = Some [])
                     (PRReviewAgent.run_analyzers Sample.runtime Sample.quiet Sample.quiet
                        Sample.quiet Sample.files)).
  { vm_compute PRReviewAgent.run_analyzers. repeat constructor. }
  split; [exact Hempty|].
  exact (C9_no_issues Sample.runtime Sample.quiet Sample.quiet Sample.quiet
           (PRData.mk Sample.files) Hempty).
Defined.

(** An [analyze] that raises, and what the orchestrator and the synthesizer
    make of it. *)
Example read_only_file_system :
  Flake8Analyzer.analyze Sample.runtime Sample.read_only Sample.files
  = Raise (OSError "Read-only file system")
  /\ PRReviewAgent.run_analyzers Sample.runtime Sample.read_only Sample.quiet Sample.quiet
       Sample.files
     = [("flake8", PRReviewAgent.error_result "Read-only file system");
        ("pylint", recorded Sample.runtime
                     (PylintAnalyzer.analyze Sample.runtime Sample.quiet Sample.files));
        ("radon", recorded Sample.runtime
                    (RadonAnalyzer.analyze Sample.runtime Sample.quiet Sample.files))]
  /\ exists fb,
       PRReviewAgent.review_pr Sample.runtime Sample.read_only Sample.quiet Sample.quiet
         (PRData.mk Sample.files) = Ok fb
       /\ Review.quality_score fb = 100
       /\ Summary.analyzers_used (Feedback.summary (Review.feedback fb))
          = ["flake8"; "pylint"; "radon"].
Proof.
  split; [reflexivity | split; [reflexivity|]].
  eexists. split; [vm_compute; reflexivity | split; reflexivity].
Qed.

(** * Further properties of the code *)

(** ** The quality score on any report *)

Lemma weight_positive (k : string) :
  1 <= default 1 (PRReviewAgent.severity_weights !! k).
Proof.
  destruct (PRReviewAgent.severity_weights !! k) as [w|] eqn:Hw; simpl; [|lia].
  unfold PRReviewAgent.severity_weights in Hw.
  rewrite !lookup_insert_Some, lookup_singleton_Some in Hw.
  destruct Hw as [[_ <-] | [_ [[_ <-] | [_ [[_ <-] | [_ [_ <-]]]]]]]; lia.
Qed.

Lemma weighted_total_zero (d : Dict.t (list FeedbackIssue.t)) :
  0 <= foldr (fun entry acc => PRReviewAgent.weighted_step 0 entry + acc) 0 d
  /\ (foldr (fun entry acc => PRReviewAgent.weighted_step 0 entry + acc) 0 d = 0
      <-> Forall (fun entry => entry.2 = []) d).
Proof.
  induction d as [|[k l] d [IHpos IHzero]]; simpl.
  - split; [lia | split; [constructor | reflexivity]].
  - unfold PRReviewAgent.weighted_step at 1 3. simpl fst; simpl snd.
    pose proof (weight_positive k) as Hw.
    split; [nia|]. split.
    + intros Hsum. destruct l as [|x l].
      * constructor; [reflexivity|]. apply IHzero. simpl in Hsum. lia.
      * simpl length in Hsum. nia.
    + intros Hall. inversion Hall as [|? ? Hl Hd]; subst. simpl in Hl. subst l.
      apply IHzero in Hd. simpl. lia.
Qed.

(** X1: the quality score of any report, whatever keys its [issues] hold,
    lies between 0 and 100, and it is 100 exactly when every bucket is
    empty: any issue at all costs at least one point. *)
Theorem X1_score_bounds (fb : Feedback.t) :
  0 <= PRReviewAgent._calculate_quality_score fb <= 100
  /\ (PRReviewAgent._calculate_quality_score fb = 100
      <-> Forall (fun entry => entry.2 = []) (Feedback.issues fb)).
Proof.
  unfold PRReviewAgent._calculate_quality_score, Dict.items.
  rewrite weighted_fold.
  destruct (weighted_total_zero (Feedback.issues fb)) as [Hpos Hzero].
  unfold PRReviewAgent.round_int. simpl.
  split; [lia|]. rewrite <- Hzero. lia.
Qed.

(** ** Nothing to analyze *)

Lemma analyze_nothing {C} rt env (tool : Adapter.Tool C) files :
  Forall (fun file => Adapter.eligible file = false) files ->
  Adapter.analyze rt env tool files = Ok (nothing_found tool).
Proof.
  intros Hnone. unfold Adapter.analyze.
  assert (Hloop : forall acc,
             foldM (Adapter.analyze_file rt env tool) acc files = Ok acc).
  { induction Hnone as [|file files Hfile _ IH]; intros acc; [reflexivity|].
    simpl. rewrite analyze_file_skip by exact Hfile. simpl. apply IH. }
  rewrite Hloop. reflexivity.
Qed.

(** X2: when no changed file is added or modified (in particular when there
    is none), the review does not consult the environment: each adapter
    returns its empty result, the report has empty buckets and the two
    fixed advisories, and the quality score is 100. *)
Theorem X2_nothing_to_analyze (rt : Runtime) (env_flake8 env_pylint env_radon : Env)
    (pr_data : PRData.t) :
  Forall (fun file => Adapter.eligible file = false) (PRData.changed_files pr_data) ->
  PRReviewAgent.review_pr rt env_flake8 env_pylint env_radon pr_data
  = Ok {| Review.pr_info := pr_data;
          Review.analysis :=
            [("flake8", nothing_found (Flake8Analyzer.tool rt));
             ("pylint", nothing_found (PylintAnalyzer.tool rt));
             ("radon", nothing_found (RadonAnalyzer.tool rt))];
          Review.feedback :=
            report [] [] [] []
              [FeedbackGenerator.style_advice; FeedbackGenerator.review_advice]
              (Summary.mk 0 (BySeverity.mk 0 0 0 0) ["flake8"; "pylint"; "radon"]);
          Review.quality_score := 100 |}.
Proof.
  intros Hnone. unfold PRReviewAgent.review_pr.
  rewrite run_analyzers_entries.
  unfold Flake8Analyzer.analyze, PylintAnalyzer.analyze, RadonAnalyzer.analyze.
  rewrite !analyze_nothing by exact Hnone.
  reflexivity.
Qed.

Lemma X2_nothing_to_analyze_witness :
  Forall (fun file => Adapter.eligible file = false)
    [ChangedFile.mk "old.py" "removed" 0 9 "" ""; ChangedFile.mk "b.py" "renamed" 0 0 "" ""]
  /\ exists review,
       PRReviewAgent.review_pr Sample.runtime Sample.read_only Sample.read_only
         Sample.read_only
         (PRData.mk [ChangedFile.mk "old.py" "removed" 0 9 "" "";
                     ChangedFile.mk "b.py" "renamed" 0 0 "" ""]) = Ok review
       /\ Review.quality_score review = 100.
Proof.
  assert (Hnone : Forall (fun file => Adapter.eligible file = false)
                    [ChangedFile.mk "old.py" "removed" 0 9 "" "";
                     ChangedFile.mk "b.py" "renamed" 0 0 "" ""]).
  { repeat constructor. }
  split; [exact Hnone|].
  eexists. split.
  - apply (X2_nothing_to_analyze Sample.runtime Sample.read_only Sample.read_only
             Sample.read_only
             (PRData.mk [ChangedFile.mk "old.py" "removed" 0 9 "" "";
                         ChangedFile.mk "b.py" "renamed" 0 0 "" ""]) Hnone).
  - reflexivity.
Defined.

(** ** The one way [analyze] raises *)

Lemma analyze_loop_raise {C} rt env (tool : Adapter.Tool C) files e : forall acc,
  foldM (Adapter.analyze_file rt env tool) acc files = Raise e ->
  scratch_failure env files e.
Proof.
  induction files as [|file files IH]; intros acc; simpl; [discriminate|].
  destruct (Adapter.analyze_file rt env tool acc file) as [acc1|e1] eqn:Hstep; simpl.
  - intros Hrest. destruct (IH _ Hrest) as (k & f & Hin & He & Hraise).
    exists k, f. split; [right; exact Hin | auto].
  - intros [= <-]. unfold Adapter.analyze_file in Hstep.
    destruct (Adapter.eligible file) eqn:He; [|discriminate].
    destruct (named_temporary_file env acc.2 (ChangedFile.filename file)
                (ChangedFile.patch file)) as [tmp|e2] eqn:Htmp; simpl in Hstep.
    + destruct (Adapter.try_body _ _ _ _ _ _). discriminate.
    + injection Hstep as <-. exists acc.2, file. split; [left | auto].
Qed.

Lemma analyze_raise {C} rt env (tool : Adapter.Tool C) files e :
  Adapter.analyze rt env tool files = Raise e -> scratch_failure env files e.
Proof.
  unfold Adapter.analyze.
  destruct (foldM _ _ files) as [acc|e1] eqn:Hloop; simpl; [discriminate|].
  intros [= <-]. eapply analyze_loop_raise, Hloop.
Qed.

(** X3: an adapter raises only what the creation of the scratch file raised
    for an added or modified file; a failure of the tool run, of the
    parsing of its output or of a subscript never leaves [analyze]. *)
Theorem X3_analyze_raises_only_scratch (rt : Runtime) (env : Env)
    (files : list ChangedFile.t) (e : PyExn) :
  (Flake8Analyzer.analyze rt env files = Raise e -> scratch_failure env files e)
  /\ (PylintAnalyzer.analyze rt env files = Raise e -> scratch_failure env files e)
  /\ (RadonAnalyzer.analyze rt env files = Raise e -> scratch_failure env files e).
Proof. repeat split; apply analyze_raise. Qed.

Lemma X3_analyze_raises_only_scratch_witness :
  Flake8Analyzer.analyze Sample.runtime Sample.read_only Sample.files
  = Raise (OSError "Read-only file system")
  /\ scratch_failure Sample.read_only Sample.files (OSError "Read-only file system").
Proof.
  assert (Hraise : Flake8Analyzer.analyze Sample.runtime Sample.read_only Sample.files
                   = Raise (OSError "Read-only file system")) by reflexivity.
  split; [exact Hraise|].
  apply (X3_analyze_raises_only_scratch Sample.runtime Sample.read_only Sample.files
           (OSError "Read-only file system")). exact Hraise.
Defined.

(** ** The counters of the lint adapters *)

Lemma count_issues_nil p : count_issues p [] = 0.
Proof. reflexivity. Qed.

Lemma count_issues_app p l1 l2 :
  count_issues p (l1 ++ l2) = count_issues p l1 + count_issues p l2.
Proof. unfold count_issues. rewrite filter_app, length_app. lia. Qed.

Lemma count_issues_single p issue :
  count_issues p [issue] = if p issue then 1 else 0.
Proof.
  unfold count_issues. rewrite filter_cons, filter_nil.
  destruct (p issue); case_decide; try congruence; reflexivity.
Qed.

Lemma count_issues_snoc p l issue :
  count_issues p (l ++ [issue]) = count_issues p l + if p issue then 1 else 0.
Proof. rewrite count_issues_app, count_issues_single. reflexivity. Qed.

Lemma count_issues_bounds p l : 0 <= count_issues p l <= Z.of_nat (length l).
Proof.
  unfold count_issues. pose proof (length_filter (fun issue => p issue = true) l). lia.
Qed.

Lemma flake8_error_severity code :
  bool_decide (Flake8Analyzer._get_severity code = "error") = Flake8Analyzer._is_error code.
Proof.
  unfold Flake8Analyzer._get_severity, Flake8Analyzer._is_error.
  destruct (_ || _); [reflexivity|]. destruct (_ || _); reflexivity.
Qed.

Lemma flake8_severity_split code :
  Flake8Analyzer._is_error code = false ->
  (Flake8Analyzer._get_severity code = "warning"
   \/ Flake8Analyzer._get_severity code = "info").
Proof.
  unfold Flake8Analyzer._get_severity, Flake8Analyzer._is_error.
  intros ->. destruct (_ || _); auto.
Qed.

Lemma flake8_synthetic_counted filename msg st :
  flake8_counted st -> flake8_counted (Adapter.add_issue (Adapter.synthetic filename msg) st).
Proof.
  intros [He Hw]. split; simpl; rewrite !count_issues_snoc; simpl; lia.
Qed.

Lemma flake8_parse_line_counted rt filename st line :
  flake8_counted st -> flake8_counted (Flake8Analyzer.parse_line rt filename st line).1.
Proof.
  intros [He Hw]. unfold Flake8Analyzer.parse_line.
  destruct (Str.nonempty _); [|split; assumption].
  destruct (Str.split_max _ _ _) as [|row [|col [|code [|text rest]]]];
    try (split; assumption).
  destruct (int_of_str rt row) as [r|]; [|split; assumption].
  destruct (int_of_str rt col) as [c|]; [|split; assumption].
  simpl.
  assert (Hfind : forall s,
            finding_of s
              {| Issue.file := Some (PyStr filename);
                 Issue.line := Some (PyInt r);
                 Issue.column := Some (PyInt c);
                 Issue.code := Some (PyStr code);
                 Issue.message := Some (PyStr text);
                 Issue.severity := Some (PyStr (Flake8Analyzer._get_severity code));
                 Issue.details := None |}
            = bool_decide (Flake8Analyzer._get_severity code = s)) by reflexivity.
  destruct (Flake8Analyzer._is_error code) eqn:Hcode; split; simpl;
    rewrite !count_issues_snoc, !Hfind.
  - rewrite flake8_error_severity, Hcode. lia.
  - rewrite <- flake8_error_severity in Hcode.
    apply bool_decide_eq_true in Hcode. rewrite Hcode. simpl. lia.
  - rewrite flake8_error_severity, Hcode. lia.
  - destruct (flake8_severity_split code Hcode) as [-> | ->]; simpl; lia.
Qed.

Lemma flake8_parse_counted rt filename st out :
  flake8_counted st -> flake8_counted (Flake8Analyzer.parse_stdout rt filename st out).1.
Proof.
  unfold Flake8Analyzer.parse_stdout. apply for_each_invariant.
  intros st' line. apply flake8_parse_line_counted.
Qed.

Lemma finding_of_one issue :
  (if finding_of "error" issue then 1 else 0)
  + ((if finding_of "warning" issue then 1 else 0)
     + (if finding_of "info" issue then 1 else 0)) <= 1.
Proof.
  unfold finding_of, has_severity, py_eq_str.
  destruct (has_code issue), (Issue.severity issue) as [[]|]; simpl; try lia.
  repeat (case_bool_decide; subst); try discriminate; lia.
Qed.

(** The findings of the three native severities are different issues. *)
Lemma findings_bounded l :
  count_issues (finding_of "error") l
  + (count_issues (finding_of "warning") l + count_issues (finding_of "info") l)
  <= Z.of_nat (length l).
Proof.
  induction l as [|i l IH]; [reflexivity|].
  change (i :: l) with ([i] ++ l). rewrite !count_issues_app, !count_issues_single.
  rewrite length_app. simpl length. pose proof (finding_of_one i). lia.
Qed.

Lemma flake8_result_counted rt env files result :
  Flake8Analyzer.analyze rt env files = Ok result ->
  exists st,
    result = Adapter.result_of (Flake8Analyzer.tool rt) st /\ flake8_counted st.
Proof.
  unfold Flake8Analyzer.analyze, Adapter.analyze.
  destruct (foldM _ _ files) as [acc|e] eqn:Hloop; simpl; [|discriminate].
  intros [= <-]. exists acc.1. split; [reflexivity|].
  apply (analyze_loop_invariant rt env (Flake8Analyzer.tool rt) flake8_counted
           files _ acc) in Hloop; [exact Hloop | | split; reflexivity].
  apply Forall_forall. intros file _ _. split.
  - intros st out. apply flake8_parse_counted.
  - intros st msg. apply flake8_synthetic_counted.
Qed.

(** X4: in every result of the lint adapter, [errors] is the number of
    findings of severity [error] and [warnings] the number of all other
    findings, those of severity [info] included; the synthetic issues are
    in neither, so [errors + warnings] is the number of issues that carry a
    code and is at most [total_issues]. *)
Theorem X4_flake8_counters (rt : Runtime) (env : Env) (files : list ChangedFile.t)
    (result : AnalysisResult.t) :
  Flake8Analyzer.analyze rt env files = Ok result ->
  exists issues,
    AnalysisResult.issues result = Some issues
    /\ AnalysisResult.total_issues result = Some (Z.of_nat (length issues))
    /\ AnalysisResult.errors result = Some (count_issues (finding_of "error") issues)
    /\ AnalysisResult.warnings result
       = Some (count_issues (finding_of "warning") issues
               + count_issues (finding_of "info") issues)
    /\ count_issues (finding_of "error") issues
       + (count_issues (finding_of "warning") issues
          + count_issues (finding_of "info") issues)
       <= Z.of_nat (length issues).
Proof.
  intros Hok. destruct (flake8_result_counted rt env files result Hok)
    as (st & -> & He & Hw).
  exists (Adapter.issues st). simpl. rewrite He, Hw.
  repeat split. apply findings_bounded.
Qed.

Lemma pylint_synthetic_counted filename msg st :
  pylint_counted st -> pylint_counted (Adapter.add_issue (Adapter.synthetic filename msg) st).
Proof.
  intros (He & Hw & Hi). repeat split; simpl; rewrite ?count_issues_snoc; simpl; lia.
Qed.

Lemma pylint_parse_item_counted filename st item :
  pylint_counted st -> pylint_counted (PylintAnalyzer.parse_item filename st item).1.
Proof.
  intros (He & Hw & Hi). unfold PylintAnalyzer.parse_item.
  destruct (PylintAnalyzer.fields item) as [[[[[message line] column] category] symbol]|e];
    simpl; [|repeat split; assumption || lia].
  assert (Hfind : forall s,
            finding_of s
              {| Issue.file := Some (PyStr filename);
                 Issue.line := Some line;
                 Issue.column := Some column;
                 Issue.code := Some symbol;
                 Issue.message := Some message;
                 Issue.severity := Some (PyStr (PylintAnalyzer._get_severity category));
                 Issue.details := None |}
            = bool_decide (PylintAnalyzer._get_severity category = s)) by reflexivity.
  assert (Hsev : PylintAnalyzer._get_severity category
                 = if py_eq_str category "error" then "error"
                   else if py_eq_str category "warning" then "warning" else "info").
  { unfold PylintAnalyzer._get_severity.
    repeat (destruct (py_eq_str category _)); reflexivity. }
  destruct (py_eq_str category "error") eqn:E1;
    [|destruct (py_eq_str category "warning") eqn:E2;
      [|destruct (py_eq_str category "info") eqn:E3]];
    repeat split; simpl; rewrite ?count_issues_snoc, ?Hfind, ?Hsev; simpl; lia.
Qed.

Lemma pylint_parse_counted rt filename st out :
  pylint_counted st -> pylint_counted (PylintAnalyzer.parse_stdout rt filename st out).1.
Proof.
  intros Hst. unfold PylintAnalyzer.parse_stdout.
  destruct (json_loads rt out) as [v|]; simpl.
  - destruct (py_iter v) as [items|e]; simpl; [|exact Hst].
    apply for_each_invariant; [|exact Hst].
    intros st' item. apply pylint_parse_item_counted.
  - apply pylint_synthetic_counted. exact Hst.
Qed.

Lemma pylint_result_counted rt env files result :
  PylintAnalyzer.analyze rt env files = Ok result ->
  exists st,
    result = Adapter.result_of (PylintAnalyzer.tool rt) st /\ pylint_counted st.
Proof.
  unfold PylintAnalyzer.analyze, Adapter.analyze.
  destruct (foldM _ _ files) as [acc|e] eqn:Hloop; simpl; [|discriminate].
  intros [= <-]. exists acc.1. split; [reflexivity|].
  apply (analyze_loop_invariant rt env (PylintAnalyzer.tool rt) pylint_counted
           files _ acc) in Hloop; [exact Hloop | | repeat split; reflexivity].
  apply Forall_forall. intros file _ _. split.
  - intros st out. apply pylint_parse_counted.
  - intros st msg. apply pylint_synthetic_counted.
Qed.

(** X5: in every result of the quality-lint adapter, [errors] and
    [warnings] are the numbers of findings of severity [error] and
    [warning]; [infos] counts the native category [info] only, so it is at
    most the number of findings of severity [info], to which conventions
    and refactors are mapped without being counted; the synthetic issues
    are in none of the three. *)
Theorem X5_pylint_counters (rt : Runtime) (env : Env) (files : list ChangedFile.t)
    (result : AnalysisResult.t) :
  PylintAnalyzer.analyze rt env files = Ok result ->
  exists issues infos,
    AnalysisResult.issues result = Some issues
    /\ AnalysisResult.total_issues result = Some (Z.of_nat (length issues))
    /\ AnalysisResult.errors result = Some (count_issues (finding_of "error") issues)
    /\ AnalysisResult.warnings result = Some (count_issues (finding_of "warning") issues)
    /\ AnalysisResult.infos result = Some infos
    /\ 0 <= infos <= count_issues (finding_of "info") issues
    /\ count_issues (finding_of "error") issues
       + count_issues (finding_of "warning") issues + infos
       <= Z.of_nat (length issues).
Proof.
  intros Hok. destruct (pylint_result_counted rt env files result Hok)
    as (st & -> & He & Hw & Hi).
  exists (Adapter.issues st), (PylintAnalyzer.total_infos (Adapter.counters st)).
  simpl. rewrite He, Hw. repeat split; try lia.
  pose proof (findings_bounded (Adapter.issues st)). lia.
Qed.

(** ** The summary against the buckets *)

Lemma count_severity_split s l :
  count_issues (has_severity s) l
  = count_issues (finding_of s) l
    + count_issues (fun issue => negb (has_code issue) && has_severity s issue) l.
Proof.
  induction l as [|i l IH]; [reflexivity|].
  change (i :: l) with ([i] ++ l). rewrite !count_issues_app, !count_issues_single, IH.
  unfold finding_of. destruct (has_code i), (has_severity s i); simpl; lia.
Qed.

Lemma count_issues_none p l :
  Forall (fun issue => p issue = false) l -> count_issues p l = 0.
Proof.
  induction 1 as [|i l Hi _ IH]; [reflexivity|].
  change (i :: l) with ([i] ++ l). rewrite count_issues_app, count_issues_single, Hi, IH.
  reflexivity.
Qed.

Lemma adapter_issue_native filename issue :
  adapter_issue filename issue -> native_severity issue.
Proof. intros [_ H]. exact H. Qed.

Lemma placeholder_accounted msg : entry_accounted (PRReviewAgent.error_result msg).
Proof.
  unfold entry_accounted, counters_come_with_total. simpl.
  split; [constructor|]. split; [reflexivity|]. split; [unfold count_issues; simpl; lia|].
  split; [reflexivity|]. intros _. repeat split.
Qed.

Lemma flake8_recorded_accounted rt env files :
  entry_accounted (recorded rt (Flake8Analyzer.analyze rt env files)).
Proof.
  destruct (Flake8Analyzer.analyze rt env files) as [result|e] eqn:Hok; simpl;
    [|apply placeholder_accounted].
  destruct (flake8_result_counted rt env files result Hok) as (st & Hres & He & Hw).
  destruct (analyze_issues rt env (Flake8Analyzer.tool rt) files result
              (flake8_parse_appends rt) (flake8_reports rt) Hok)
    as (issues & Hi & Ht & Hall).
  subst result. simpl in Hi. injection Hi as <-.
  unfold entry_accounted. simpl.
  split; [|split; [|split; [|split]]].
  - eapply Forall_impl; [exact Hall|].
    intros issue (file & _ & _ & Hadapt). eapply adapter_issue_native, Hadapt.
  - rewrite He. apply count_severity_split.
  - pose proof (count_issues_bounds (has_severity "info") (Adapter.issues st)). lia.
  - reflexivity.
  - intros [=].
Qed.

Lemma pylint_recorded_accounted rt env files :
  entry_accounted (recorded rt (PylintAnalyzer.analyze rt env files)).
Proof.
  destruct (PylintAnalyzer.analyze rt env files) as [result|e] eqn:Hok; simpl;
    [|apply placeholder_accounted].
  destruct (pylint_result_counted rt env files result Hok) as (st & Hres & He & Hw & Hinf).
  destruct (analyze_issues rt env (PylintAnalyzer.tool rt) files result
              (pylint_parse_appends rt) (pylint_reports rt) Hok)
    as (issues & Hi & Ht & Hall).
  subst result. simpl in Hi. injection Hi as <-.
  unfold entry_accounted. simpl.
  split; [|split; [|split; [|split]]].
  - eapply Forall_impl; [exact Hall|].
    intros issue (file & _ & _ & Hadapt). eapply adapter_issue_native, Hadapt.
  - rewrite He. apply count_severity_split.
  - rewrite (count_severity_split "info").
    pose proof (count_issues_bounds
                  (fun issue => negb (has_code issue) && has_severity "info" issue)
                  (Adapter.issues st)). lia.
  - reflexivity.
  - intros [=].
Qed.

Lemma radon_parse_item_no_code rt filename (st : Adapter.State Z) item :
  Forall (fun issue => has_code issue = false) (Adapter.issues st) ->
  Forall (fun issue => has_code issue = false)
    (Adapter.issues (RadonAnalyzer.parse_item rt filename st item).1).
Proof.
  intros Hst. unfold RadonAnalyzer.parse_item.
  destruct (RadonAnalyzer.inspect_item rt filename item) as [[issue|]|e] eqn:Hi;
    simpl; try exact Hst.
  apply inspect_item_flagged in Hi
    as (complexity & name & loc & lloc & cc & start_line & _ & _ & ->).
  apply Forall_app. split; [exact Hst | repeat constructor].
Qed.

Lemma radon_recorded_accounted rt env files :
  entry_accounted (recorded rt (RadonAnalyzer.analyze rt env files)).
Proof.
  destruct (RadonAnalyzer.analyze rt env files) as [result|e] eqn:Hok; simpl;
    [|apply placeholder_accounted].
  destruct (analyze_issues rt env (RadonAnalyzer.tool rt) files result
              (radon_parse_appends rt) (radon_reports rt) Hok)
    as (issues & Hi & Ht & Hall).
  assert (Hnocode : Forall (fun issue => has_code issue = false) issues).
  { unfold RadonAnalyzer.analyze, Adapter.analyze in Hok.
    destruct (foldM _ _ files) as [acc|e] eqn:Hloop; simpl in Hok; [|discriminate].
    injection Hok as <-. simpl in Hi. injection Hi as <-.
    apply (analyze_loop_invariant rt env (RadonAnalyzer.tool rt)
             (fun st => Forall (fun issue => has_code issue = false) (Adapter.issues st))
             files _ acc) in Hloop; [exact Hloop | | constructor].
    apply Forall_forall. intros file _ _. split.
    - intros st out Hst. unfold Adapter.parse_stdout; simpl.
      unfold RadonAnalyzer.parse_stdout.
      destruct (json_loads rt out) as [v|]; simpl.
      + destruct (py_iter v) as [items|e]; simpl; [|exact Hst].
        apply (for_each_invariant
                 (fun st => Forall (fun issue => has_code issue = false)
                              (Adapter.issues st))); [|exact Hst].
        intros st' item. apply radon_parse_item_no_code.
      + apply Forall_app. split; [exact Hst | repeat constructor].
    - intros st msg Hst. simpl.
      apply Forall_app. split; [exact Hst | repeat constructor]. }
  unfold entry_accounted. rewrite Hi, Ht.
  assert (Herr : AnalysisResult.errors result = None
                 /\ AnalysisResult.infos result = None).
  { unfold RadonAnalyzer.analyze, Adapter.analyze in Hok.
    destruct (foldM _ _ files) as [acc|e]; simpl in Hok; [|discriminate].
    injection Hok as <-. split; reflexivity. }
  destruct Herr as [-> ->]. simpl.
  split; [|split; [|split; [|split]]].
  - eapply Forall_impl; [exact Hall|].
    intros issue (file & _ & _ & Hadapt). eapply adapter_issue_native, Hadapt.
  - rewrite (count_severity_split "error").
    rewrite (count_issues_none (finding_of "error")); [reflexivity|].
    eapply Forall_impl; [exact Hnocode|].
    intros issue Hc. unfold finding_of. rewrite Hc. reflexivity.
  - pose proof (count_issues_bounds (has_severity "info") issues). lia.
  - reflexivity.
  - unfold counters_come_with_total. rewrite Ht. intros [=].
Qed.

Lemma run_analyzers_accounted rt env_flake8 env_pylint env_radon files :
  Forall (fun entry : string * AnalysisResult.t => entry_accounted entry.2)
    (PRReviewAgent.run_analyzers rt env_flake8 env_pylint env_radon files).
Proof.
  rewrite run_analyzers_entries.
  constructor; [|constructor; [|constructor; [|constructor]]]; simpl.
  - apply flake8_recorded_accounted.
  - apply pylint_recorded_accounted.
  - apply radon_recorded_accounted.
Qed.

Lemma issues_of_cons name result rs :
  issues_of ((name, result) :: rs)
  = default [] (AnalysisResult.issues result) ++ issues_of rs.
Proof.
  unfold issues_of, all_issues. simpl flat_map. rewrite fmap_app. f_equal.
  rewrite <- list_fmap_compose. apply list_fmap_id.
Qed.

(** The counters of an accounted map against all its issues. *)
Lemma accounted_sums rs :
  Forall (fun entry : string * AnalysisResult.t => entry_accounted entry.2) rs ->
  Forall native_severity (issues_of rs)
  /\ count_issues (has_severity "error") (issues_of rs)
     = sum_counter AnalysisResult.errors rs + count_issues synthetic_error (issues_of rs)
  /\ 0 <= sum_counter AnalysisResult.infos rs
     <= count_issues (has_severity "info") (issues_of rs)
  /\ sum_counter AnalysisResult.total_issues rs = Z.of_nat (length (issues_of rs))
  /\ Forall (fun entry : string * AnalysisResult.t => counters_come_with_total entry.2) rs.
Proof.
  induction 1 as [|[name r] rs Hr _ IH].
  - repeat split; try constructor; reflexivity || (unfold count_issues; simpl; lia).
  - destruct IH as (IHn & IHe & IHi & IHt & IHc).
    destruct Hr as (Hn & He & Hi & Ht & Hc). simpl snd in *.
    rewrite issues_of_cons, !count_issues_app, length_app.
    unfold sum_counter in *. simpl foldr.
    split; [apply Forall_app; auto|].
    split; [lia|]. split; [lia|]. split; [lia|].
    constructor; assumption.
Qed.

Lemma native_bucket (issue : Issue.t) :
  native_severity issue ->
  (Spec.normalize (severity_str issue) = "critical" <-> has_severity "error" issue = true)
  /\ (Spec.normalize (severity_str issue) = "high" <-> has_severity "warning" issue = true)
  /\ (Spec.normalize (severity_str issue) = "medium" <-> has_severity "info" issue = true).
Proof.
  intros (s & Hs & Hin). unfold severity_str, has_severity. rewrite Hs. simpl.
  rewrite !elem_of_cons, elem_of_nil in Hin.
  destruct Hin as [-> | [-> | [-> | []]]]; repeat split; intros; reflexivity || discriminate.
Qed.

Lemma bucket_of_length k s (l : list (string * Issue.t)) :
  (forall issue, native_severity issue ->
     Spec.normalize (severity_str issue) = k <-> has_severity s issue = true) ->
  Forall native_severity l.*2 ->
  Z.of_nat (length (bucket_of k l)) = count_issues (has_severity s) l.*2.
Proof.
  intros Hiff. induction l as [|[name issue] l IH]; intros Hn; [reflexivity|].
  rewrite fmap_cons in Hn. inversion Hn as [|? ? Hi Hl]; subst.
  rewrite bucket_of_cons, length_app, Nat2Z.inj_add, IH by exact Hl.
  rewrite fmap_cons. simpl snd. change (issue :: l.*2) with ([issue] ++ l.*2).
  rewrite count_issues_app, count_issues_single, bucket_of_single.
  simpl fst; simpl snd. specialize (Hiff issue Hi).
  destruct (has_severity s issue); case_decide as Hk; simpl; try lia.
  - destruct Hk. apply Hiff. reflexivity.
  - apply Hiff in Hk. discriminate.
Qed.

(** What [review_pr] returns, when it returns. *)
Lemma review_pr_ok rt env_flake8 env_pylint env_radon pr_data review :
  PRReviewAgent.review_pr rt env_flake8 env_pylint env_radon pr_data = Ok review ->
  Review.analysis review
  = PRReviewAgent.run_analyzers rt env_flake8 env_pylint env_radon
      (PRData.changed_files pr_data)
  /\ FeedbackGenerator.generate_feedback pr_data (Review.analysis review)
     = Ok (Review.feedback review)
  /\ Review.quality_score review
     = PRReviewAgent._calculate_quality_score (Review.feedback review).
Proof.
  unfold PRReviewAgent.review_pr.
  destruct (FeedbackGenerator.generate_feedback pr_data _) as [fb|e] eqn:Hfb; simpl;
    [|discriminate].
  intros [= <-]. simpl. auto.
Qed.

(** X6: in what a review returns, the [total_issues] of the summary is the
    number of issues in the four buckets together: every issue an adapter
    reports, synthetic ones included, is counted once and sits in one
    bucket. *)
Theorem X6_summary_total_is_bucket_total (rt : Runtime)
    (env_flake8 env_pylint env_radon : Env) (pr_data : PRData.t) (review : Review.t) :
  PRReviewAgent.review_pr rt env_flake8 env_pylint env_radon pr_data = Ok review ->
  let fb := Review.feedback review in
  Summary.total_issues (Feedback.summary fb)
  = Z.of_nat (bucket_count fb "critical" + bucket_count fb "high"
              + bucket_count fb "medium" + bucket_count fb "low")
  /\ Summary.total_issues (Feedback.summary fb)
     = Z.of_nat (length (issues_of (Review.analysis review))).
Proof.
  intros Hok fb. subst fb.
  destruct (review_pr_ok _ _ _ _ _ _ Hok) as (Hrs & Hfb & _).
  pose proof (run_analyzers_accounted rt env_flake8 env_pylint env_radon
                (PRData.changed_files pr_data)) as Hacc.
  rewrite <- Hrs in Hacc.
  destruct (accounted_sums _ Hacc) as (_ & _ & _ & Htotal & Hwf).
  apply generate_feedback_ok in Hfb. rewrite Hfb.
  unfold bucket_count. simpl.
  rewrite (generate_summary_total _ Hwf), Htotal.
  split; [|reflexivity].
  f_equal. unfold issues_of. rewrite length_fmap.
  rewrite <- (length_fmap (fun entry : string * Issue.t =>
                             FeedbackGenerator.reduced entry.1 entry.2)).
  rewrite (Permutation_length (bucket_of_partition _)), !length_app. simpl. lia.
Qed.

(** X7: in what a review returns, the critical count of the summary misses
    exactly the synthetic issues: the critical bucket holds the counted
    errors and every synthetic issue; the medium count of the summary is
    at most the size of the medium bucket; the low bucket is empty. *)
Theorem X7_summary_against_buckets (rt : Runtime)
    (env_flake8 env_pylint env_radon : Env) (pr_data : PRData.t) (review : Review.t) :
  PRReviewAgent.review_pr rt env_flake8 env_pylint env_radon pr_data = Ok review ->
  let fb := Review.feedback review in
  let by_severity := Summary.by_severity (Feedback.summary fb) in
  Z.of_nat (bucket_count fb "critical")
  = BySeverity.critical by_severity
    + count_issues synthetic_error (issues_of (Review.analysis review))
  /\ 0 <= BySeverity.medium by_severity <= Z.of_nat (bucket_count fb "medium")
  /\ bucket_count fb "low" = 0%nat
  /\ BySeverity.low by_severity = 0.
Proof.
  intros Hok fb by_severity. subst by_severity fb.
  destruct (review_pr_ok _ _ _ _ _ _ Hok) as (Hrs & Hfb & _).
  pose proof (run_analyzers_accounted rt env_flake8 env_pylint env_radon
                (PRData.changed_files pr_data)) as Hacc.
  rewrite <- Hrs in Hacc.
  destruct (accounted_sums _ Hacc) as (Hnative & Herr & Hinfo & _ & Hwf).
  apply generate_feedback_ok in Hfb. rewrite Hfb.
  unfold bucket_count. simpl.
  destruct (summary_fold (Review.analysis review)
              {| Summary.total_issues := 0;
                 Summary.by_severity := BySeverity.mk 0 0 0 0;
                 Summary.analyzers_used := Dict.keys (Review.analysis review) |} Hwf)
    as (_ & Hc & _ & Hm & Hl & _).
  unfold FeedbackGenerator._generate_summary, Dict.items.
  simpl in Hc, Hm, Hl. rewrite Hc, Hm, Hl.
  rewrite (bucket_of_length "critical" "error"), (bucket_of_length "medium" "info");
    try exact Hnative; try (intros issue Hi; apply (native_bucket issue Hi)).
  fold (issues_of (Review.analysis review)).
  repeat split; lia.
Qed.

(** ** The one way the synthesizer and the review raise *)

Lemma py_lower_raise v e :
  FeedbackGenerator.py_lower v = Raise e -> not_str v /\ e = AttributeError "lower" v.
Proof.
  destruct v; simpl; intros [= <-]; (split; [intros s; discriminate | reflexivity]).
Qed.

Lemma categorize_issue_raise name c h m lo issue e :
  FeedbackGenerator.categorize_issue name (buckets c h m lo) issue = Raise e ->
  exists v, Issue.severity issue = Some v /\ not_str v /\ e = AttributeError "lower" v.
Proof.
  destruct (Issue.severity issue) as [v|] eqn:Hs.
  - destruct (FeedbackGenerator.py_lower v) as [s|e1] eqn:Hlow.
    + destruct v; try discriminate.
      rewrite categorize_issue_buckets by (rewrite Hs; exact I). discriminate.
    + unfold FeedbackGenerator.categorize_issue, FeedbackGenerator._map_severity.
      rewrite Hs. simpl default. rewrite Hlow. simpl. intros [= <-].
      exists v. split; [reflexivity | apply py_lower_raise; exact Hlow].
  - rewrite categorize_issue_buckets by (rewrite Hs; exact I). discriminate.
Qed.

Lemma categorize_issues_raise name l e : forall c h m lo,
  foldM (FeedbackGenerator.categorize_issue name) (buckets c h m lo) l = Raise e ->
  exists issue v,
    issue ∈ l /\ Issue.severity issue = Some v /\ not_str v
    /\ e = AttributeError "lower" v.
Proof.
  induction l as [|issue l IH]; intros c h m lo; simpl; [discriminate|].
  destruct (FeedbackGenerator.categorize_issue name (buckets c h m lo) issue)
    as [b|e1] eqn:Hstep; simpl.
  - pose proof (categorize_issue_ok _ _ _ _ Hstep) as Hty.
    rewrite categorize_issue_buckets in Hstep by exact Hty. injection Hstep as <-.
    intros Hrest. destruct (IH _ _ _ _ Hrest) as (i & v & Hin & Hrest').
    exists i, v. split; [right; exact Hin | exact Hrest'].
  - intros [= <-]. destruct (categorize_issue_raise _ _ _ _ _ _ _ Hstep) as (v & Hv).
    exists issue, v. split; [left | exact Hv].
Qed.

Lemma categorize_results_raise rs e : forall c h m lo,
  foldM FeedbackGenerator.categorize_result (buckets c h m lo) rs = Raise e ->
  exists name issue v,
    (name, issue) ∈ all_issues rs /\ Issue.severity issue = Some v /\ not_str v
    /\ e = AttributeError "lower" v.
Proof.
  induction rs as [|[name r] rs IH]; intros c h m lo; [discriminate|].
  simpl foldM. unfold all_issues. simpl flat_map. fold (all_issues rs).
  destruct (FeedbackGenerator.categorize_result (buckets c h m lo) (name, r))
    as [b|e1] eqn:Hstep; simpl bind.
  - assert (Hb : exists c' h' m', b = buckets c' h' m' lo).
    { unfold FeedbackGenerator.categorize_result in Hstep.
      simpl fst in Hstep; simpl snd in Hstep.
      destruct (AnalysisResult.issues r) as [[|i l]|].
      - injection Hstep as <-. eauto.
      - pose proof (categorize_issues_ok _ _ _ _ Hstep) as Hty.
        rewrite categorize_issues_buckets in Hstep by exact Hty.
        injection Hstep as <-. eauto.
      - injection Hstep as <-. eauto. }
    destruct Hb as (c' & h' & m' & ->).
    intros Hrest. destruct (IH _ _ _ _ Hrest) as (n & i & v & Hin & Hrest').
    exists n, i, v. split; [|exact Hrest'].
    apply elem_of_app. right. exact Hin.
  - intros [= <-]. unfold FeedbackGenerator.categorize_result in Hstep.
      simpl fst in Hstep; simpl snd in Hstep.
    destruct (AnalysisResult.issues r) as [[|i l]|]; try discriminate.
    destruct (categorize_issues_raise _ _ _ _ _ _ _ Hstep) as (issue & v & Hin & Hv).
    exists name, issue, v. split; [|exact Hv].
    apply elem_of_app. left. simpl default.
    apply list_elem_of_fmap. exists issue. auto.
Qed.

Lemma scan_issues_raise keywords l e :
  FeedbackGenerator.scan_issues keywords l = Raise e ->
  exists issue v,
    issue ∈ l /\ Issue.message issue = Some v /\ not_str v
    /\ e = AttributeError "lower" v.
Proof.
  induction l as [|issue l IH]; simpl; [discriminate|].
  destruct (Issue.message issue) as [v|] eqn:Hm; simpl default.
  - destruct (FeedbackGenerator.py_lower v) as [s|e1] eqn:Hlow; simpl.
    + destruct (existsb _ keywords); [discriminate|].
      intros Hrest. destruct (IH Hrest) as (i & w & Hin & Hw).
      exists i, w. split; [right; exact Hin | exact Hw].
    + intros [= <-]. exists issue, v.
      split; [left | split; [exact Hm | apply py_lower_raise; exact Hlow]].
  - simpl. destruct (existsb _ keywords); [discriminate|].
    intros Hrest. destruct (IH Hrest) as (i & w & Hin & Hw).
    exists i, w. split; [right; exact Hin | exact Hw].
Qed.

Lemma scan_results_raise keywords rs e :
  FeedbackGenerator.scan_results keywords rs = Raise e ->
  exists name issue v,
    (name, issue) ∈ all_issues rs /\ Issue.message issue = Some v /\ not_str v
    /\ e = AttributeError "lower" v.
Proof.
  induction rs as [|[name r] rs IH]; simpl; [discriminate|].
  unfold all_issues. simpl flat_map. fold (all_issues rs).
  unfold FeedbackGenerator.scan_result.
  destruct (AnalysisResult.issues r) as [l|]; simpl default.
  - destruct (FeedbackGenerator.scan_issues keywords l) as [found|e1] eqn:Hscan; simpl.
    + destruct found; [discriminate|].
      intros Hrest. destruct (IH Hrest) as (n & i & v & Hin & Hv).
      exists n, i, v. split; [apply elem_of_app; right; exact Hin | exact Hv].
    + intros [= <-]. destruct (scan_issues_raise _ _ _ Hscan) as (i & v & Hin & Hv).
      exists name, i, v. split; [|exact Hv].
      apply elem_of_app. left. apply list_elem_of_fmap. exists i. auto.
  - simpl. intros Hrest. destruct (IH Hrest) as (n & i & v & Hin & Hv).
    exists n, i, v. split; [exact Hin | exact Hv].
Qed.

Lemma generate_recommendations_raise pr_data rs c h m lo e :
  FeedbackGenerator._generate_recommendations pr_data rs (buckets c h m lo) = Raise e ->
  exists name issue v,
    (name, issue) ∈ all_issues rs /\ Issue.message issue = Some v /\ not_str v
    /\ e = AttributeError "lower" v.
Proof.
  unfold FeedbackGenerator._generate_recommendations.
  change (FeedbackGenerator.bucket (buckets c h m lo) "critical") with (Ok c).
  change (FeedbackGenerator.bucket (buckets c h m lo) "high") with (Ok h).
  change (FeedbackGenerator.bucket (buckets c h m lo) "medium") with (Ok m).
  unfold FeedbackGenerator._has_security_issues,
    FeedbackGenerator._has_performance_issues,
    FeedbackGenerator._has_documentation_issues.
  simpl bind.
  destruct (FeedbackGenerator.scan_results FeedbackGenerator.security_keywords rs)
    as [sec|e1] eqn:Hsec; simpl bind;
    [|intros [= <-]; eapply scan_results_raise, Hsec].
  destruct (FeedbackGenerator.scan_results FeedbackGenerator.performance_keywords rs)
    as [perf|e1] eqn:Hperf; simpl bind;
    [|intros [= <-]; eapply scan_results_raise, Hperf].
  destruct (FeedbackGenerator.scan_results FeedbackGenerator.documentation_keywords rs)
    as [doc|e1] eqn:Hdoc; simpl bind;
    [discriminate | intros [= <-]; eapply scan_results_raise, Hdoc].
Qed.

(** What made the synthesizer raise: a message that is not a string, when
    the severities are strings. *)
Lemma generate_feedback_raise pr_data rs e :
  FeedbackGenerator.generate_feedback pr_data rs = Raise e ->
  (exists name issue v,
     (name, issue) ∈ all_issues rs /\ Issue.severity issue = Some v /\ not_str v
     /\ e = AttributeError "lower" v)
  \/ (exists name issue v,
        (name, issue) ∈ all_issues rs /\ Issue.message issue = Some v /\ not_str v
        /\ e = AttributeError "lower" v).
Proof.
  unfold FeedbackGenerator.generate_feedback, Dict.items.
  change FeedbackGenerator.empty_buckets with (buckets [] [] [] []).
  destruct (foldM FeedbackGenerator.categorize_result (buckets [] [] [] []) rs)
    as [issues|e1] eqn:Hcat; simpl bind.
  - pose proof (categorize_results_ok _ _ _ Hcat) as Hty.
    rewrite categorize_results_buckets in Hcat by exact Hty. injection Hcat as <-.
    destruct (FeedbackGenerator._generate_recommendations pr_data rs _) as [recs|e1] eqn:Hrec;
      simpl bind; [discriminate|].
    intros [= <-]. right. eapply generate_recommendations_raise, Hrec.
  - intros [= <-]. left. eapply categorize_results_raise, Hcat.
Qed.

(** X8: the synthesizer raises only the [AttributeError] of [lower] on the
    severity or the message of an issue that is not a string; an absent
    key or an unknown severity never makes it raise, and it never raises a
    [KeyError] for a bucket. *)
Theorem X8_feedback_raises_only_lower (pr_data : PRData.t)
    (rs : Dict.t AnalysisResult.t) (e : PyExn) :
  FeedbackGenerator.generate_feedback pr_data rs = Raise e -> lower_failure rs e.
Proof.
  intros Hraise. unfold lower_failure.
  destruct (generate_feedback_raise _ _ _ Hraise)
    as [(name & issue & v & Hin & Hv & Hrest) | (name & issue & v & Hin & Hv & Hrest)];
    exists name, issue, v; auto.
Qed.

Lemma flake8_parse_messages rt filename st out :
  appends message_is_str st (Flake8Analyzer.parse_stdout rt filename st out).1.
Proof.
  unfold Flake8Analyzer.parse_stdout. apply for_each_appends. clear st out.
  intros st line. unfold Flake8Analyzer.parse_line.
  destruct (Str.nonempty _); [|apply appends_refl].
  destruct (Str.split_max _ _ _) as [|row [|col [|code [|text rest]]]];
    try apply appends_refl.
  destruct (int_of_str rt row) as [r|]; [|apply appends_refl].
  destruct (int_of_str rt col) as [c|]; [|apply appends_refl].
  simpl.
  assert (Hadd : appends message_is_str st
            (Adapter.add_issue
               {| Issue.file := Some (PyStr filename);
                  Issue.line := Some (PyInt r);
                  Issue.column := Some (PyInt c);
                  Issue.code := Some (PyStr code);
                  Issue.message := Some (PyStr text);
                  Issue.severity := Some (PyStr (Flake8Analyzer._get_severity code));
                  Issue.details := None |} st)).
  { apply appends_add_issue. eexists. reflexivity. }
  destruct (Flake8Analyzer._is_error code);
    (eapply appends_trans; [exact Hadd | apply appends_set_counters]).
Qed.

Lemma radon_parse_messages rt filename st out :
  appends message_is_str st (RadonAnalyzer.parse_stdout rt filename st out).1.
Proof.
  unfold RadonAnalyzer.parse_stdout.
  destruct (json_loads rt out) as [v|]; simpl.
  - destruct (py_iter v) as [items|e]; simpl; [|apply appends_refl].
    apply for_each_appends. clear.
    intros st item. unfold RadonAnalyzer.parse_item.
    destruct (RadonAnalyzer.inspect_item rt filename item) as [[issue|]|e] eqn:Hi;
      simpl; try apply appends_refl.
    apply (appends_trans _ _ (Adapter.add_issue issue st));
      [|apply appends_set_counters].
    apply appends_add_issue.
    apply inspect_item_flagged in Hi
      as (complexity & name & loc & lloc & cc & start_line & _ & _ & ->).
    eexists. reflexivity.
  - apply appends_add_issue. eexists. reflexivity.
Qed.

Lemma recorded_messages {C} rt env (tool : Adapter.Tool C) files :
  (forall filename st out,
     appends message_is_str st (Adapter.parse_stdout tool filename st out).1) ->
  reports_issues tool ->
  Forall message_is_str
    (default [] (AnalysisResult.issues (recorded rt (Adapter.analyze rt env tool files)))).
Proof.
  intros Hparse Hres. unfold Adapter.analyze.
  destruct (foldM _ _ files) as [acc|e] eqn:Hloop; simpl; [|constructor].
  destruct (Hres acc.1) as [_ ->]. simpl.
  apply (analyze_loop_invariant rt env tool
           (fun st => Forall message_is_str (Adapter.issues st)) files _ acc) in Hloop;
    [exact Hloop | | constructor].
  apply Forall_forall. intros file _ _. split.
  - intros st out Hst. destruct (Hparse (ChangedFile.filename file) st out)
      as (new & -> & Hnew).
    apply Forall_app. auto.
  - intros st msg Hst. simpl. apply Forall_app. split; [exact Hst|].
    constructor; [|constructor]. eexists. reflexivity.
Qed.

Lemma message_str_not_both issue v :
  message_is_str issue -> Issue.message issue = Some v -> not_str v -> False.
Proof. intros [s Hs] Hv Hn. rewrite Hs in Hv. injection Hv as <-. exact (Hn s eq_refl). Qed.

Lemma review_pr_raise rt env_flake8 env_pylint env_radon pr_data e :
  PRReviewAgent.review_pr rt env_flake8 env_pylint env_radon pr_data = Raise e ->
  exists issue v,
    ("pylint", issue)
      ∈ all_issues (PRReviewAgent.run_analyzers rt env_flake8 env_pylint env_radon
                      (PRData.changed_files pr_data))
    /\ Issue.message issue = Some v
    /\ not_str v
    /\ e = AttributeError "lower" v.
Proof.
  unfold PRReviewAgent.review_pr.
  set (rs := PRReviewAgent.run_analyzers rt env_flake8 env_pylint env_radon
               (PRData.changed_files pr_data)).
  destruct (FeedbackGenerator.generate_feedback pr_data rs) as [fb|e1] eqn:Hfb;
    simpl; [discriminate|].
  intros [= <-].
  pose proof (run_analyzers_accounted rt env_flake8 env_pylint env_radon
                (PRData.changed_files pr_data)) as Hacc.
  fold rs in Hacc. destruct (accounted_sums _ Hacc) as (Hnative & _).
  destruct (generate_feedback_raise _ _ _ Hfb)
    as [(name & issue & v & Hin & Hv & Hn & _) | (name & issue & v & Hin & Hv & Hn & ->)].
  - exfalso. rewrite Forall_forall in Hnative.
    destruct (Hnative issue) as (s & Hs & _).
    + unfold issues_of. apply list_elem_of_fmap. exists (name, issue). auto.
    + rewrite Hs in Hv. injection Hv as <-. exact (Hn s eq_refl).
  - exists issue, v. split; [|auto].
    subst rs. rewrite run_analyzers_entries in Hin |- *.
    unfold all_issues in Hin |- *. simpl flat_map in Hin |- *.
    rewrite !elem_of_app in Hin. rewrite !elem_of_app.
    destruct Hin as [Hin | [Hin | [Hin | Hin]]].
    + exfalso. apply list_elem_of_fmap in Hin as (i & [= -> ->] & Hin).
      pose proof (recorded_messages rt env_flake8 (Flake8Analyzer.tool rt)
                    (PRData.changed_files pr_data) (flake8_parse_messages rt)
                    (flake8_reports rt)) as Hmsg.
      rewrite Forall_forall in Hmsg.
      exact (message_str_not_both _ _ (Hmsg _ Hin) Hv Hn).
    + right. left. apply list_elem_of_fmap in Hin as (i & [= -> ->] & Hin).
      apply list_elem_of_fmap. exists i. auto.
    + exfalso. apply list_elem_of_fmap in Hin as (i & [= -> ->] & Hin).
      pose proof (recorded_messages rt env_radon (RadonAnalyzer.tool rt)
                    (PRData.changed_files pr_data) (radon_parse_messages rt)
                    (radon_reports rt)) as Hmsg.
      rewrite Forall_forall in Hmsg.
      exact (message_str_not_both _ _ (Hmsg _ Hin) Hv Hn).
    + apply elem_of_nil in Hin. destruct Hin.
Qed.

(** What the adapters report never keeps the review from returning when the
    messages of the quality-lint tool are strings. *)
Lemma review_pr_returns rt env_flake8 env_pylint env_radon pr_data :
  (forall issue,
     ("pylint", issue)
       ∈ all_issues (PRReviewAgent.run_analyzers rt env_flake8 env_pylint env_radon
                       (PRData.changed_files pr_data)) ->
     message_is_str issue) ->
  exists review,
    PRReviewAgent.review_pr rt env_flake8 env_pylint env_radon pr_data = Ok review.
Proof.
  intros Hstr.
  destruct (PRReviewAgent.review_pr rt env_flake8 env_pylint env_radon pr_data)
    as [review|e] eqn:Hrev; [eauto|].
  destruct (review_pr_raise _ _ _ _ _ _ Hrev) as (issue & v & Hin & Hv & Hn & _).
  destruct (message_str_not_both _ _ (Hstr issue Hin) Hv Hn).
Qed.

(** X9: after the fetch, a review raises only the [AttributeError] of
    [lower] on a message of the quality-lint tool's output that is not a
    string; no failure of a tool, of an adapter or of the two other
    parsers aborts it, and it returns whenever those messages are
    strings. *)
Theorem X9_review_raises_only_pylint_message (rt : Runtime)
    (env_flake8 env_pylint env_radon : Env) (pr_data : PRData.t) :
  let rs := PRReviewAgent.run_analyzers rt env_flake8 env_pylint env_radon
              (PRData.changed_files pr_data) in
  (forall e,
     PRReviewAgent.review_pr rt env_flake8 env_pylint env_radon pr_data = Raise e ->
     exists issue v,
       ("pylint", issue) ∈ all_issues rs
       /\ Issue.message issue = Some v
       /\ not_str v
       /\ e = AttributeError "lower" v)
  /\ ((forall issue, ("pylint", issue) ∈ all_issues rs -> message_is_str issue) ->
      exists review,
        PRReviewAgent.review_pr rt env_flake8 env_pylint env_radon pr_data = Ok review).
Proof.
  intros rs. split.
  - intros e. apply review_pr_raise.
  - apply review_pr_returns.
Qed.

(** ** The quality score of a review, from what the adapters report *)

(** X10: the quality score of a review is 100 less 10 points for every
    issue of native severity [error], 7 for every [warning] and 4 for
    every [info] that the adapters report, synthetic issues included, and
    never below 0. *)
Theorem X10_review_score_from_severities (rt : Runtime)
    (env_flake8 env_pylint env_radon : Env) (pr_data : PRData.t) (review : Review.t) :
  PRReviewAgent.review_pr rt env_flake8 env_pylint env_radon pr_data = Ok review ->
  Review.quality_score review
  = Z.max 0 (100 - severity_cost (issues_of (Review.analysis review))).
Proof.
  intros Hok.
  destruct (review_pr_ok _ _ _ _ _ _ Hok) as (Hrs & Hfb & ->).
  pose proof (run_analyzers_accounted rt env_flake8 env_pylint env_radon
                (PRData.changed_files pr_data)) as Hacc.
  rewrite <- Hrs in Hacc.
  destruct (accounted_sums _ Hacc) as (Hnative & _).
  apply generate_feedback_ok in Hfb. rewrite Hfb.
  rewrite score_of_report. unfold severity_cost, Spec.clamp, issues_of.
  rewrite <- (bucket_of_length "critical" "error"),
          <- (bucket_of_length "high" "warning"),
          <- (bucket_of_length "medium" "info");
    try exact Hnative; try (intros issue Hi; apply (native_bucket issue Hi)).
  simpl length. lia.
Qed.

(** ** The complexity parser on a JSON object *)

(** X11: when the output of the complexity tool decodes to a JSON object,
    the loop runs over its keys: no unit is flagged and the counter does
    not move; a key in which [complexity] occurs ends the parsing with the
    [TypeError] of subscripting a string, the other keys are passed
    over. *)
Theorem X11_radon_json_object (rt : Runtime) (filename : string)
    (st : Adapter.State Z) (out : string) (d : Dict.t PyVal) :
  json_loads rt out = Some (PyDict d) ->
  RadonAnalyzer.parse_stdout rt filename st out
  = (st, (fun key => TypeError "getitem" (PyStr key)) <$> first_complexity_key d).
Proof.
  intros Hjson. unfold RadonAnalyzer.parse_stdout. rewrite Hjson. simpl py_iter.
  cbv beta iota. unfold first_complexity_key.
  induction (Dict.keys d) as [|key keys IH]; [reflexivity|].
  rewrite fmap_cons. simpl for_each. simpl List.find.
  unfold RadonAnalyzer.parse_item at 1, RadonAnalyzer.inspect_item.
  simpl py_contains. simpl bind at 1.
  destruct (Str.contains "complexity" key); [reflexivity|].
  exact IH.
Qed.

(** ** The lines of the lint tool *)

Lemma split_from_pieces sep s : forall n,
  length (Str.split_from sep n s).2 = Nat.min n (occurrences sep s).
Proof.
  induction s as [|c s IH]; intros n; simpl; [lia|].
  destruct n as [|n]; [reflexivity|].
  destruct (decide (c = sep)) as [->|Hc].
  - specialize (IH n). destruct (Str.split_from sep n s) as [h t]. simpl in *. lia.
  - specialize (IH (S n)). destruct (Str.split_from sep (S n) s) as [h t].
    simpl in *. lia.
Qed.

Lemma split_max_pieces sep n s :
  length (Str.split_max sep n s) = S (Nat.min n (occurrences sep s)).
Proof.
  unfold Str.split_max. pose proof (split_from_pieces sep s n) as Hl.
  destruct (Str.split_from sep n s) as [h t]. simpl in *. lia.
Qed.

(** Cutting after a field in which the separator does not occur. *)
Lemma split_from_field sep field rest : forall n,
  occurrences sep field = 0%nat ->
  Str.split_from sep (S n) (field +:+ String sep rest)
  = (field, let '(h, t) := Str.split_from sep n rest in h :: t).
Proof.
  intros n. induction field as [|c field IH]; simpl; intros Hocc.
  - destruct (decide (sep = sep)) as [_|Hne]; [reflexivity | destruct Hne; reflexivity].
  - destruct (decide (c = sep)) as [->|Hc].
    + destruct (decide (sep = sep)) as [_|Hne]; [discriminate | destruct Hne; reflexivity].
    + rewrite IH; [reflexivity|].
      destruct (decide (c = sep)); [contradiction | exact Hocc].
Qed.

Lemma split_from_last sep s : Str.split_from sep 0 s = (s, []).
Proof. destruct s; reflexivity. Qed.

Lemma split_max_formatted row col code text :
  occurrences ":" row = 0%nat ->
  occurrences ":" col = 0%nat ->
  occurrences ":" code = 0%nat ->
  Str.split_max ":" 3 (formatted row col code text) = [row; col; code; text].
Proof.
  intros Hrow Hcol Hcode. unfold Str.split_max, formatted.
  change (":" +:+ col +:+ ":" +:+ code +:+ ":" +:+ text)
    with (String ":" (col +:+ String ":" (code +:+ String ":" text))).
  rewrite (split_from_field ":" row _ 2 Hrow).
  rewrite (split_from_field ":" col _ 1 Hcol).
  rewrite (split_from_field ":" code _ 0 Hcode).
  rewrite split_from_last. reflexivity.
Qed.

Lemma lstrip_keeps prefix c rest :
  Str.is_space c = false ->
  exists prefix', Str.lstrip (prefix +:+ String c rest) = prefix' +:+ String c rest.
Proof.
  intros Hc. induction prefix as [|a prefix IH]; simpl.
  - rewrite Hc. exists EmptyString. reflexivity.
  - destruct (Str.is_space a); [exact IH|].
    exists (String a prefix). reflexivity.
Qed.

Lemma rstrip_keeps prefix c rest :
  Str.is_space c = false ->
  Str.nonempty (Str.rstrip (prefix +:+ String c rest)) = true.
Proof.
  intros Hc. induction prefix as [|a prefix IH]; simpl.
  - destruct (Str.rstrip rest); [rewrite Hc|]; reflexivity.
  - destruct (Str.rstrip (prefix +:+ String c rest)); [discriminate IH | reflexivity].
Qed.

(** A string with a character that is not white space does not strip to
    the empty string. *)
Lemma strip_nonempty prefix c rest :
  Str.is_space c = false ->
  Str.nonempty (Str.strip (prefix +:+ String c rest)) = true.
Proof.
  intros Hc. unfold Str.strip.
  destruct (lstrip_keeps prefix c rest Hc) as [prefix' ->].
  apply rstrip_keeps, Hc.
Qed.

(** X12: a line in the format the adapter asks of the lint tool is read
    back field by field, whatever its text, colons included: when the row,
    the column and the code hold no colon and the row and the column are
    numerals, the line adds one finding with these fields, with the
    severity of the family of the code, and counts it as an error for the
    families E and F and as a warning otherwise. *)
Theorem X12_flake8_line_round_trip (rt : Runtime) (filename : string)
    (st : Adapter.State Flake8Analyzer.Counters) (row col code text : string)
    (r c : Z) :
  occurrences ":" row = 0%nat ->
  occurrences ":" col = 0%nat ->
  occurrences ":" code = 0%nat ->
  int_of_str rt row = Some r ->
  int_of_str rt col = Some c ->
  Flake8Analyzer.parse_line rt filename st (formatted row col code text)
  = (Adapter.mkState
       (Adapter.issues st ++ [lint_finding filename r c code text])
       (let n := Adapter.counters st in
        if Str.startswith "E" code || Str.startswith "F" code
        then Flake8Analyzer.mkCounters (Flake8Analyzer.total_errors n + 1)
               (Flake8Analyzer.total_warnings n)
        else Flake8Analyzer.mkCounters (Flake8Analyzer.total_errors n)
               (Flake8Analyzer.total_warnings n + 1)),
     None).
Proof.
  intros Hrow Hcol Hcode Hr Hc. unfold Flake8Analyzer.parse_line.
  rewrite (split_max_formatted row col code text Hrow Hcol Hcode).
  unfold formatted.
  change (row +:+ ":" +:+ col +:+ ":" +:+ code +:+ ":" +:+ text)
    with (row +:+ String ":" (col +:+ ":" +:+ code +:+ ":" +:+ text)).
  rewrite strip_nonempty by reflexivity.
  rewrite Hr, Hc. unfold Flake8Analyzer._is_error, lint_finding.
  destruct (Str.startswith "E" code || Str.startswith "F" code); reflexivity.
Qed.

(** X13: a line of the lint tool's output with fewer than three colons is
    passed over in silence: it adds no issue, moves no counter and raises
    nothing. *)
Theorem X13_flake8_short_line_ignored (rt : Runtime) (filename : string)
    (st : Adapter.State Flake8Analyzer.Counters) (line : string) :
  (occurrences ":" line < 3)%nat ->
  Flake8Analyzer.parse_line rt filename st line = (st, None).
Proof.
  intros Hfew. unfold Flake8Analyzer.parse_line.
  destruct (Str.nonempty (Str.strip line)); [|reflexivity].
  pose proof (split_max_pieces ":" 3 line) as Hlen.
  rewrite Nat.min_r in Hlen by lia.
  destruct (Str.split_max ":" 3 line) as [|row [|col [|code [|text rest]]]];
    try reflexivity.
  simpl length in Hlen. lia.
Qed.

(** ** A parser that raises *)

Lemma for_each_raises {A S} (P : PyExn -> Prop) (body : S -> A -> S * option PyExn) l :
  (forall st x st' e, body st x = (st', Some e) -> P e) ->
  forall st st' e, for_each body st l = (st', Some e) -> P e.
Proof.
  intros Hbody. induction l as [|x l IH]; intros st st' e; simpl; [discriminate|].
  destruct (body st x) as [st1 [e1|]] eqn:Hstep.
  - intros [= <- <-]. eapply Hbody, Hstep.
  - apply IH.
Qed.

Lemma py_getitem_raises v k e : py_getitem v k = Raise e -> interpreter_error e.
Proof.
  destruct v; simpl; try (intros [= <-]; exact I).
  destruct (Dict.get d k); [discriminate | intros [= <-]; exact I].
Qed.

Lemma py_iter_raises v e : py_iter v = Raise e -> interpreter_error e.
Proof. destruct v; simpl; try discriminate; intros [= <-]; exact I. Qed.

Lemma py_contains_raises s v e : py_contains s v = Raise e -> interpreter_error e.
Proof. destruct v; simpl; try discriminate; intros [= <-]; exact I. Qed.

Lemma py_gt_raises v n e : py_gt v n = Raise e -> interpreter_error e.
Proof.
  destruct v as [| | |f| | |]; simpl; try discriminate; try (intros [= <-]; exact I).
  destruct f; discriminate.
Qed.

Lemma py_get_raises v k dflt e : py_get v k dflt = Raise e -> interpreter_error e.
Proof. destruct v; simpl; try discriminate; intros [= <-]; exact I. Qed.

Lemma flake8_parse_raises rt filename st out st' e :
  Flake8Analyzer.parse_stdout rt filename st out = (st', Some e) -> interpreter_error e.
Proof.
  unfold Flake8Analyzer.parse_stdout. apply for_each_raises. clear.
  intros st line st' e. unfold Flake8Analyzer.parse_line.
  destruct (Str.nonempty _); [|discriminate].
  destruct (Str.split_max _ _ _) as [|row [|col [|code [|text rest]]]];
    try discriminate.
  destruct (int_of_str rt row); [|intros [= <- <-]; exact I].
  destruct (int_of_str rt col); [|intros [= <- <-]; exact I].
  destruct (Flake8Analyzer._is_error code); discriminate.
Qed.

Lemma pylint_fields_raises item e :
  PylintAnalyzer.fields item = Raise e -> interpreter_error e.
Proof.
  unfold PylintAnalyzer.fields.
  repeat (match goal with
          | |- context [py_getitem item ?k] =>
              let H := fresh "H" in
              destruct (py_getitem item k) eqn:H; simpl;
              [|intros [= <-]; eapply py_getitem_raises, H]
          end).
  discriminate.
Qed.

Lemma pylint_parse_raises rt filename st out st' e :
  PylintAnalyzer.parse_stdout rt filename st out = (st', Some e) -> interpreter_error e.
Proof.
  unfold PylintAnalyzer.parse_stdout.
  destruct (json_loads rt out) as [v|]; [|discriminate].
  destruct (py_iter v) as [items|e1] eqn:Hiter.
  - apply for_each_raises. clear.
    intros st item st' e. unfold PylintAnalyzer.parse_item.
    destruct (PylintAnalyzer.fields item) as [[[[[message line] column] category] symbol]|e1]
      eqn:Hf.
    + destruct (py_eq_str category "error"); [discriminate|].
      destruct (py_eq_str category "warning"); [discriminate|].
      destruct (py_eq_str category "info"); discriminate.
    + intros [= <- <-]. eapply pylint_fields_raises, Hf.
  - intros [= <- <-]. eapply py_iter_raises, Hiter.
Qed.

Lemma radon_fields_raises item e :
  RadonAnalyzer.fields item = Raise e -> interpreter_error e.
Proof.
  unfold RadonAnalyzer.fields.
  repeat (match goal with
          | |- context [py_getitem item ?k] =>
              let H := fresh "H" in
              destruct (py_getitem item k) eqn:H; simpl;
              [|intros [= <-]; eapply py_getitem_raises, H]
          end).
  discriminate.
Qed.

Lemma radon_inspect_raises rt filename item e :
  RadonAnalyzer.inspect_item rt filename item = Raise e -> interpreter_error e.
Proof.
  unfold RadonAnalyzer.inspect_item.
  destruct (py_contains "complexity" item) as [[|]|e1] eqn:Hc; simpl;
    [|discriminate|intros [= <-]; eapply py_contains_raises, Hc].
  destruct (RadonAnalyzer.fields item) as [[[[[complexity name] loc] lloc] cc]|e1] eqn:Hf;
    simpl; [|intros [= <-]; eapply radon_fields_raises, Hf].
  destruct (py_gt complexity RadonAnalyzer.threshold) as [[|]|e1] eqn:Hgt; simpl;
    [|discriminate|intros [= <-]; eapply py_gt_raises, Hgt].
  destruct (py_get item "start_line" (PyInt 0)) as [start_line|e1] eqn:Hget; simpl;
    [discriminate|intros [= <-]; eapply py_get_raises, Hget].
Qed.

Lemma radon_parse_raises rt filename st out st' e :
  RadonAnalyzer.parse_stdout rt filename st out = (st', Some e) -> interpreter_error e.
Proof.
  unfold RadonAnalyzer.parse_stdout.
  destruct (json_loads rt out) as [v|]; [|discriminate].
  destruct (py_iter v) as [items|e1] eqn:Hiter.
  - apply for_each_raises. clear st st' e Hiter.
    intros st item st' e. unfold RadonAnalyzer.parse_item.
    destruct (RadonAnalyzer.inspect_item rt filename item) as [[issue|]|e1] eqn:Hi;
      try discriminate.
    intros [= <- <-]. eapply radon_inspect_raises, Hi.
  - intros [= <- <-]. eapply py_iter_raises, Hiter.
Qed.

Lemma parse_failure {C} rt env (tool : Adapter.Tool C) (P : Issue.t -> Prop) :
  (forall filename st out st' e,
     Adapter.parse_stdout tool filename st out = (st', Some e) -> interpreter_error e) ->
  (forall filename st out,
     appends P st (Adapter.parse_stdout tool filename st out).1) ->
  parse_failure_step rt env tool.
Proof.
  intros Hraises Happends st k file tmp result st' e He Htmp Hrun Hout Hparse.
  pose proof (Hraises _ _ _ _ _ Hparse) as Hint.
  split; [exact Hint|]. split.
  - destruct (Happends (ChangedFile.filename file) st (stdout result))
      as (found & Hfound & _).
    rewrite Hparse in Hfound. exists found. exact Hfound.
  - unfold Adapter.analyze_file. rewrite He. simpl fst; simpl snd.
    rewrite Htmp. simpl bind. unfold Adapter.try_body.
    rewrite Hrun, Hout, Hparse.
    destruct e; simpl in Hint; try contradiction; reflexivity.
Qed.

(** X14: when the parser of an adapter raises on the standard output of
    its tool (a row that is no numeral, a missing key, an output that is
    JSON of another shape), the file still yields a result: the issues
    found before the failure stay, one synthetic issue [Error running ...]
    with the text of the exception is added, and what the tool wrote on
    its error stream is not reported. *)
Theorem X14_parser_failure_reported (rt : Runtime) (env : Env) :
  parse_failure_step rt env (Flake8Analyzer.tool rt)
  /\ parse_failure_step rt env (PylintAnalyzer.tool rt)
  /\ parse_failure_step rt env (RadonAnalyzer.tool rt).
Proof.
  split; [|split].
  - apply (parse_failure rt env (Flake8Analyzer.tool rt) (fun _ => True)).
    + apply flake8_parse_raises.
    + intros filename st out.
      destruct (flake8_parse_appends rt filename st out) as (new & Hnew & _).
      exists new. split; [exact Hnew | apply Forall_true; auto].
  - apply (parse_failure rt env (PylintAnalyzer.tool rt) (fun _ => True)).
    + apply pylint_parse_raises.
    + intros filename st out.
      destruct (pylint_parse_appends rt filename st out) as (new & Hnew & _).
      exists new. split; [exact Hnew | apply Forall_true; auto].
  - apply (parse_failure rt env (RadonAnalyzer.tool rt) (fun _ => True)).
    + apply radon_parse_raises.
    + intros filename st out.
      destruct (radon_parse_appends rt filename st out) as (new & Hnew & _).
      exists new. split; [exact Hnew | apply Forall_true; auto].
Qed.

(** ** A review when no tool is installed *)




(** ** The order of the issues *)

Section FileGroups.
Context {C : Type} (rt : Runtime) (env : Env) (tool : Adapter.Tool C).
Hypothesis parse_appends : forall filename st out,
  appends (adapter_issue filename) st (Adapter.parse_stdout tool filename st out).1.

Lemma analyze_file_appends acc file acc' :
  Adapter.eligible file = true ->
  Adapter.analyze_file rt env tool acc file = Ok acc' ->
  appends (adapter_issue (ChangedFile.filename file)) acc.1 acc'.1.
Proof.
  intros He Hstep.
  apply (analyze_file_invariant rt env tool
           (fun st => appends (adapter_issue (ChangedFile.filename file)) acc.1 st)
           file acc acc'); [|apply appends_refl|exact Hstep].
  intros _. split.
  - intros st out Hst. eapply appends_trans; [exact Hst | apply parse_appends].
  - intros st msg Hst. eapply appends_trans; [exact Hst|].
    apply appends_add_issue, synthetic_adapter_issue.
Qed.

Lemma analyze_loop_grouped files : forall acc acc',
  foldM (Adapter.analyze_file rt env tool) acc files = Ok acc' ->
  exists groups,
    Adapter.issues acc'.1 = Adapter.issues acc.1 ++ concat groups
    /\ Forall2
         (fun file group =>
            Forall (fun issue =>
                      Issue.file issue = Some (PyStr (ChangedFile.filename file))) group)
         (filter (fun file => Adapter.eligible file = true) files) groups.
Proof.
  induction files as [|file files IH]; intros acc acc'; simpl foldM.
  - intros [= <-]. exists []. simpl. rewrite app_nil_r. split; [reflexivity | constructor].
  - destruct (Adapter.analyze_file rt env tool acc file) as [acc1|e] eqn:Hstep;
      simpl bind; [|discriminate].
    intros Hrest. destruct (IH _ _ Hrest) as (groups & Hissues & Hgroups).
    rewrite filter_cons. destruct (Adapter.eligible file) eqn:He.
    + rewrite decide_True by reflexivity.
      destruct (analyze_file_appends acc file acc1 He Hstep) as (new & Hnew & Hall).
      exists (new :: groups). split.
      * rewrite Hissues, Hnew. simpl concat. rewrite app_assoc. reflexivity.
      * constructor; [|exact Hgroups].
        eapply Forall_impl; [exact Hall|]. intros issue [Hfile _]. exact Hfile.
    + rewrite decide_False by discriminate.
      rewrite analyze_file_skip in Hstep by exact He. injection Hstep as <-.
      exists groups. auto.
Qed.

Lemma analyze_grouped files result :
  reports_issues tool ->
  Adapter.analyze rt env tool files = Ok result ->
  grouped_by_file files (default [] (AnalysisResult.issues result)).
Proof.
  intros Hres. unfold Adapter.analyze.
  destruct (foldM _ _ files) as [acc|e] eqn:Hloop; simpl; [|discriminate].
  intros [= <-]. destruct (Hres acc.1) as [_ ->]. simpl.
  destruct (analyze_loop_grouped files _ _ Hloop) as (groups & Hissues & Hgroups).
  exists groups. split; [exact Hissues | exact Hgroups].
Qed.

End FileGroups.

(** X16: the issues an adapter returns come file by file: they are the
    concatenation of one group, possibly empty, for each added or modified
    file, in the order of the changed files, and every issue of a group,
    finding or synthetic, names the file of its group. *)
Theorem X16_issues_grouped_by_file (rt : Runtime) (env : Env)
    (files : list ChangedFile.t) (result : AnalysisResult.t) :
  (Flake8Analyzer.analyze rt env files = Ok result ->
   grouped_by_file files (default [] (AnalysisResult.issues result)))
  /\ (PylintAnalyzer.analyze rt env files = Ok result ->
      grouped_by_file files (default [] (AnalysisResult.issues result)))
  /\ (RadonAnalyzer.analyze rt env files = Ok result ->
      grouped_by_file files (default [] (AnalysisResult.issues result))).
Proof.
  split; [|split].
  - apply analyze_grouped; [apply flake8_parse_appends | apply flake8_reports].
  - apply analyze_grouped; [apply pylint_parse_appends | apply pylint_reports].
  - apply analyze_grouped; [apply radon_parse_appends | apply radon_reports].
Qed.

Lemma X16_issues_grouped_by_file_witness :
  exists result,
    Flake8Analyzer.analyze Case.runtime (Case.printing Case.lint_output "oops")
      Sample.files = Ok result
    /\ grouped_by_file Sample.files (default [] (AnalysisResult.issues result)).
Proof.
  destruct (Flake8Analyzer.analyze Case.runtime (Case.printing Case.lint_output "oops")
              Sample.files) as [result|e] eqn:Hok; [|vm_compute in Hok; discriminate].
  exists result. split; [reflexivity|].
  destruct (X16_issues_grouped_by_file Case.runtime
              (Case.printing Case.lint_output "oops") Sample.files result) as [Hflake _].
  exact (Hflake Hok).
Defined.

(** ** What a review reads of the pull request *)

Lemma analyze_file_reads {C} rt env (tool : Adapter.Tool C) acc file1 file2 :
  Adapter.eligible file1 = Adapter.eligible file2 ->
  ChangedFile.filename file1 = ChangedFile.filename file2 ->
  ChangedFile.patch file1 = ChangedFile.patch file2 ->
  Adapter.analyze_file rt env tool acc file1 = Adapter.analyze_file rt env tool acc file2.
Proof.
  intros He Hn Hp. unfold Adapter.analyze_file. rewrite He, Hn, Hp. reflexivity.
Qed.

Lemma analyze_loop_reads {C} rt env (tool : Adapter.Tool C) files1 : forall files2 acc,
  Forall (fun file => Adapter.eligible file = true) files1 ->
  Forall (fun file => Adapter.eligible file = true) files2 ->
  (fun file => (ChangedFile.filename file, ChangedFile.patch file)) <$> files1
  = (fun file => (ChangedFile.filename file, ChangedFile.patch file)) <$> files2 ->
  foldM (Adapter.analyze_file rt env tool) acc files1
  = foldM (Adapter.analyze_file rt env tool) acc files2.
Proof.
  induction files1 as [|file1 files1 IH]; intros [|file2 files2] acc H1 H2 Hsame;
    try discriminate; [reflexivity|].
  rewrite !fmap_cons in Hsame. injection Hsame as Hn Hp Hrest.
  inversion H1 as [|? ? He1 Hr1]; inversion H2 as [|? ? He2 Hr2]; subst.
  simpl. rewrite (analyze_file_reads rt env tool acc file1 file2) by congruence.
  destruct (Adapter.analyze_file rt env tool acc file2) as [acc1|e]; simpl;
    [apply IH; assumption | reflexivity].
Qed.

Lemma analyze_reads {C} rt env (tool : Adapter.Tool C) files1 files2 :
  analyzed files1 = analyzed files2 ->
  Adapter.analyze rt env tool files1 = Adapter.analyze rt env tool files2.
Proof.
  intros Hsame. unfold Adapter.analyze.
  rewrite (analyze_loop_filter rt env tool files1), (analyze_loop_filter rt env tool files2).
  rewrite (analyze_loop_reads rt env tool _ (filter (fun f => Adapter.eligible f = true) files2));
    [reflexivity | | | exact Hsame];
    apply Forall_forall; intros file Hin; apply list_elem_of_filter in Hin as [He _];
    exact He.
Qed.

(** X17: a review reads of the pull request only the names and the patches
    of the added and modified files, in their order: two pull requests
    that agree on them get the same analysis, report and score, or the
    same exception, whatever their other files and the other fields of
    their files. *)
Theorem X17_review_reads_names_and_patches (rt : Runtime)
    (env_flake8 env_pylint env_radon : Env) (pr1 pr2 : PRData.t) :
  analyzed (PRData.changed_files pr1) = analyzed (PRData.changed_files pr2) ->
  verdict (PRReviewAgent.review_pr rt env_flake8 env_pylint env_radon pr1)
  = verdict (PRReviewAgent.review_pr rt env_flake8 env_pylint env_radon pr2).
Proof.
  intros Hsame. unfold PRReviewAgent.review_pr.
  rewrite !run_analyzers_entries.
  unfold Flake8Analyzer.analyze, PylintAnalyzer.analyze, RadonAnalyzer.analyze.
  rewrite (analyze_reads rt env_flake8 _ _ _ Hsame),
          (analyze_reads rt env_pylint _ _ _ Hsame),
          (analyze_reads rt env_radon _ _ _ Hsame).
  change (FeedbackGenerator.generate_feedback pr1)
    with (FeedbackGenerator.generate_feedback pr2).
  destruct (FeedbackGenerator.generate_feedback pr2 _); reflexivity.
Qed.

Lemma X17_review_reads_names_and_patches_witness :
  analyzed Sample.files
  = analyzed [ChangedFile.mk "app.py" "added" 0 0 "import os" "https://host/raw/app.py";
              ChangedFile.mk "new.py" "modified" 1 1 "x = 1" ""]
  /\ verdict (PRReviewAgent.review_pr Case.runtime (Case.printing Case.lint_output "")
                (Case.printing "messages" "") (Case.printing "units" "")
                (PRData.mk Sample.files))
     = verdict (PRReviewAgent.review_pr Case.runtime (Case.printing Case.lint_output "")
                  (Case.printing "messages" "") (Case.printing "units" "")
                  (PRData.mk
                     [ChangedFile.mk "app.py" "added" 0 0 "import os"
                        "https://host/raw/app.py";
                      ChangedFile.mk "new.py" "modified" 1 1 "x = 1" ""])).
Proof.
  assert (Hsame : analyzed Sample.files
                  = analyzed [ChangedFile.mk "app.py" "added" 0 0 "import os"
                                "https://host/raw/app.py";
                              ChangedFile.mk "new.py" "modified" 1 1 "x = 1" ""])
    by reflexivity.
  split; [exact Hsame|].
  apply (X17_review_reads_names_and_patches Case.runtime
           (Case.printing Case.lint_output "") (Case.printing "messages" "")
           (Case.printing "units" "") (PRData.mk Sample.files)
           (PRData.mk [ChangedFile.mk "app.py" "added" 0 0 "import os"
                         "https://host/raw/app.py";
                       ChangedFile.mk "new.py" "modified" 1 1 "x = 1" ""]) Hsame).
Defined.

(** ** The further properties on the sample inputs *)

Lemma X4_flake8_counters_witness :
  exists result issues,
    Flake8Analyzer.analyze Case.runtime (Case.printing Case.lint_output "") Case.one_file
    = Ok result
    /\ AnalysisResult.issues result = Some issues
    /\ AnalysisResult.errors result = Some (count_issues (finding_of "error") issues)
    /\ AnalysisResult.warnings result
       = Some (count_issues (finding_of "warning") issues
               + count_issues (finding_of "info") issues).
Proof.
  destruct (Flake8Analyzer.analyze Case.runtime (Case.printing Case.lint_output "")
              Case.one_file) as [result|e] eqn:Hok; [|vm_compute in Hok; discriminate].
  destruct (X4_flake8_counters Case.runtime (Case.printing Case.lint_output "")
              Case.one_file result Hok) as (issues & Hi & _ & He & Hw & _).
  exists result, issues. repeat split; assumption.
Defined.

Lemma X5_pylint_counters_witness :
  exists result issues infos,
    PylintAnalyzer.analyze Case.runtime (Case.printing "messages" "") Case.one_file
    = Ok result
    /\ AnalysisResult.issues result = Some issues
    /\ AnalysisResult.infos result = Some infos
    /\ 0 <= infos <= count_issues (finding_of "info") issues.
Proof.
  destruct (PylintAnalyzer.analyze Case.runtime (Case.printing "messages" "")
              Case.one_file) as [result|e] eqn:Hok; [|vm_compute in Hok; discriminate].
  destruct (X5_pylint_counters Case.runtime (Case.printing "messages" "")
              Case.one_file result Hok) as (issues & infos & Hi & _ & _ & _ & Hn & Hb & _).
  exists result, issues, infos. repeat split; try assumption; apply Hb.
Defined.

Lemma X6_summary_total_is_bucket_total_witness :
  exists review,
    PRReviewAgent.review_pr Case.runtime (Case.printing Case.lint_output "")
      (Case.printing "messages" "oops") (Case.printing "units" "")
      (PRData.mk Case.one_file) = Ok review
    /\ Summary.total_issues (Feedback.summary (Review.feedback review))
       = Z.of_nat (length (issues_of (Review.analysis review))).
Proof.
  destruct (PRReviewAgent.review_pr Case.runtime (Case.printing Case.lint_output "")
              (Case.printing "messages" "oops") (Case.printing "units" "")
              (PRData.mk Case.one_file)) as [review|e] eqn:Hok;
    [|vm_compute in Hok; discriminate].
  exists review. split; [reflexivity|].
  apply (X6_summary_total_is_bucket_total Case.runtime
           (Case.printing Case.lint_output "") (Case.printing "messages" "oops")
           (Case.printing "units" "") (PRData.mk Case.one_file) review Hok).
Defined.

Lemma X7_summary_against_buckets_witness :
  exists review,
    PRReviewAgent.review_pr Case.runtime (Case.printing Case.lint_output "")
      (Case.printing "messages" "oops") (Case.printing "units" "")
      (PRData.mk Case.one_file) = Ok review
    /\ Z.of_nat (bucket_count (Review.feedback review) "critical")
       = BySeverity.critical (Summary.by_severity (Feedback.summary (Review.feedback review)))
         + count_issues synthetic_error (issues_of (Review.analysis review)).
Proof.
  destruct (PRReviewAgent.review_pr Case.runtime (Case.printing Case.lint_output "")
              (Case.printing "messages" "oops") (Case.printing "units" "")
              (PRData.mk Case.one_file)) as [review|e] eqn:Hok;
    [|vm_compute in Hok; discriminate].
  exists review. split; [reflexivity|].
  apply (X7_summary_against_buckets Case.runtime
           (Case.printing Case.lint_output "") (Case.printing "messages" "oops")
           (Case.printing "units" "") (PRData.mk Case.one_file) review Hok).
Defined.

Lemma X8_feedback_raises_only_lower_witness :
  FeedbackGenerator.generate_feedback (PRData.mk Case.one_file) Case.ill_typed
  = Raise (AttributeError "lower" (PyInt 2))
  /\ lower_failure Case.ill_typed (AttributeError "lower" (PyInt 2)).
Proof.
  assert (Hraise : FeedbackGenerator.generate_feedback (PRData.mk Case.one_file)
                     Case.ill_typed = Raise (AttributeError "lower" (PyInt 2)))
    by reflexivity.
  split; [exact Hraise|].
  apply (X8_feedback_raises_only_lower (PRData.mk Case.one_file) Case.ill_typed
           (AttributeError "lower" (PyInt 2)) Hraise).
Defined.

Lemma X9_review_raises_only_pylint_message_witness :
  PRReviewAgent.review_pr Case.runtime (Case.printing Case.lint_output "")
    (Case.printing "broken" "") (Case.printing "units" "") (PRData.mk Case.one_file)
  = Raise (AttributeError "lower" (PyInt 404))
  /\ exists issue v,
       ("pylint", issue)
         ∈ all_issues
             (PRReviewAgent.run_analyzers Case.runtime (Case.printing Case.lint_output "")
                (Case.printing "broken" "") (Case.printing "units" "") Case.one_file)
       /\ Issue.message issue = Some v
       /\ not_str v.
Proof.
  assert (Hraise : PRReviewAgent.review_pr Case.runtime
                     (Case.printing Case.lint_output "") (Case.printing "broken" "")
                     (Case.printing "units" "") (PRData.mk Case.one_file)
                   = Raise (AttributeError "lower" (PyInt 404))) by reflexivity.
  split; [exact Hraise|].
  destruct (X9_review_raises_only_pylint_message Case.runtime
              (Case.printing Case.lint_output "") (Case.printing "broken" "")
              (Case.printing "units" "") (PRData.mk Case.one_file)) as [Honly _].
  destruct (Honly _ Hraise) as (issue & v & Hin & Hv & Hn & _).
  exists issue, v. auto.
Defined.

Lemma X10_review_score_from_severities_witness :
  exists review,
    PRReviewAgent.review_pr Case.runtime (Case.printing Case.lint_output "")
      (Case.printing "messages" "oops") (Case.printing "units" "")
      (PRData.mk Case.one_file) = Ok review
    /\ Review.quality_score review
       = Z.max 0 (100 - severity_cost (issues_of (Review.analysis review))).
Proof.
  destruct (PRReviewAgent.review_pr Case.runtime (Case.printing Case.lint_output "")
              (Case.printing "messages" "oops") (Case.printing "units" "")
              (PRData.mk Case.one_file)) as [review|e] eqn:Hok;
    [|vm_compute in Hok; discriminate].
  exists review. split; [reflexivity|].
  apply (X10_review_score_from_severities Case.runtime
           (Case.printing Case.lint_output "") (Case.printing "messages" "oops")
           (Case.printing "units" "") (PRData.mk Case.one_file) review Hok).
Defined.

Lemma X11_radon_json_object_witness :
  json_loads Case.runtime "by_file" = Some (PyDict Case.by_file)
  /\ RadonAnalyzer.parse_stdout Case.runtime "app.py" (Adapter.mkState [] 0) "by_file"
     = (Adapter.mkState [] 0, None).
Proof.
  assert (Hjson : json_loads Case.runtime "by_file" = Some (PyDict Case.by_file))
    by reflexivity.
  split; [exact Hjson|].
  rewrite (X11_radon_json_object Case.runtime "app.py" (Adapter.mkState [] 0) "by_file"
             Case.by_file Hjson).
  reflexivity.
Defined.

Lemma X12_flake8_line_round_trip_witness :
  Flake8Analyzer.parse_line Case.runtime "app.py"
    (Adapter.mkState [] (Flake8Analyzer.mkCounters 0 0))
    "3:7:N801:class name: bad"
  = (Adapter.mkState [lint_finding "app.py" 3 7 "N801" "class name: bad"]
       (Flake8Analyzer.mkCounters 0 1), None).
Proof.
  apply (X12_flake8_line_round_trip Case.runtime "app.py"
           (Adapter.mkState [] (Flake8Analyzer.mkCounters 0 0))
           "3" "7" "N801" "class name: bad" 3 7); reflexivity.
Defined.

Lemma X13_flake8_short_line_ignored_witness :
  (occurrences ":" "scratch.py: unreadable" < 3)%nat
  /\ Flake8Analyzer.parse_line Case.runtime "app.py"
       (Adapter.mkState [] (Flake8Analyzer.mkCounters 0 0)) "scratch.py: unreadable"
     = (Adapter.mkState [] (Flake8Analyzer.mkCounters 0 0), None).
Proof.
  assert (Hfew : (occurrences ":" "scratch.py: unreadable" < 3)%nat)
    by (vm_compute; lia).
  split; [exact Hfew|].
  apply (X13_flake8_short_line_ignored Case.runtime "app.py"
           (Adapter.mkState [] (Flake8Analyzer.mkCounters 0 0))
           "scratch.py: unreadable" Hfew).
Defined.

Lemma X14_parser_failure_reported_witness :
  Adapter.analyze_file Case.runtime (Case.printing "x:1:E501:line too long" "crashed")
    (Flake8Analyzer.tool Case.runtime)
    (Adapter.mkState [] (Flake8Analyzer.mkCounters 0 0), 0%nat)
    (ChangedFile.mk "app.py" "modified" 4 1 "import os" "")
  = Ok (Adapter.mkState
          [Adapter.synthetic "app.py"
             ("Error running Flake8: "
              +:+ exn_str Case.runtime (ValueError "int" "x"))]
          (Flake8Analyzer.mkCounters 0 0), 1%nat).
Proof.
  destruct (X14_parser_failure_reported Case.runtime
              (Case.printing "x:1:E501:line too long" "crashed")) as [Hstep _].
  destruct (Hstep (Adapter.mkState [] (Flake8Analyzer.mkCounters 0 0)) 0%nat
              (ChangedFile.mk "app.py" "modified" 4 1 "import os" "")
              "/tmp/scratch.py"
              {| stdout := "x:1:E501:line too long"; stderr := "crashed" |}
              (Adapter.mkState [] (Flake8Analyzer.mkCounters 0 0))
              (ValueError "int" "x")
              eq_refl eq_refl eq_refl eq_refl eq_refl) as (_ & _ & Hfile).
  exact Hfile.
Defined.

